(** * YouTube-Setm: the processing pipeline of [youtube-setm.py]

    A shallow embedding of the helper functions and of [ProcessingThread]
    of [src/youtube-setm.py], and the properties its specification states
    about them.

    Conventions of the embedding.
    - A Python [str] is a [string]; its characters are the code points
      0..255, read as Latin-1.  Character predicates ([str.isspace], the
      classes of [re]) are written out on that range.
    - A regular expression of the source is a value of [regex]; matching is
      the backtracking matcher [exec] (ordered alternatives, greedy
      repetition), the semantics of Python's [re] on the constructs used.
    - A Python [float] is a binary64 value, a [spec_float] with the
      operations of [SpecFloat] at precision 53.
    - Signals emitted, processes spawned and calls to the translation
      service are recorded in a trace, in program order. *)

From Stdlib Require Import ZArith NArith List String Ascii Bool Lia SpecFloat.
From Stdlib Require Import DecimalString.
Import ListNotations.

Open Scope list_scope.
Open Scope string_scope.

(* ================================================================== *)
(** * Python strings *)

Module PyStr.

Definition code (c : ascii) : N := N_of_ascii c.

Definition in_range (lo hi : N) (c : ascii) : bool :=
  (lo <=? code c)%N && (code c <=? hi)%N.

Definition chr (n : N) : ascii := ascii_of_N n.

(** [str.isspace] on one character: the code points below 256 that
    Python counts as whitespace (also what [\s] of [re] matches). *)
Definition isspace (c : ascii) : bool :=
  in_range 9 13 c || in_range 28 32 c
  || (code c =? 133)%N || (code c =? 160)%N.

(** The ASCII digits, [0-9]; below 256 these are what [\d] matches. *)
Definition isdecimal (c : ascii) : bool := in_range 48 57 c.

(** [str.isdigit] on one character: the decimal digits and the
    superscript digits of Latin-1. *)
Definition isdigit (c : ascii) : bool :=
  isdecimal c || (code c =? 178)%N || (code c =? 179)%N || (code c =? 185)%N.

Fixpoint all (p : ascii -> bool) (s : string) : bool :=
  match s with
  | EmptyString => true
  | String c s' => p c && all p s'
  end.

Definition is_empty (s : string) : bool :=
  match s with EmptyString => true | String _ _ => false end.

(** [s.lstrip()], [s.rstrip()], [s.strip()]. *)
Fixpoint lstrip (s : string) : string :=
  match s with
  | EmptyString => EmptyString
  | String c s' => if isspace c then lstrip s' else s
  end.

Fixpoint rstrip (s : string) : string :=
  match s with
  | EmptyString => EmptyString
  | String c s' =>
      let r := rstrip s' in
      if is_empty r && isspace c then EmptyString else String c r
  end.

Definition strip (s : string) : string := rstrip (lstrip s).

(** [sep.join(l)]. *)
Fixpoint join (sep : string) (l : list string) : string :=
  match l with
  | [] => EmptyString
  | [x] => x
  | x :: l' => x ++ sep ++ join sep l'
  end.

(** [sub in s]. *)
Fixpoint contains (sub s : string) : bool :=
  prefix sub s ||
  match s with
  | EmptyString => false
  | String _ s' => contains sub s'
  end.

(** [s[n:]]. *)
Fixpoint drop (n : nat) (s : string) : string :=
  match n, s with
  | O, _ => s
  | S n', String _ s' => drop n' s'
  | S _, EmptyString => EmptyString
  end.

(** [s[:n]]. *)
Fixpoint take (n : nat) (s : string) : string :=
  match n, s with
  | S n', String c s' => String c (take n' s')
  | _, _ => EmptyString
  end.

(** [s.replace(old, new)] for a one-character [old]. *)
Fixpoint replace_char (old : ascii) (new : string) (s : string) : string :=
  match s with
  | EmptyString => EmptyString
  | String c s' =>
      if Ascii.eqb c old then new ++ replace_char old new s'
      else String c (replace_char old new s')
  end.

(** [s.replace(old, new, 1)] for a one-character [old]. *)
Fixpoint replace_char_once (old : ascii) (new : string) (s : string) : string :=
  match s with
  | EmptyString => EmptyString
  | String c s' =>
      if Ascii.eqb c old then new ++ s'
      else String c (replace_char_once old new s')
  end.

(** [str(n)] for an integer. *)
Definition of_Z (n : Z) : string := NilEmpty.string_of_int (Z.to_int n).

Definition newline : string := String (chr 10) EmptyString.
Definition escape : ascii := chr 27.
Definition dquote : ascii := chr 34.
Definition backslash : ascii := chr 92.

(** [str(n)] for a length. *)
Definition of_nat (n : nat) : string := of_Z (Z.of_nat n).

(** [c in s] for a character. *)
Fixpoint has (c : ascii) (s : string) : bool :=
  match s with
  | EmptyString => false
  | String d s' => Ascii.eqb d c || has c s'
  end.

(** [str.isprintable] on one character: below 256, everything but the
    control characters, the no-break space and the soft hyphen. *)
Definition isprintable (c : ascii) : bool :=
  in_range 32 126 c || (in_range 161 255 c && negb (code c =? 173)%N).

Definition hex_digit (n : N) : ascii :=
  if (n <? 10)%N then chr (48 + n) else chr (87 + n).

(** The escape [\xhh] of a character. *)
Definition hex_escape (c : ascii) : string :=
  String backslash
    (String "x" (String (hex_digit (code c / 16))
                   (String (hex_digit (code c mod 16)) EmptyString))).

Definition escaped (quote c : ascii) : string :=
  if Ascii.eqb c quote || Ascii.eqb c backslash
  then String backslash (String c EmptyString)
  else if (code c =? 9)%N then String backslash "t"
  else if (code c =? 10)%N then String backslash "n"
  else if (code c =? 13)%N then String backslash "r"
  else if isprintable c then String c EmptyString
  else hex_escape c.

Fixpoint escape_all (quote : ascii) (s : string) : string :=
  match s with
  | EmptyString => EmptyString
  | String c s' => escaped quote c ++ escape_all quote s'
  end.

(** [repr(s)]: in single quotes, or in double quotes when [s] holds a
    single quote and no double quote. *)
Definition repr (s : string) : string :=
  let quote := if has "'" s && negb (has dquote s) then dquote else "'"%char in
  String quote (escape_all quote s ++ String quote EmptyString).

End PyStr.

(* ================================================================== *)
(** * Regular expressions, as [re] matches them *)

Module Re.

Inductive regex : Type :=
| Eps                              (* the empty pattern *)
| Cls (p : ascii -> bool)          (* one character of a class *)
| Seq (r1 r2 : regex)              (* r1 r2 *)
| Alt (r1 r2 : regex)              (* r1|r2, the left one first *)
| Star (r : regex)                 (* r*, greedy *)
| Eol.                             (* $ *)

Definition Chr (c : ascii) : regex := Cls (Ascii.eqb c).
Definition Opt (r : regex) : regex := Alt r Eps.          (* r? *)
Definition Plus (r : regex) : regex := Seq r (Star r).    (* r+ *)

(** A literal string. *)
Fixpoint Lit (s : string) : regex :=
  match s with
  | EmptyString => Eps
  | String c s' => Seq (Chr c) (Lit s')
  end.

(** [$] without MULTILINE: the end of the string, or just before a
    newline that ends the string. *)
Definition at_end (s : string) : bool :=
  match s with
  | EmptyString => true
  | String c EmptyString => (PyStr.code c =? 10)%N
  | _ => false
  end.

(** The backtracking matcher: [exec r s k] matches [r] at the start of
    [s] and hands the rest to the continuation [k]; a [None] of the
    continuation makes the matcher try its next choice. *)
Fixpoint exec {A : Type} (r : regex) (s : string)
         (k : string -> option A) {struct r} : option A :=
  match r with
  | Eps => k s
  | Cls p =>
      match s with
      | String c s' => if p c then k s' else None
      | EmptyString => None
      end
  | Seq r1 r2 => exec r1 s (fun s1 => exec r2 s1 k)
  | Alt r1 r2 =>
      match exec r1 s k with
      | Some x => Some x
      | None => exec r2 s k
      end
  | Star r1 =>
      (fix loop (fuel : nat) (s : string) {struct fuel} : option A :=
         match fuel with
         | O => k s
         | S fuel' =>
             match exec r1 s (fun s1 =>
                       if (length s1 <? length s)%nat
                       then loop fuel' s1 else None) with
             | Some x => Some x
             | None => k s
             end
         end) (length s) s
  | Eol => if at_end s then k s else None
  end.

(** The rest of [s] after the match of [r] at its start. *)
Definition match_rest (r : regex) (s : string) : option string :=
  exec r s (fun rest => Some rest).

(** [re.match(r, s)]: the text matched at the start of [s]. *)
Definition re_match (r : regex) (s : string) : option string :=
  match match_rest r s with
  | Some rest => Some (PyStr.take (length s - length rest) s)
  | None => None
  end.

(** [re.search(r, s)]: the first match, scanning from the left. *)
Fixpoint re_search (r : regex) (s : string) : option string :=
  match re_match r s with
  | Some m => Some m
  | None =>
      match s with
      | EmptyString => None
      | String _ s' => re_search r s'
      end
  end.

(** [re.sub(r, '', s)] for a pattern that matches no empty text: every
    match, found from the left, is deleted.  [skip] counts the characters
    of the current match still to delete. *)
Fixpoint delete_from (r : regex) (skip : nat) (s : string) : string :=
  match s with
  | EmptyString => EmptyString
  | String c s' =>
      match skip with
      | S n => delete_from r n s'
      | O =>
          match re_match r s with
          | Some (String _ m) => delete_from r (length m) s'
          | _ => String c (delete_from r O s')
          end
      end
  end.

Definition re_delete (r : regex) (s : string) : string := delete_from r O s.

(** The declarative reading of a pattern: [matches r s rest] when [r]
    matches a prefix of [s] that leaves [rest].  It says which matches
    exist, not which one the matcher prefers. *)
Inductive matches : regex -> string -> string -> Prop :=
| matches_eps : forall s, matches Eps s s
| matches_cls : forall (p : ascii -> bool) c s,
    p c = true -> matches (Cls p) (String c s) s
| matches_seq : forall r1 r2 s s1 s2,
    matches r1 s s1 -> matches r2 s1 s2 -> matches (Seq r1 r2) s s2
| matches_alt_l : forall r1 r2 s s1,
    matches r1 s s1 -> matches (Alt r1 r2) s s1
| matches_alt_r : forall r1 r2 s s1,
    matches r2 s s1 -> matches (Alt r1 r2) s s1
| matches_star_stop : forall r s, matches (Star r) s s
| matches_star_more : forall r s s1 s2,
    matches r s s1 -> matches (Star r) s1 s2 -> matches (Star r) s s2
| matches_eol : forall s, at_end s = true -> matches Eol s s.

End Re.

(* ================================================================== *)
(** * [clean_youtube_url] *)

Module Url.
Import Re.

(** [[a-zA-Z0-9_-]] *)
Definition idchar (c : ascii) : bool :=
  PyStr.in_range 97 122 c || PyStr.in_range 65 90 c
  || PyStr.in_range 48 57 c
  || (PyStr.code c =? 95)%N || (PyStr.code c =? 45)%N.

(** [(https?://(?:www\.|m\.|music\.)?youtube\.com/watch\?v=[a-zA-Z0-9_-]+)] *)
Definition watch_pattern : regex :=
  Seq (Lit "http") (Seq (Opt (Chr "s")) (Seq (Lit "://")
    (Seq (Opt (Alt (Lit "www.") (Alt (Lit "m.") (Lit "music."))))
      (Seq (Lit "youtube.com/watch?v=") (Plus (Cls idchar)))))).

(** [(https?://youtu\.be/[a-zA-Z0-9_-]+)] *)
Definition short_pattern : regex :=
  Seq (Lit "http") (Seq (Opt (Chr "s"))
    (Seq (Lit "://youtu.be/") (Plus (Cls idchar)))).

Definition patterns : list regex := [watch_pattern; short_pattern].

(** The loop over [patterns]: the first pattern that matches at the start
    of [url] gives its group 1, the whole match. *)
Fixpoint first_match (ps : list regex) (url : string) : option string :=
  match ps with
  | [] => None
  | p :: ps' =>
      match re_match p url with
      | Some m => Some m
      | None => first_match ps' url
      end
  end.

Definition clean_youtube_url (url : string) : string :=
  match first_match patterns url with
  | Some m => m
  | None => url
  end.

(** The canonical forms: one of these prefixes, then a video id. *)
Definition watch_prefixes : list string :=
  ["http://www.youtube.com/watch?v="; "http://m.youtube.com/watch?v=";
   "http://music.youtube.com/watch?v="; "http://youtube.com/watch?v=";
   "https://www.youtube.com/watch?v="; "https://m.youtube.com/watch?v=";
   "https://music.youtube.com/watch?v="; "https://youtube.com/watch?v="].

Definition short_prefixes : list string :=
  ["http://youtu.be/"; "https://youtu.be/"].

Definition url_prefixes : list string := (watch_prefixes ++ short_prefixes)%list.

Definition is_video_id (ids : string) : bool :=
  negb (PyStr.is_empty ids) && PyStr.all idchar ids.

End Url.

(* ================================================================== *)
(** * Exceptions and results of Python calls *)

(** The exceptions that occur; every one is a subclass of [Exception]. *)
Inductive exn : Type :=
| DownloadCancelled                (* yt_dlp.utils.DownloadCancelled *)
| RuntimeError (msg : string)
| ValueError (msg : string)
| TypeError (msg : string)
| OverflowError (msg : string)
| OtherError (msg : string).       (* DownloadError, OSError, ... *)

(** [str(e)]. *)
Definition exn_str (e : exn) : string :=
  match e with
  | DownloadCancelled => "The download was cancelled"
  | RuntimeError m | ValueError m | TypeError m
  | OverflowError m | OtherError m => m
  end.

(** A call returns a value or raises. *)
Inductive res (A : Type) : Type :=
| Ok (a : A)
| Raise (e : exn).
Arguments Ok {A} a.
Arguments Raise {A} e.

(* ================================================================== *)
(** * Python floats *)

Module PyFloat.

Definition prec : Z := 53.
Definition emax : Z := 1024.

Definition float : Type := spec_float.

(** [float(n)] of an integer, rounded to nearest even. *)
Definition of_int (n : Z) : float := binary_normalize prec emax n 0 false.

Definition add : float -> float -> float := SFadd prec emax.
Definition mul : float -> float -> float := SFmul prec emax.
Definition div : float -> float -> float := SFdiv prec emax.

(** [x > 0]. *)
Definition gt0 (x : float) : bool := SFltb (S754_zero false) x.

(** [int(x)]: truncation toward zero. *)
Definition to_int (x : float) : res Z :=
  match x with
  | S754_zero _ => Ok 0%Z
  | S754_finite s m e =>
      Ok (cond_Zopp s (if (0 <=? e)%Z then Z.shiftl (Zpos m) e
                       else Z.shiftr (Zpos m) (- e)))
  | S754_infinity _ =>
      Raise (OverflowError "cannot convert float infinity to integer")
  | S754_nan => Raise (ValueError "cannot convert float NaN to integer")
  end.

(** [p] is [x] without its fraction: [|p| <= |x| < |p| + 1], and [p]
    has the sign of [x].  The value of a finite [x] is the quotient of
    [num] by [den]. *)
Definition truncates (x : float) (p : Z) : Prop :=
  match x with
  | S754_zero _ => p = 0%Z
  | S754_finite s m e =>
      let num := (Zpos m * 2 ^ Z.max e 0)%Z in
      let den := (2 ^ Z.max (- e) 0)%Z in
      p = cond_Zopp s (Z.abs p) /\
      (Z.abs p * den <= num < (Z.abs p + 1) * den)%Z
  | _ => False
  end.


(** ** [float(s)] of a string *)

Fixpoint span (p : ascii -> bool) (s : string) : string * string :=
  match s with
  | EmptyString => (EmptyString, EmptyString)
  | String c s' =>
      if p c then let (a, b) := span p s' in (String c a, b)
      else (EmptyString, s)
  end.

(** The value of a string of ASCII digits, from the left. *)
Fixpoint digits_from (acc : Z) (s : string) : Z :=
  match s with
  | EmptyString => acc
  | String c s' =>
      digits_from (10 * acc + (Z.of_N (PyStr.code c) - 48))%Z s'
  end.
Definition digits (s : string) : Z := digits_from 0 s.

(** The whitespace [float] strips: ASCII blanks, and the Latin-1
    spaces, which it first turns into blanks. *)
Definition isblank (c : ascii) : bool :=
  PyStr.in_range 9 13 c
  || (PyStr.code c =? 32)%N || (PyStr.code c =? 133)%N
  || (PyStr.code c =? 160)%N.

Fixpoint lstrip_blank (s : string) : string :=
  match s with
  | EmptyString => EmptyString
  | String c s' => if isblank c then lstrip_blank s' else s
  end.

Fixpoint rstrip_blank (s : string) : string :=
  match s with
  | EmptyString => EmptyString
  | String c s' =>
      let r := rstrip_blank s' in
      if PyStr.is_empty r && isblank c then EmptyString else String c r
  end.

(** Underscores: allowed between two digits only.  [prev] is the
    character before, [None] at the start. *)
Fixpoint drop_underscores (prev : option ascii) (s : string) : option string :=
  let prev_digit :=
    match prev with Some p => PyStr.isdecimal p | None => false end in
  let prev_underscore :=
    match prev with Some p => (PyStr.code p =? 95)%N | None => false end in
  match s with
  | EmptyString => if prev_underscore then None else Some EmptyString
  | String c s' =>
      if (PyStr.code c =? 95)%N then
        if prev_digit then drop_underscores (Some c) s' else None
      else if prev_underscore && negb (PyStr.isdecimal c) then None
      else
        match drop_underscores (Some c) s' with
        | Some r => Some (String c r)
        | None => None
        end
  end.

(** An optional sign: [true] for [-]. *)
Definition sign (s : string) : bool * string :=
  match s with
  | String "-" s' => (true, s')
  | String "+" s' => (false, s')
  | _ => (false, s)
  end.

Definition lower (c : ascii) : ascii :=
  if PyStr.in_range 65 90 c then PyStr.chr (PyStr.code c + 32) else c.

Fixpoint lower_str (s : string) : string :=
  match s with
  | EmptyString => EmptyString
  | String c s' => String (lower c) (lower_str s')
  end.

(** The decimal [m * 10^e], correctly rounded. *)
Definition of_decimal (neg : bool) (m e : Z) : float :=
  match m with
  | Zpos p =>
      if (0 <=? e)%Z then binary_normalize prec emax (cond_Zopp neg (m * 10 ^ e)) 0 false
      else div (S754_finite neg p 0)
               (S754_finite false (Z.to_pos (10 ^ (- e))) 0)
  | _ => S754_zero neg
  end.

(** digits [.digits] [(e|E)[sign]digits], with a digit before the
    exponent: the mantissa and the decimal exponent. *)
Definition parse_decimal (s : string) : option (Z * Z) :=
  let (ip, r1) := span PyStr.isdecimal s in
  let (fp, r2) :=
    match r1 with
    | String "." r => span PyStr.isdecimal r
    | _ => (EmptyString, r1)
    end in
  let m := digits (ip ++ fp) in
  let e := (- Z.of_nat (length fp))%Z in
  if PyStr.is_empty ip && PyStr.is_empty fp then None
  else
    match r2 with
    | EmptyString => Some (m, e)
    | String c r3 =>
        if Ascii.eqb (lower c) "e" then
          let (eneg, r4) := sign r3 in
          let (ed, r5) := span PyStr.isdecimal r4 in
          if PyStr.is_empty ed || negb (PyStr.is_empty r5) then None
          else Some (m, (cond_Zopp eneg (digits ed) + e)%Z)
        else None
    end.

(** [float(s)]: [None] stands for the [ValueError] of a string that is
    no number. *)
Definition of_string (s : string) : option float :=
  match drop_underscores None (rstrip_blank (lstrip_blank s)) with
  | None => None
  | Some t =>
      let (neg, body) := sign t in
      let low := lower_str body in
      if String.eqb low "inf" || String.eqb low "infinity"
      then Some (S754_infinity neg)
      else if String.eqb low "nan" then Some S754_nan
      else
        match parse_decimal body with
        | Some (m, e) => Some (of_decimal neg m e)
        | None => None
        end
  end.

End PyFloat.

(* ================================================================== *)
(** * The progress interpreters *)

(** What the worker thread does that an observer can see, in program
    order: the signals it emits and what it does to the child process. *)
Inductive event : Type :=
| StageChanged (label : string)                 (* stage_changed.emit *)
| Progress (percent : Z) (detail : string)      (* progress_update.emit *)
| Log (text : string)                           (* log_message.emit *)
| Finished (success : bool) (message path : string)  (* finished.emit *)
| InfoRetrieved (title : string)                (* video_info_retrieved.emit *)
| Download (format outtmpl : string)            (* YoutubeDL(opts).download *)
| Spawn (cmd : list string)                     (* subprocess.Popen *)
| Terminate                                     (* current_process.terminate *)
| Wait                                          (* current_process.wait *)
| TranslateCall (text : string).                (* translate_text_deepseek *)

Module Interp.
Import Re.

(** The dictionary yt-dlp hands to a progress hook: [d['status']],
    [d.get('_percent_str')] and [d.get('_speed_str')]. *)
Record payload : Type := {
  status : string;
  percent_str : option string;
  speed_str : option string
}.

(** [\x1B(?:[@-Z\\-_]|\[[0-?]*[ -/]*[@-~])] *)
Definition ansi_escape_pattern : regex :=
  Seq (Chr PyStr.escape)
    (Alt (Cls (fun c => PyStr.in_range 64 90 c || PyStr.in_range 92 95 c))
         (Seq (Chr "[")
           (Seq (Star (Cls (PyStr.in_range 48 63)))
             (Seq (Star (Cls (PyStr.in_range 32 47)))
                  (Cls (PyStr.in_range 64 126)))))).

Definition get (default : string) (v : option string) : string :=
  match v with Some s => s | None => default end.

Definition clean_percent (raw : string) : string :=
  PyStr.strip (PyStr.replace_char "%" EmptyString
                 (re_delete ansi_escape_pattern raw)).

Definition clean_speed (raw : string) : string :=
  PyStr.strip (re_delete ansi_escape_pattern raw).

(** [self.log_message] is a bound signal: calling it, where every other
    place calls its [emit], raises. *)
Definition signal_called : exn :=
  TypeError "native Qt signal is not callable".

(** [progress_hook(d)], given the value of [self._is_cancelled]: the
    events it emits, or the exception it raises. *)
Definition progress_hook (is_cancelled : bool) (d : payload) : res (list event) :=
  if is_cancelled then Raise DownloadCancelled
  else if String.eqb (status d) "downloading" then
    let percent_str_raw := get "0.0%" (percent_str d) in
    let speed_str_raw := get "N/A" (speed_str d) in
    let percent_str_clean := clean_percent percent_str_raw in
    let speed_str_clean := clean_speed speed_str_raw in
    match PyFloat.of_string percent_str_clean with
    | Some percent =>
        match PyFloat.to_int percent with
        | Ok p => Ok [Progress p speed_str_clean]
        | Raise (ValueError _) => Raise signal_called
        | Raise e => Raise e
        end
    | None => Raise signal_called
    end
  else if String.eqb (status d) "finished" then
    Ok [Progress 100 "Finalizing..."]
  else Ok [].

Definition d2 : regex := Seq (Cls PyStr.isdecimal) (Cls PyStr.isdecimal).

(** [time=(\d{2}):(\d{2}):(\d{2})\.(\d{2})] *)
Definition time_pattern : regex :=
  Seq (Lit "time=") (Seq d2 (Seq (Chr ":") (Seq d2 (Seq (Chr ":")
    (Seq d2 (Seq (Chr ".") d2)))))).

(** The four groups of a match of [time_pattern], through [int]. *)
Definition time_groups (m : string) : Z * Z * Z * Z :=
  let g (i : nat) := PyFloat.digits (substring i 2 m) in
  (g 5%nat, g 8%nat, g 11%nat, g 14%nat).

(** [int((elapsed_seconds / total_duration) * 100)], where
    [elapsed_seconds = h * 3600 + m * 60 + s + ms / 100]. *)
Definition encoded_percent (h m s ms : Z) (total_duration : PyFloat.float)
  : res Z :=
  let elapsed_seconds :=
    PyFloat.add (PyFloat.of_int (h * 3600 + m * 60 + s))
                (PyFloat.div (PyFloat.of_int ms) (PyFloat.of_int 100)) in
  PyFloat.to_int
    (PyFloat.mul (PyFloat.div elapsed_seconds total_duration)
                 (PyFloat.of_int 100)).

(** The body of the loop of [_synthesize_video] after the line is
    logged: the progress it emits for one line of encoder output. *)
Definition encode_progress (line : string) (total_duration : PyFloat.float)
  : res (list event) :=
  if PyStr.contains "time=" line then
    match re_search time_pattern line with
    | Some mt =>
        if PyFloat.gt0 total_duration then
          let '(h, m, s, ms) := time_groups mt in
          match encoded_percent h m s ms total_duration with
          | Ok progress =>
              Ok [Progress progress (PyStr.of_Z progress ++ "% encoded")]
          | Raise e => Raise e
          end
        else Ok []
    | None => Ok []
    end
  else Ok [].






End Interp.

(* ================================================================== *)
(** * [translate_srt_file] *)

Module Srt.
Import Re.

(** [^\d+\s*$], matched at the start of the line. *)
Definition index_pattern : regex :=
  Seq (Plus (Cls PyStr.isdecimal)) (Seq (Star (Cls PyStr.isspace)) Eol).

(** [re.match(r'^\d+\s*$', line)] *)
Definition is_index_line (line : string) : bool :=
  match match_rest index_pattern line with Some _ => true | None => false end.

(** ['-->' in line] *)
Definition is_timing_line (line : string) : bool := PyStr.contains "-->" line.

(** [not line.strip()] *)
Definition is_blank_line (line : string) : bool :=
  PyStr.is_empty (PyStr.strip line).

Definition add_newline (l : string) : string := l ++ PyStr.newline.

Section Translator.

(** The translation service: its state, and the call
    [translate_text_deepseek(text, api_key)] for the key of the run,
    which answers with the translation or raises. *)
Variable W : Type.
Variable translate_text_deepseek : string -> W -> res string * W.

(** The variables of the loop, the service and the trace so far. *)
Record loop_state : Type := {
  translated_lines : list string;
  text_buffer : list string;
  service : W;
  trace : list event
}.

Definition init (w : W) : loop_state :=
  {| translated_lines := []; text_buffer := []; service := w; trace := [] |}.

(** [translated_lines.append(line)] *)
Definition append_line (line : string) (st : loop_state) : loop_state :=
  {| translated_lines := translated_lines st ++ [line];
     text_buffer := text_buffer st;
     service := service st;
     trace := trace st |}.

(** The translation of the buffered text, with its fallback: the
    statements under [if text_buffer:], which the source has twice. *)
Definition translate_buffer (st : loop_state) : loop_state :=
  let original_text := PyStr.strip (PyStr.join " " (text_buffer st)) in
  let asked := (trace st ++ [Log ("[INFO] Translating: " ++ original_text);
                             TranslateCall original_text])%list in
  match translate_text_deepseek original_text (service st) with
  | (Ok translated_text, w) =>
      {| translated_lines := translated_lines st ++ [add_newline translated_text];
         text_buffer := text_buffer st;
         service := w;
         trace := asked |}
  | (Raise e, w) =>
      {| translated_lines := translated_lines st ++ map add_newline (text_buffer st);
         text_buffer := text_buffer st;
         service := w;
         trace := (asked ++ [Log ("[ERROR] Translation failed for '"
                                  ++ original_text ++ "': " ++ exn_str e)])%list |}
  end.

(** [text_buffer = []] *)
Definition clear_buffer (st : loop_state) : loop_state :=
  {| translated_lines := translated_lines st;
     text_buffer := [];
     service := service st;
     trace := trace st |}.

Definition flush (st : loop_state) : loop_state :=
  match text_buffer st with
  | [] => st
  | _ :: _ => translate_buffer st
  end.

(** One turn of [for i, line in enumerate(lines)]. *)
Definition step (st : loop_state) (line : string) : loop_state :=
  if is_index_line line then append_line line st
  else if is_timing_line line then append_line line st
  else if is_blank_line line then
    append_line PyStr.newline
      (match text_buffer st with
       | [] => st
       | _ :: _ => clear_buffer (translate_buffer st)
       end)
  else
    {| translated_lines := translated_lines st;
       text_buffer := text_buffer st ++ [PyStr.strip line];
       service := service st;
       trace := trace st |}.

Definition run_loop (lines : list string) (st : loop_state) : loop_state :=
  fold_left step lines st.

(** The function between reading [lines] and writing
    [translated_lines]. *)
Definition translate_lines (lines : list string) (w : W) : loop_state :=
  flush (run_loop lines (init w)).

(** [translate_srt_file]: [input] is what reading [input_srt] gives,
    [write_error] the error of writing [output_srt], if any.  The
    result holds the lines written. *)
Definition translate_srt_file (input : res (list string))
           (write_error : option exn) (w : W)
  : res (list string) * W * list event :=
  match input with
  | Raise e => (Raise e, w, [])
  | Ok lines =>
      let st := translate_lines lines w in
      match write_error with
      | Some e => (Raise e, service st, trace st)
      | None => (Ok (translated_lines st), service st, trace st)
      end
  end.

(** ** Caption blocks *)

Record CaptionBlock : Type := {
  index : string;
  timing : string;
  text : list string
}.

(** A line of text, as the loop tells it from the others. *)
Definition is_text_line (line : string) : bool :=
  negb (is_index_line line) && negb (is_timing_line line)
  && negb (is_blank_line line).

Definition well_formed (b : CaptionBlock) : Prop :=
  is_index_line (index b) = true /\
  is_index_line (timing b) = false /\ is_timing_line (timing b) = true /\
  Forall (fun l => is_text_line l = true) (text b).

(** The lines of a caption file: each block is its index line, its
    timing line and its text lines; a blank line ends every block, the
    last one only when [final_blank] holds. *)
Fixpoint caption_file (final_blank : bool) (bs : list CaptionBlock) : list string :=
  match bs with
  | [] => []
  | b :: bs' =>
      index b :: timing b :: text b ++
      match bs' with
      | [] => if final_blank then [PyStr.newline] else []
      | _ :: _ => PyStr.newline :: caption_file final_blank bs'
      end
  end.

(** The text handed to the service for a block. *)
Definition joined_text (ls : list string) : string :=
  PyStr.strip (PyStr.join " " (map PyStr.strip ls)).

(** A block after translation: [fallback] gives the text lines kept
    when the service raises. *)
Definition translate_block (fallback : list string -> list string)
           (b : CaptionBlock) (w : W) : CaptionBlock * W :=
  match text b with
  | [] => (b, w)
  | _ :: _ =>
      match translate_text_deepseek (joined_text (text b)) w with
      | (Ok t, w') =>
          ({| index := index b; timing := timing b; text := [add_newline t] |}, w')
      | (Raise _, w') =>
          ({| index := index b; timing := timing b; text := fallback (text b) |}, w')
      end
  end.

Fixpoint translate_blocks (fallback : list string -> list string)
         (bs : list CaptionBlock) (w : W) : list CaptionBlock * W :=
  match bs with
  | [] => ([], w)
  | b :: bs' =>
      let (b1, w1) := translate_block fallback b w in
      let (bs1, w2) := translate_blocks fallback bs' w1 in
      (b1 :: bs1, w2)
  end.

(** The fallback of the code: the lines stripped, a newline added. *)
Definition stripped (ls : list string) : list string :=
  map (fun l => add_newline (PyStr.strip l)) ls.

(** The fallback in the words of the specification: the block's
    original text lines, verbatim. *)
Definition verbatim (ls : list string) : list string := ls.

End Translator.

Arguments translated_lines {W} _.
Arguments text_buffer {W} _.
Arguments service {W} _.
Arguments trace {W} _.
Arguments init {W} w.
Arguments append_line {W} line st.
Arguments translate_buffer {W} translate_text_deepseek st.
Arguments clear_buffer {W} st.
Arguments flush {W} translate_text_deepseek st.
Arguments step {W} translate_text_deepseek st line.
Arguments run_loop {W} translate_text_deepseek lines st.
Arguments translate_lines {W} translate_text_deepseek lines w.
Arguments translate_srt_file {W} translate_text_deepseek input write_error w.
Arguments translate_block {W} translate_text_deepseek fallback b w.
Arguments translate_blocks {W} translate_text_deepseek fallback bs w.

End Srt.

(* ================================================================== *)
(** * Values of JSON *)

Module Json.

(** What [json.loads] and [response.json()] give: [None], a [bool], an
    [int], a [float], a [str], a [list] or a [dict], whose keys are
    strings; the members of a [dict] hold each key once.  Values are
    taken apart by cases only. *)
Local Unset Elimination Schemes.
Inductive value : Type :=
| Null
| Bool (b : bool)
| Int (n : Z)
| Float (x : PyFloat.float)
| Str (s : string)
| Arr (items : list value)
| Obj (members : list (string * value)).
Local Set Elimination Schemes.

Fixpoint lookup (key : string) (members : list (string * value))
  : option value :=
  match members with
  | [] => None
  | (k, v) :: rest => if String.eqb k key then Some v else lookup key rest
  end.

(** The name of the type of a value, as error messages have it. *)
Definition type_name (v : value) : string :=
  match v with
  | Null => "NoneType"
  | Bool _ => "bool"
  | Int _ => "int"
  | Float _ => "float"
  | Str _ => "str"
  | Arr _ => "list"
  | Obj _ => "dict"
  end.

(** [KeyError(key)], [IndexError] and [AttributeError]: subclasses of
    [Exception] with the texts [str] gives them. *)
Definition KeyError (key : string) : exn := OtherError (PyStr.repr key).
Definition IndexError (msg : string) : exn := OtherError msg.
Definition AttributeError (msg : string) : exn := OtherError msg.

(** [v[key]] for a string [key]. *)
Definition item (v : value) (key : string) : res value :=
  match v with
  | Obj members =>
      match lookup key members with
      | Some x => Ok x
      | None => Raise (KeyError key)
      end
  | Arr _ => Raise (TypeError "list indices must be integers or slices, not str")
  | Str _ => Raise (TypeError "string indices must be integers, not 'str'")
  | _ => Raise (TypeError ("'" ++ type_name v ++ "' object is not subscriptable"))
  end.

(** [v[0]]. *)
Definition first (v : value) : res value :=
  match v with
  | Arr (x :: _) => Ok x
  | Arr [] => Raise (IndexError "list index out of range")
  | Str (String c _) => Ok (Str (String c EmptyString))
  | Str EmptyString => Raise (IndexError "string index out of range")
  | Obj _ => Raise (OtherError "0")
  | _ => Raise (TypeError ("'" ++ type_name v ++ "' object is not subscriptable"))
  end.

(** [float(v)]; the text of the [ValueError] ends with [repr] of the
    string. *)
Definition to_float (v : value) : res PyFloat.float :=
  match v with
  | Float x => Ok x
  | Int n =>
      match PyFloat.of_int n with
      | S754_infinity _ => Raise (OverflowError "int too large to convert to float")
      | x => Ok x
      end
  | Bool b => Ok (PyFloat.of_int (if b then 1 else 0))
  | Str s =>
      match PyFloat.of_string s with
      | Some x => Ok x
      | None => Raise (ValueError ("could not convert string to float: "
                                   ++ PyStr.repr s))
      end
  | _ => Raise (TypeError ("float() argument must be a string or a real number, not '"
                           ++ type_name v ++ "'"))
  end.

(** [v.strip()]. *)
Definition strip (v : value) : res string :=
  match v with
  | Str s => Ok (PyStr.strip s)
  | _ => Raise (AttributeError ("'" ++ type_name v
                                ++ "' object has no attribute 'strip'"))
  end.

End Json.

(* ================================================================== *)
(** * [get_video_duration] *)

(** What a run of ffprobe through [subprocess.run] gives: its standard
    output, or an exception.  The [except] clauses of the source catch
    [CalledProcessError] and [FileNotFoundError]; whatever else is
    raised ([PermissionError], [UnicodeDecodeError], ...) passes them. *)
Inductive probe : Type :=
| ProbeFailed                    (* CalledProcessError, FileNotFoundError *)
| ProbeRaised (e : exn)          (* any other exception *)
| ProbeOutput (stdout : string).

Module Probe.

(** [bind] of results. *)
Definition and_then {A B : Type} (r : res A) (f : A -> res B) : res B :=
  match r with
  | Ok a => f a
  | Raise e => Raise e
  end.

(** [get_video_duration(video_path)]: [p] is what running ffprobe
    gives, [loads] is [json.loads], [None] standing for its
    [JSONDecodeError].  The three exceptions of the [except] clause give
    0; any other one is let through. *)
Definition get_video_duration (loads : string -> option Json.value)
           (p : probe) : res PyFloat.float :=
  match p with
  | ProbeFailed => Ok (PyFloat.of_int 0)
  | ProbeRaised e => Raise e
  | ProbeOutput stdout =>
      match loads stdout with
      | None => Ok (PyFloat.of_int 0)
      | Some info =>
          and_then (Json.item info "format") (fun format =>
          and_then (Json.item format "duration") (fun duration =>
          Json.to_float duration))
      end
  end.

End Probe.

(* ================================================================== *)
(** * [ProcessingThread] *)

Module Pipeline.

(** ** The worker's monad

    A computation of the worker thread starts after [n] reads of
    [self._is_cancelled]; it returns or raises, and gives the number of
    reads made and the events it produced. *)
Definition M (A : Type) : Type := nat -> res A * nat * list event.

Definition ret {A : Type} (a : A) : M A := fun n => (Ok a, n, []).

Definition raise {A : Type} (e : exn) : M A := fun n => (Raise e, n, []).

Definition bind {A B : Type} (m : M A) (f : A -> M B) : M B :=
  fun n =>
    match m n with
    | (Ok a, n1, ev1) =>
        match f a n1 with
        | (r, n2, ev2) => (r, n2, (ev1 ++ ev2)%list)
        end
    | (Raise e, n1, ev1) => (Raise e, n1, ev1)
    end.

Definition emit (e : event) : M unit := fun n => (Ok tt, n, [e]).

Definition emit_all (es : list event) : M unit := fun n => (Ok tt, n, es).

(** [try: body except Exception as e: handler(e)] *)
Definition try_except {A : Type} (body : M A) (handler : exn -> M A) : M A :=
  fun n =>
    match body n with
    | (Ok a, n1, ev1) => (Ok a, n1, ev1)
    | (Raise e, n1, ev1) =>
        match handler e n1 with
        | (r, n2, ev2) => (r, n2, (ev1 ++ ev2)%list)
        end
    end.

Definition lift {A : Type} (r : res A) : M A := fun n => (r, n, []).

Declare Scope worker_scope.
Delimit Scope worker_scope with worker.
Notation "x <- m ;; k" := (bind m (fun x => k))
  (at level 61, m at next level, right associativity) : worker_scope.
Notation "m ;; k" := (bind m (fun _ => k))
  (at level 61, right associativity) : worker_scope.
Open Scope worker_scope.

(** ** The run and its surroundings *)

(** [self.options], as [start_processing] builds it. *)
Record options : Type := {
  url : string;
  output_dir : string;
  type : string;
  quality : string;
  language : string;
  model : string;
  api_key : string
}.

(** What a download of yt-dlp does: the payloads it hands to the
    progress hooks, in order, and the error it ends with, if any. *)
Record download : Type := {
  payloads : list Interp.payload;
  download_error : option exn
}.

(** A child process: the exception [subprocess.Popen] raises when the
    program cannot be started ([FileNotFoundError], [PermissionError],
    ...), if any; and what the process does when started and left
    alone: the lines of its merged output and its exit code. *)
Record process : Type := {
  start_error : option exn;
  output : list string;
  returncode : Z
}.

Section World.

Variable W : Type.

(** Everything outside the worker thread. *)
Record world : Type := {
  (** the number of reads of [_is_cancelled] that see it unset;
      [None] when [cancel] is never called *)
  cancel_at : option nat;
  (** [extract_info]: the title, or an error *)
  info : res string;
  downloader : download;
  whisper : process;
  (** reading the caption file, and the error of writing the
      translated one *)
  srt_lines : res (list string);
  srt_write_error : option exn;
  translation_service : W;
  translate_text_deepseek : string -> W -> res string * W;
  (** [os.path.abspath], [sys.platform == "win32"] *)
  abspath : string -> string;
  win32 : bool;
  (** [sys.get_int_max_str_digits()]: the longest string of digits
      [int] converts, 4300 unless set otherwise; 0 when there is no
      limit *)
  int_max_str_digits : nat;
  (** the runs of ffprobe for the bit rate of the stream, for the one
      of the file and for the duration; and what [json.loads] makes of
      the output of the last, [None] standing for its
      [JSONDecodeError] *)
  stream_bitrate : probe;
  format_bitrate : probe;
  duration_probe : probe;
  duration_info : option Json.value;
  ffmpeg : process
}.

Variable w : world.
Variable o : options.

(** The value of [self._is_cancelled] at the read after [n] earlier
    ones.  The flag is a latch: once set, it stays set. *)
Definition flag (n : nat) : bool :=
  match cancel_at w with
  | Some c => (c <=? n)%nat
  | None => false
  end.

(** A read of [self._is_cancelled]. *)
Definition is_cancelled : M bool := fun n => (Ok (flag n), S n, []).

(** [os.path.join(a, b)], on POSIX. *)
Definition path_join (a b : string) : string :=
  if prefix "/" b then b
  else if PyStr.is_empty a then b
  else if String.eqb (PyStr.drop (length a - 1) a) "/" then a ++ b
  else a ++ "/" ++ b.

(** The class of the pattern of [_process_video]: the backslash,
    [/], [*], [?], [:], the double quote, [<], [>] and [|]. *)
Definition path_hostile (c : ascii) : bool :=
  existsb (Ascii.eqb c)
    [PyStr.backslash; "/"; "*"; "?"; ":"; PyStr.dquote; "<"; ">"; "|"]%char.

(** [re.sub] of that class by the empty string, in [title]. *)
Definition sanitize (title : string) : string :=
  Re.re_delete (Re.Cls path_hostile) title.

(** ** [_run_subprocess] *)

(** The loop over the lines of the output; [true] when it ended in
    the [return] of a cancellation. *)
Fixpoint read_output (lines : list string) : M bool :=
  match lines with
  | [] => ret false
  | line :: rest =>
      c <- is_cancelled ;;
      if c then
        emit Terminate ;;
        emit (Log "[INFO] Process terminated by user.") ;;
        ret true
      else
        emit (Log (PyStr.strip line)) ;;
        read_output rest
  end.

Definition subprocess_failed (code : Z) : exn :=
  RuntimeError ("A subprocess failed with exit code " ++ PyStr.of_Z code ++ ".").

(** [subprocess.Popen(cmd, ...)]: the process is started, or the call
    raises. *)
Definition popen (cmd : list string) (p : process) : M unit :=
  match start_error p with
  | Some e => raise e
  | None => emit (Spawn cmd)
  end.

Definition _run_subprocess (cmd : list string) (p : process) : M unit :=
  emit (Log ("[CMD] " ++ PyStr.join " " cmd)) ;;
  popen cmd p ;;
  stopped <- read_output (output p) ;;
  if stopped then ret tt
  else
    emit Wait ;;
    if (returncode p =? 0)%Z then ret tt
    else
      c <- is_cancelled ;;
      if c then ret tt else raise (subprocess_failed (returncode p)).

(** ** The downloads *)

(** [ydl.download]: yt-dlp calls the hook on every payload, lets an
    exception of the hook through, and raises its own error, if any,
    at the end. *)
Fixpoint run_hooks (ds : list Interp.payload) : M unit :=
  match ds with
  | [] => ret tt
  | d :: rest =>
      c <- is_cancelled ;;
      evs <- lift (Interp.progress_hook c d) ;;
      emit_all evs ;;
      run_hooks rest
  end.

Definition ydl_download (format outtmpl : string) : M unit :=
  emit (Download format outtmpl) ;;
  run_hooks (payloads (downloader w)) ;;
  match download_error (downloader w) with
  | Some e => raise e
  | None => ret tt
  end.

Definition audio_final_path (title : string) : string :=
  path_join (output_dir o) (title ++ ".mp3").

Definition _download_audio (title : string) : M unit :=
  emit (StageChanged "Step 1/1: Downloading Audio (MP3)") ;;
  let output_tmpl := path_join (output_dir o) "%(title)s.%(ext)s" in
  let final_path := audio_final_path title in
  ydl_download "bestaudio/best" output_tmpl ;;
  c <- is_cancelled ;;
  if negb c then
    emit (Finished true "Audio download completed successfully!" final_path)
  else ret tt.

Definition quality_map (q : string) : string :=
  if String.eqb q "Best" then "bv*+ba/b"
  else if String.eqb q "1080p" then "bv[height<=1080]+ba/b[height<=1080]"
  else if String.eqb q "720p" then "bv[height<=720]+ba/b[height<=720]"
  else if String.eqb q "480p" then "bv[height<=480]+ba/b[height<=480]"
  else "bv*+ba/b".

Definition _download_video (output_path : string) : M unit :=
  emit (StageChanged "Step 1/4: Downloading Video") ;;
  ydl_download (quality_map (quality o)) output_path.

(** ** Captions *)

Definition _extract_subtitles (video_path srt_path : string) : M unit :=
  emit (StageChanged "Step 2/4: Extracting Subtitles (Whisper)") ;;
  emit (Progress 0 "Initializing Whisper... This may take a while.") ;;
  _run_subprocess
    ["whisper"; video_path; "--model"; model o; "--language"; language o;
     "--output_format"; "srt"; "--output_dir"; output_dir o]
    (whisper w).

Definition _translate_subtitles (srt_path translated_srt_path : string) : M unit :=
  emit (StageChanged "Step 3/4: Translating Subtitles (DeepSeek API)") ;;
  emit (Progress 0 "Sending text to translation API...") ;;
  if PyStr.is_empty (api_key o) then
    raise (ValueError "DeepSeek API Key is missing. Please set it in the Settings tab.")
  else
    match Srt.translate_srt_file (translate_text_deepseek w)
            (srt_lines w) (srt_write_error w) (translation_service w) with
    | (r, _, evs) =>
        emit_all evs ;;
        lift r ;;
        emit (Log "[INFO] Subtitles translated successfully.")
    end.

(** ** Encoding *)

(** [int(s)] of a string without blanks, sign or underscore: [int]
    reads the decimal digits at its start, refuses more of them than
    the limit allows (a limit is in force above 640 digits only), and
    then refuses a string it has not read to its end; the text of that
    error holds at most 200 characters of [repr(s)]. *)
Definition int_of_digits (s : string) : res Z :=
  let (run, rest) := PyFloat.span PyStr.isdecimal s in
  let limit := int_max_str_digits w in
  if (640 <? length run)%nat && (0 <? limit)%nat && (limit <? length run)%nat
  then Raise (ValueError
                ("Exceeds the limit (" ++ PyStr.of_nat limit
                 ++ " digits) for integer string conversion: value has "
                 ++ PyStr.of_nat (length run)
                 ++ " digits; use sys.set_int_max_str_digits() to increase the limit"))
  else if PyStr.is_empty rest then Ok (PyFloat.digits s)
  else Raise (ValueError ("invalid literal for int() with base 10: "
                          ++ PyStr.take 200 (PyStr.repr s))).

(** The test the source makes on the output of ffprobe:
    [bitrate and bitrate.isdigit() and int(bitrate) > 0].  [int]
    raises on a digit that is no decimal digit, and on too many
    digits. *)
Definition usable_bitrate (bitrate : string) : res bool :=
  if negb (PyStr.is_empty bitrate) && PyStr.all PyStr.isdigit bitrate then
    match int_of_digits bitrate with
    | Ok n => Ok (0 <? n)%Z
    | Raise e => Raise e
    end
  else Ok false.

(** One of the two [try] blocks of [get_video_bitrate]. *)
Definition probe_bitrate (p : probe) : res (option string) :=
  match p with
  | ProbeFailed => Ok None
  | ProbeRaised e => Raise e
  | ProbeOutput stdout =>
      let bitrate := PyStr.strip stdout in
      match usable_bitrate bitrate with
      | Ok true => Ok (Some bitrate)
      | Ok false => Ok None
      | Raise e => Raise e
      end
  end.

Definition get_video_bitrate : res (option string) :=
  match probe_bitrate (stream_bitrate w) with
  | Ok (Some b) => Ok (Some b)
  | Ok None => probe_bitrate (format_bitrate w)
  | Raise e => Raise e
  end.

Definition subtitles_filter (srt_path : string) : string :=
  let absolute_srt_path :=
    PyStr.replace_char PyStr.backslash "/" (abspath w srt_path) in
  let absolute_srt_path :=
    if win32 w then
      PyStr.replace_char_once ":" (String PyStr.backslash ":") absolute_srt_path
    else absolute_srt_path in
  "subtitles='" ++ absolute_srt_path ++ "'".

(** The two encoder branches: the arguments [cmd] is extended with,
    and the line logged. *)
Definition bitrate_matched (bitrate : string) : list string :=
  ["-c:v"; "libx264"; "-preset"; "medium"; "-b:v"; bitrate].

Definition constant_quality : list string :=
  ["-c:v"; "libx264"; "-preset"; "medium"; "-crf"; "23"].

Definition bitrate_warning : event :=
  Log "[WARN] Could not detect bitrate. Using CRF=23 for encoding.".

Definition ffmpeg_cmd (video_path srt_path output_path : string)
           (bitrate : option string) : list string :=
  (["ffmpeg"; "-i"; video_path; "-vf"; subtitles_filter srt_path]
   ++ match bitrate with
      | Some b => bitrate_matched b
      | None => constant_quality
      end
   ++ ["-c:a"; "copy"; "-y"; output_path])%list.

(** The loop over the encoder's output; [true] when it ended in the
    [return] of a cancellation. *)
Fixpoint read_encoder (total_duration : PyFloat.float)
         (lines : list string) : M bool :=
  match lines with
  | [] => ret false
  | line :: rest =>
      c <- is_cancelled ;;
      if c then
        emit Terminate ;;
        emit (Log "[INFO] FFmpeg process terminated by user.") ;;
        ret true
      else
        emit (Log (PyStr.strip line)) ;;
        evs <- lift (Interp.encode_progress line total_duration) ;;
        emit_all evs ;;
        read_encoder total_duration rest
  end.

Definition ffmpeg_failed : exn :=
  RuntimeError "FFmpeg failed to synthesize the video.".

(** [_synthesize_video] after the encoder was started: the loop over
    its output, the wait and the test of the exit code. *)
Definition encoding (total_duration : PyFloat.float) : M unit :=
  stopped <- read_encoder total_duration (output (ffmpeg w)) ;;
  if stopped then ret tt
  else
    emit Wait ;;
    if (returncode (ffmpeg w) =? 0)%Z then ret tt
    else
      c <- is_cancelled ;;
      if c then ret tt else raise ffmpeg_failed.

(** [get_video_duration(video_path)]. *)
Definition get_video_duration : res PyFloat.float :=
  Probe.get_video_duration (fun _ => duration_info w) (duration_probe w).

(** [_synthesize_video], from the value [get_video_bitrate] returned
    on. *)
Definition encode (video_path srt_path output_path : string)
           (bitrate : option string) : M unit :=
  let cmd := ffmpeg_cmd video_path srt_path output_path bitrate in
  match bitrate with
  | Some b =>
      emit (Log ("[INFO] Detected original bitrate: " ++ b
                 ++ " bps. Using it for encoding."))
  | None => emit bitrate_warning
  end ;;
  emit (Log ("[CMD] " ++ PyStr.join " " cmd)) ;;
  total_duration <- lift get_video_duration ;;
  popen cmd (ffmpeg w) ;;
  encoding total_duration.

Definition _synthesize_video (video_path srt_path output_path : string) : M unit :=
  emit (StageChanged "Step 4/4: Encoding Final Video (FFmpeg)") ;;
  bitrate <- lift get_video_bitrate ;;
  encode video_path srt_path output_path bitrate.

(** ** [_process_video] and [run] *)

Definition base_name (title : string) : string := sanitize title.

Definition downloaded_video_path (title : string) : string :=
  path_join (output_dir o) (base_name title ++ ".mp4").
Definition srt_path (title : string) : string :=
  path_join (output_dir o) (base_name title ++ ".srt").
Definition translated_srt_path (title : string) : string :=
  path_join (output_dir o) (base_name title ++ "_zh.srt").
Definition final_video_path (title : string) : string :=
  path_join (output_dir o) (base_name title ++ "_translated.mp4").

Definition _process_video (title : string) : M unit :=
  _download_video (downloaded_video_path title) ;;
  c <- is_cancelled ;;
  if c then ret tt else
  _extract_subtitles (downloaded_video_path title) (srt_path title) ;;
  c <- is_cancelled ;;
  if c then ret tt else
  _translate_subtitles (srt_path title) (translated_srt_path title) ;;
  c <- is_cancelled ;;
  if c then ret tt else
  _synthesize_video (downloaded_video_path title) (translated_srt_path title)
                    (final_video_path title) ;;
  c <- is_cancelled ;;
  if c then ret tt else
  emit (Finished true "Video processing completed successfully!"
                 (final_video_path title)).

(** The body of the [try] of [run]. *)
Definition run_body : M unit :=
  emit (StageChanged "Getting video information...") ;;
  emit (Log ("[INFO] Getting info for URL: " ++ url o)) ;;
  title <- lift (info w) ;;
  emit (InfoRetrieved title) ;;
  c <- is_cancelled ;;
  if c then ret tt
  else if String.eqb (type o) "Audio" then _download_audio title
  else _process_video title.

Definition run : M unit :=
  try_except run_body
    (fun e =>
       emit (Log ("[ERROR] A critical error occurred: " ++ exn_str e)) ;;
       emit (Finished false (exn_str e) EmptyString)).

(** The events of a whole run. *)
Definition run_trace : list event := snd (run 0%nat).

End World.

(** The terminal results among the events. *)
Definition is_finished (e : event) : bool :=
  match e with Finished _ _ _ => true | _ => false end.

Definition results (tr : list event) : list event := filter is_finished tr.

Definition is_spawn (e : event) : bool :=
  match e with Spawn _ => true | _ => false end.

(** The parts of what a computation gives. *)
Definition outcome {A : Type} (x : res A * nat * list event) : res A := fst (fst x).
Definition reads {A : Type} (x : res A * nat * list event) : nat := snd (fst x).
Definition events {A : Type} (x : res A * nat * list event) : list event := snd x.

End Pipeline.

(* ================================================================== *)
(** * [translate_text_deepseek] *)

Module Deepseek.

Definition url : string := "https://api.deepseek.com/v1/chat/completions".

Definition system_prompt : string :=
  "You are a translation assistant. Translate the given English or Japanese text into simplified Chinese. Provide only the direct translation without any explanations.".

(** The arguments of [requests.post]. *)
Record request : Type := {
  request_url : string;
  headers : list (string * string);
  json : Json.value;
  timeout : Z
}.

(** The answer of the server: the status line and the body, [None]
    when the body is no JSON. *)
Record response : Type := {
  status_code : Z;
  reason : string;
  body : option Json.value
}.

Definition build_request (text api_key : string) : request :=
  {| request_url := url;
     headers := [("Content-Type", "application/json");
                 ("Authorization", "Bearer " ++ api_key)];
     json :=
       Json.Obj
         [("model", Json.Str "deepseek-chat");
          ("messages",
           Json.Arr
             [Json.Obj [("role", Json.Str "system");
                        ("content", Json.Str system_prompt)];
              Json.Obj [("role", Json.Str "user");
                        ("content", Json.Str text)]]);
          ("temperature", Json.Float (PyFloat.of_decimal false 2 (-1)))];
     timeout := 60 |}.

(** [response.raise_for_status()]: [HTTPError] for the codes from 400
    to 599. *)
Definition raise_for_status (r : response) : res unit :=
  let described (kind : string) :=
    OtherError (PyStr.of_Z (status_code r) ++ " " ++ kind ++ " Error: "
                ++ reason r ++ " for url: " ++ url) in
  if (400 <=? status_code r)%Z && (status_code r <? 500)%Z
  then Raise (described "Client")
  else if (500 <=? status_code r)%Z && (status_code r <? 600)%Z
  then Raise (described "Server")
  else Ok tt.

(** [response.json()["choices"][0]["message"]["content"].strip()] *)
Definition content (r : response) : res string :=
  match body r with
  | None => Raise (OtherError "Expecting value: line 1 column 1 (char 0)")
  | Some answer =>
      Probe.and_then (Json.item answer "choices") (fun choices =>
      Probe.and_then (Json.first choices) (fun choice =>
      Probe.and_then (Json.item choice "message") (fun message =>
      Probe.and_then (Json.item message "content") Json.strip)))
  end.

Section Service.

(** The network: [requests.post], which answers or raises, and its
    state. *)
Variable W : Type.
Variable post : request -> W -> res response * W.

Definition translate_text_deepseek (text api_key : string) (w : W)
  : res string * W :=
  match post (build_request text api_key) w with
  | (Raise e, w') => (Raise e, w')
  | (Ok r, w') =>
      (Probe.and_then (raise_for_status r) (fun _ => content r), w')
  end.

End Service.

Arguments translate_text_deepseek {W} post text api_key w.

End Deepseek.

(* ================================================================== *)
(** * [open_containing_folder] *)

Module Folder.

(** [os.path.dirname], on POSIX: the head up to the last separator,
    without its trailing separators unless it holds nothing else. *)
Fixpoint head_of (p : string) : string :=
  match p with
  | EmptyString => EmptyString
  | String c p' => if PyStr.contains "/" p then String c (head_of p')
                   else EmptyString
  end.

Fixpoint rstrip_sep (s : string) : string :=
  match s with
  | EmptyString => EmptyString
  | String c s' =>
      let r := rstrip_sep s' in
      if PyStr.is_empty r && Ascii.eqb c "/" then EmptyString else String c r
  end.

Definition dirname (p : string) : string :=
  let head := head_of p in
  if negb (PyStr.is_empty head) && negb (PyStr.all (Ascii.eqb "/") head)
  then rstrip_sep head
  else head.

(** What the function looks at: [sys.platform], [os.path.dirname] of
    that platform, [os.path.exists] and [os.path.isdir]. *)
Record system : Type := {
  platform : string;
  path_dirname : string -> string;
  path_exists : string -> bool;
  path_isdir : string -> bool
}.

(** What it does: print a line, or start the file manager. *)
Inductive action : Type :=
| Print (line : string)
| Startfile (folder : string)
| Popen (cmd : list string).

Definition open_containing_folder (os : system) (path : string) : list action :=
  let folder :=
    if negb (path_exists os path) then path_dirname os path
    else if path_isdir os path then path
    else path_dirname os path in
  if negb (path_isdir os folder)
  then [Print ("Error: Folder does not exist at " ++ folder)]
  else if String.eqb (platform os) "win32" then [Startfile folder]
  else if String.eqb (platform os) "darwin" then [Popen ["open"; folder]]
  else [Popen ["xdg-open"; folder]].

(** The folder an action shows, if any. *)
Definition shown (a : action) : option string :=
  match a with
  | Startfile folder => Some folder
  | Popen [_; folder] => Some folder
  | _ => None
  end.

End Folder.

(* ================================================================== *)
(** * [VideoProcessorApp]: starting a run and taking its signals *)

Module Gui.

(** What [start_processing] reads off the widgets. *)
Record form : Type := {
  url_input : string;            (* url_input.text() *)
  path_display : string;         (* path_display.text() *)
  type_index : Z;                (* type_combo.currentIndex() *)
  quality_combo : string;        (* quality_combo.currentText() *)
  lang_combo : string;           (* lang_combo.currentText() *)
  model_combo : string;          (* model_combo.currentText() *)
  api_key_input : string         (* api_key_input.text() *)
}.

(** The arguments of a call of [DatabaseManager.save_record];
    [dict.get] gives [None] for a key that is not there. *)
Record record : Type := {
  title : string;
  url : option string;
  process_type : option string;
  quality : option string;
  final_path : string;
  status : string
}.

Inductive dialog : Type :=
| Warning (caption text : string)        (* QMessageBox.warning *)
| Information (caption text : string)    (* QMessageBox.information *)
| Critical (caption text : string).      (* QMessageBox.critical *)

(** The window: the state of its widgets, what it keeps, and what it
    did to the outside. *)
Record window : Type := {
  start_btn : bool;                        (* start_btn.isEnabled() *)
  cancel_btn : bool;                       (* cancel_btn.isEnabled() *)
  tabs : Z;                                (* tabs.currentIndex() *)
  stage_label : string;
  progress_bar : Z;                        (* the value last given to setValue *)
  progress_status_label : string;
  log_box : list string;
  (** [self.current_options]: the dictionary of [start_processing],
      [None] for the empty one, and its key ['title'], which the worker
      thread writes: the thread holds the same dictionary *)
  current_options : option Pipeline.options;
  current_title : option string;
  (** the options of [self.processing_thread], [None] when there is
      no thread *)
  processing_thread : option Pipeline.options;
  saved : list record;                     (* calls of save_record *)
  dialogs : list dialog                    (* message boxes shown *)
}.

Definition show (d : dialog) (win : window) : window :=
  {| start_btn := start_btn win; cancel_btn := cancel_btn win;
     tabs := tabs win; stage_label := stage_label win;
     progress_bar := progress_bar win;
     progress_status_label := progress_status_label win;
     log_box := log_box win;
     current_options := current_options win;
     current_title := current_title win;
     processing_thread := processing_thread win;
     saved := saved win;
     dialogs := dialogs win ++ [d] |}.

(** The dictionary [start_processing] builds. *)
Definition options_of (f : form) : Pipeline.options :=
  {| Pipeline.url := Url.clean_youtube_url (PyStr.strip (url_input f));
     Pipeline.output_dir := path_display f;
     Pipeline.type := if (type_index f =? 0)%Z then "Video" else "Audio";
     Pipeline.quality := if (type_index f =? 0)%Z then quality_combo f else "N/A";
     Pipeline.language := lang_combo f;
     Pipeline.model := model_combo f;
     Pipeline.api_key := api_key_input f |}.

Definition start_processing (f : form) (win : window) : window :=
  let url := PyStr.strip (url_input f) in
  if PyStr.is_empty url then
    show (Warning "Input Error" "Please provide a valid YouTube URL.") win
  else
    let o := options_of f in
    if String.eqb (Pipeline.type o) "Video" && PyStr.is_empty (Pipeline.api_key o)
    then
      show (Warning "API Key Error"
              "DeepSeek API Key is required for video processing. Please set it in the Settings tab.")
        {| start_btn := start_btn win; cancel_btn := cancel_btn win;
           tabs := tabs win; stage_label := stage_label win;
           progress_bar := progress_bar win;
           progress_status_label := progress_status_label win;
           log_box := log_box win;
           current_options := Some o;
           current_title := None;
           processing_thread := processing_thread win;
           saved := saved win;
           dialogs := dialogs win |}
    else
      {| start_btn := false; cancel_btn := true;
         tabs := 1; stage_label := stage_label win;
         progress_bar := 0;
         progress_status_label := progress_status_label win;
         log_box := ["[INFO] Starting new process..."];
         current_options := Some o;
         current_title := None;
         processing_thread := Some o;
         saved := saved win;
         dialogs := dialogs win |}.

(** [cancel_processing]; [running] is [processing_thread.isRunning()].
    The line logged is that of [ProcessingThread.cancel]. *)
Definition cancel_processing (running : bool) (win : window) : window :=
  match processing_thread win with
  | Some _ =>
      if running then
        {| start_btn := start_btn win; cancel_btn := false;
           tabs := tabs win; stage_label := "Cancelling...";
           progress_bar := progress_bar win;
           progress_status_label := progress_status_label win;
           log_box := log_box win ++ ["[ACTION] Cancellation requested by user..."];
           current_options := current_options win;
           current_title := current_title win;
           processing_thread := processing_thread win;
           saved := saved win;
           dialogs := dialogs win |}
      else win
  | None => win
  end.

Definition process_finished (success : bool) (message path : string)
           (win : window) : window :=
  let status := if success then "Completed" else "Failed" in
  let row :=
    {| title := match current_title win with
                | Some t => t
                | None => "Unknown Title"
                end;
       url := option_map Pipeline.url (current_options win);
       process_type := option_map Pipeline.type (current_options win);
       quality := option_map Pipeline.quality (current_options win);
       final_path := path;
       status := status |} in
  {| start_btn := true; cancel_btn := false;
     tabs := tabs win;
     stage_label := if success then "Finished!" else "Error!";
     progress_bar := if success then 100 else progress_bar win;
     progress_status_label := progress_status_label win;
     log_box := log_box win ++ [(if success then "[SUCCESS] " else "[ERROR] ")
                                ++ message];
     current_options := current_options win;
     current_title := current_title win;
     processing_thread := None;
     saved := saved win ++ [row];
     dialogs :=
       dialogs win ++
       [if success
        then Information "Success"
               ("Process completed!" ++ PyStr.newline ++ "Output file: " ++ path)
        else Critical "Error"
               ("An error occurred during processing:" ++ PyStr.newline
                ++ message)] |}.

(** What an event of the worker thread does to the window: the slots
    that [start_processing] connects to its signals, and the write of
    the title into the dictionary the window shares with it. *)
Definition deliver (win : window) (e : event) : window :=
  match e with
  | StageChanged label =>
      {| start_btn := start_btn win; cancel_btn := cancel_btn win;
         tabs := tabs win; stage_label := label;
         progress_bar := progress_bar win;
         progress_status_label := progress_status_label win;
         log_box := log_box win;
         current_options := current_options win;
         current_title := current_title win;
         processing_thread := processing_thread win;
         saved := saved win; dialogs := dialogs win |}
  | Progress p s =>
      {| start_btn := start_btn win; cancel_btn := cancel_btn win;
         tabs := tabs win; stage_label := stage_label win;
         progress_bar := p;
         progress_status_label := s;
         log_box := log_box win;
         current_options := current_options win;
         current_title := current_title win;
         processing_thread := processing_thread win;
         saved := saved win; dialogs := dialogs win |}
  | Log text =>
      {| start_btn := start_btn win; cancel_btn := cancel_btn win;
         tabs := tabs win; stage_label := stage_label win;
         progress_bar := progress_bar win;
         progress_status_label := progress_status_label win;
         log_box := log_box win ++ [text];
         current_options := current_options win;
         current_title := current_title win;
         processing_thread := processing_thread win;
         saved := saved win; dialogs := dialogs win |}
  | InfoRetrieved t =>
      {| start_btn := start_btn win; cancel_btn := cancel_btn win;
         tabs := tabs win; stage_label := stage_label win;
         progress_bar := progress_bar win;
         progress_status_label := progress_status_label win;
         log_box := log_box win;
         current_options := current_options win;
         current_title := Some t;
         processing_thread := processing_thread win;
         saved := saved win; dialogs := dialogs win |}
  | Finished success message path => process_finished success message path win
  | _ => win
  end.

(** The window after the events of a run. *)
Definition after (tr : list event) (win : window) : window :=
  fold_left deliver tr win.

End Gui.

(* ================================================================== *)
(** * The vocabulary of the statements *)

(** ** Closed forms of the matcher *)

(** Greedy repetition of a class of characters. *)
Fixpoint star_cls {A : Type} (p : ascii -> bool) (s : string)
         (k : string -> option A) : option A :=
  match s with
  | String c s' =>
      if p c then
        match star_cls p s' k with
        | Some x => Some x
        | None => k s
        end
      else k s
  | EmptyString => k s
  end.

(** The rest after the longest run of a class. *)
Fixpoint skip_class (p : ascii -> bool) (s : string) : string :=
  match s with
  | String c s' => if p c then skip_class p s' else s
  | EmptyString => EmptyString
  end.

(** Whether [s] starts with a character of a class. *)
Definition starts_with (p : ascii -> bool) (s : string) : bool :=
  match s with String c _ => p c | EmptyString => false end.

(** [s] without the characters of a class. *)
Fixpoint remove (p : ascii -> bool) (s : string) : string :=
  match s with
  | EmptyString => EmptyString
  | String c s' => if p c then remove p s' else String c (remove p s')
  end.

(** ** Timestamps of the encoder *)


(** ** What reaches the translation service *)

(** [t] is the joined text of a group of text lines of [all]. *)
Definition from_text_lines (all : list string) (t : string) : Prop :=
  exists g, g <> [] /\
            Forall (fun l => In l all /\ Srt.is_text_line l = true) g /\
            t = Srt.joined_text g.

Definition call_from_text (all : list string) (e : event) : Prop :=
  match e with
  | TranslateCall t => from_text_lines all t
  | _ => True
  end.

(** The invariant of the loop: the buffer holds stripped text lines, and
    every call so far was made on the text of such lines. *)
Definition buffer_invariant {W : Type} (all : list string)
           (st : Srt.loop_state W) : Prop :=
  (exists g, Srt.text_buffer st = map PyStr.strip g /\
             Forall (fun l => In l all /\ Srt.is_text_line l = true) g) /\
  Forall (call_from_text all) (Srt.trace st).

(** ** Events of a run *)

(** The event of a line of output, and the events of a cancellation seen
    by [_run_subprocess]. *)
Definition logged (line : string) : event := Log (PyStr.strip line).

Definition terminated : list event :=
  [Terminate; Log "[INFO] Process terminated by user."].

(** A computation that emits no terminal result. *)
Definition quiet {A : Type} (m : Pipeline.M A) : Prop :=
  forall n, Pipeline.results (Pipeline.events (m n)) = [].

(** A computation that, when it returns, has emitted events of which [P]
    holds, and that has emitted no terminal result when it raises. *)
Definition ends (P : list event -> Prop) {A : Type} (m : Pipeline.M A) : Prop :=
  forall n, match m n with
            | (Ok _, _, ev) => P ev
            | (Raise _, _, ev) => Pipeline.results ev = []
            end.

(** No result, or one success as the last event. *)
Definition at_most_one (ev : list event) : Prop :=
  Pipeline.results ev = [] \/
  exists pre msg path,
    ev = (pre ++ [Finished true msg path])%list /\ Pipeline.results pre = [].

(** One success as the last event. *)
Definition one_success (ev : list event) : Prop :=
  exists pre msg path,
    ev = (pre ++ [Finished true msg path])%list /\ Pipeline.results pre = [].

(** The events of the [except] branch of [run]. *)
Definition failure_events (e : exn) : list event :=
  [Log ("[ERROR] A critical error occurred: " ++ exn_str e);
   Finished false (exn_str e) EmptyString].

(** The two lines [_synthesize_video] logs after the probe of the bit
    rate: the bit rate or the warning, and the command. *)
Definition announced {W : Type} (w : Pipeline.world W) (v s out : string)
           (bitrate : option string) : list event :=
  [ match bitrate with
    | Some b => Log ("[INFO] Detected original bitrate: " ++ b
                     ++ " bps. Using it for encoding.")
    | None => Pipeline.bitrate_warning
    end;
    Log ("[CMD] " ++ PyStr.join " " (Pipeline.ffmpeg_cmd W w v s out bitrate)) ].

(** ** Stages of a run *)

(** A stage of [_process_video] with the check after it:
    [stage; if self._is_cancelled: return], and then [rest]. *)
Definition checked {W : Type} (w : Pipeline.world W)
           (stage rest : Pipeline.M unit) : Pipeline.M unit :=
  Pipeline.bind stage (fun _ =>
    Pipeline.bind (Pipeline.is_cancelled W w) (fun c =>
      if c then Pipeline.ret tt else rest)).

Fixpoint stages_then {W : Type} (w : Pipeline.world W)
         (stages : list (Pipeline.M unit)) (last : Pipeline.M unit)
  : Pipeline.M unit :=
  match stages with
  | [] => last
  | s :: ss => checked w s (stages_then w ss last)
  end.

(** The four stages of [_process_video], in order. *)
Definition video_stages {W : Type} (w : Pipeline.world W)
           (o : Pipeline.options) (title : string) : list (Pipeline.M unit) :=
  [ Pipeline._download_video W w o (Pipeline.downloaded_video_path o title);
    Pipeline._extract_subtitles W w o (Pipeline.downloaded_video_path o title)
                                (Pipeline.srt_path o title);
    Pipeline._translate_subtitles W w o (Pipeline.srt_path o title)
                                  (Pipeline.translated_srt_path o title);
    Pipeline._synthesize_video W w (Pipeline.downloaded_video_path o title)
                               (Pipeline.translated_srt_path o title)
                               (Pipeline.final_video_path o title) ].

Definition video_done (o : Pipeline.options) (title : string) : event :=
  Finished true "Video processing completed successfully!"
           (Pipeline.final_video_path o title).

(** ** Kinds of events *)

Definition is_terminate (e : event) : bool :=
  match e with Terminate => true | _ => false end.

Definition is_stage (e : event) : bool :=
  match e with StageChanged _ => true | _ => false end.

Definition is_call (e : event) : bool :=
  match e with TranslateCall _ => true | _ => false end.

Definition is_progress (e : event) : bool :=
  match e with Progress _ _ => true | _ => false end.

(** The start of the encoder. *)
Definition is_ffmpeg (e : event) : bool :=
  match e with
  | Spawn (tool :: _) => String.eqb tool "ffmpeg"
  | _ => false
  end.

(** What running a child process shows: its start, the lines logged,
    progress read off them, and its end. *)
Definition tool_event (e : event) : bool :=
  match e with
  | Log _ | Spawn _ | Terminate | Wait | Progress _ _ => true
  | _ => false
  end.

(** What a download of yt-dlp shows. *)
Definition download_event (e : event) : bool :=
  match e with
  | Download _ _ | Progress _ _ => true
  | _ => false
  end.

(** What the translation of a caption file shows. *)
Definition translation_event (e : event) : bool :=
  match e with
  | Log _ | TranslateCall _ | Progress _ _ => true
  | _ => false
  end.

(** A computation all of whose events are of a kind. *)
Definition only (allowed : event -> bool) {A : Type} (m : Pipeline.M A) : Prop :=
  forall n, forallb allowed (Pipeline.events (m n)) = true.

(** The labels of the stages announced, in order. *)
Fixpoint stage_labels (tr : list event) : list string :=
  match tr with
  | [] => []
  | StageChanged l :: tr' => l :: stage_labels tr'
  | _ :: tr' => stage_labels tr'
  end.

(** The texts the translation service was called on, in order. *)
Fixpoint calls (tr : list event) : list string :=
  match tr with
  | [] => []
  | TranslateCall t :: tr' => t :: calls tr'
  | _ :: tr' => calls tr'
  end.

(** A stage that returns with the flag unset only when [cond] holds. *)
Definition needs {W : Type} (w : Pipeline.world W) {A : Type}
           (m : Pipeline.M A) (cond : Prop) : Prop :=
  forall n a n' ev,
    m n = (Ok a, n', ev) -> Pipeline.flag W w n' = false -> cond.

(** The lines logged when a child process is terminated. *)
Definition termination_logs : list string :=
  ["[INFO] Process terminated by user.";
   "[INFO] FFmpeg process terminated by user."].

(** The events end with the termination of a child process and the
    line logged for it, and hold no other termination. *)
Definition terminated_last (ev : list event) : Prop :=
  exists pre msg,
    ev = (pre ++ [Terminate; Log msg])%list /\ ~ In Terminate pre /\
    In msg termination_logs.

(** A computation that terminates no child process, or returns right
    after it did, with the flag set and no terminal result. *)
Definition orderly {W : Type} (w : Pipeline.world W) {A : Type}
           (m : Pipeline.M A) : Prop :=
  forall n,
    match m n with
    | (r, n', ev) =>
        ~ In Terminate ev \/
        (terminated_last ev /\ Pipeline.results ev = [] /\
         Pipeline.flag W w n' = true /\ exists a, r = Ok a)
    end.

(** The labels of the stages of the two branches, in order. *)
Definition audio_labels : list string :=
  ["Getting video information..."; "Step 1/1: Downloading Audio (MP3)"].

Definition video_labels : list string :=
  ["Getting video information...";
   "Step 1/4: Downloading Video";
   "Step 2/4: Extracting Subtitles (Whisper)";
   "Step 3/4: Translating Subtitles (DeepSeek API)";
   "Step 4/4: Encoding Final Video (FFmpeg)"].

(** The message of the [ValueError] of [_translate_subtitles]. *)
Definition missing_key : string :=
  "DeepSeek API Key is missing. Please set it in the Settings tab.".

(** ** Paths *)

(** The separator [os.path.join] puts after a directory. *)
Definition separator (dir : string) : string :=
  if PyStr.is_empty dir then EmptyString
  else if String.eqb (PyStr.drop (length dir - 1) dir) "/" then EmptyString
  else "/".

(** ** The loop of [translate_srt_file] *)

(** A string that starts with a character that is no whitespace. *)
Definition solid (s : string) : Prop :=
  exists c s', s = String c s' /\ PyStr.isspace c = false.

(** What the loop keeps: the calls so far are no more than the blank
    lines read, the calls and the lines buffered no more than the text
    lines read, the buffered lines start with a character that is no
    whitespace, and no call was made on an empty text. *)
Definition call_invariant {W : Type} (blanks texts : nat)
           (st : Srt.loop_state W) : Prop :=
  List.length (calls (Srt.trace st)) <= blanks /\
  List.length (calls (Srt.trace st)) + List.length (Srt.text_buffer st) <= texts /\
  Forall solid (Srt.text_buffer st) /\
  Forall (fun t => t <> EmptyString) (calls (Srt.trace st)).

(** The lines written and the lines buffered are as many as the lines
    read ([exact]), or no more. *)
Definition length_invariant {W : Type} (exact : bool) (read : nat)
           (st : Srt.loop_state W) : Prop :=
  if exact
  then List.length (Srt.translated_lines st) + List.length (Srt.text_buffer st)
       = read
  else List.length (Srt.translated_lines st) + List.length (Srt.text_buffer st)
       <= read.

(** The line written for a line that is no text. *)
Definition passed_on (l : string) : string :=
  if Srt.is_index_line l || Srt.is_timing_line l then l else PyStr.newline.

(** ** Texts of yt-dlp *)

(** The percent [n.d] as yt-dlp writes it into [_percent_str]:
    [f'{percent:>5.1f}%'], one decimal, padded to five characters. *)
Definition format_percent (n d : Z) : string :=
  (if (n <? 10)%Z then "  " else if (n <? 100)%Z then " " else "")
  ++ PyStr.of_Z n ++ "." ++ PyStr.of_Z d ++ "%".

(** The percent the hook emits for a text, when it emits one. *)
Definition percent_of (text : string) : option Z :=
  match PyFloat.of_string (Interp.clean_percent text) with
  | Some x => match PyFloat.to_int x with Ok p => Some p | Raise _ => None end
  | None => None
  end.

(** The numbers from 0 up to, and not including, [n]. *)
Definition below (n : nat) : list Z := map Z.of_nat (seq 0 n).

Definition no_escape (s : string) : bool :=
  PyStr.all (fun c => negb (Ascii.eqb c PyStr.escape)) s.

(** Whether the hook emits [n] for the text of the percent [n.d]. *)
Definition percent_check (n d : Z) : bool :=
  match percent_of (format_percent n d) with
  | Some p => (p =? n)%Z
  | None => false
  end.

(** Whether a path ends with a separator. *)
Fixpoint ends_with_sep (s : string) : bool :=
  match s with
  | EmptyString => false
  | String c EmptyString => Ascii.eqb c "/"
  | String _ s' => ends_with_sep s'
  end.

(** ** The window *)

(** The title in the shared dictionary after the events [tr], from the
    one before them. *)
Fixpoint last_title (tr : list event) (t0 : option string) : option string :=
  match tr with
  | [] => t0
  | InfoRetrieved t :: tr' => last_title tr' (Some t)
  | _ :: tr' => last_title tr' t0
  end.

(** Every event but the one of the metadata. *)
Definition no_info (e : event) : bool :=
  match e with InfoRetrieved _ => false | _ => true end.

(** The row of the history for a terminal result. *)
Definition row_of {W : Type} (w : Pipeline.world W) (o : Pipeline.options)
           (success : bool) (path : string) : Gui.record :=
  {| Gui.title := match Pipeline.info W w with
                  | Ok t => t
                  | Raise _ => "Unknown Title"
                  end;
     Gui.url := Some (Pipeline.url o);
     Gui.process_type := Some (Pipeline.type o);
     Gui.quality := Some (Pipeline.quality o);
     Gui.final_path := path;
     Gui.status := if success then "Completed" else "Failed" |}.

(* ================================================================== *)
(** * Sample inputs *)

Definition encoder_line_half : string :=
  "frame= 2718 fps= 61 q=28.0 size=  9216kB time=00:01:30.50 bitrate= 834.2kbits/s".



Definition escape_sequence (body : string) : string :=
  String PyStr.escape ("[" ++ body).

Definition payload_45 : Interp.payload :=
  {| Interp.status := "downloading";
     Interp.percent_str := Some (" 45.3%" ++ escape_sequence "0m");
     Interp.speed_str := Some (escape_sequence "0;32m" ++ " 1.21MiB/s" ++ escape_sequence "0m") |}.

Definition payload_150 : Interp.payload :=
  {| Interp.status := "downloading";
     Interp.percent_str := Some "150.0%";
     Interp.speed_str := Some "1.21MiB/s" |}.

Definition payload_unknown : Interp.payload :=
  {| Interp.status := "downloading";
     Interp.percent_str := Some "  N/A%";
     Interp.speed_str := Some "Unknown B/s" |}.

Definition line (s : string) : string := s ++ PyStr.newline.

(** A service that fails on every second call; its state counts the
    calls. *)
Definition flaky (t : string) (calls : nat) : res string * nat :=
  (if Nat.even calls then Ok ("<" ++ t ++ ">")
   else Raise (OtherError "429 Too Many Requests"),
   S calls).

(** A service that is down. *)
Definition down (t : string) (u : unit) : res string * unit :=
  (Raise (OtherError "connection refused"), u).

Definition two_blocks : list Srt.CaptionBlock :=
  [ {| Srt.index := line "1";
       Srt.timing := line "00:00:01,000 --> 00:00:02,500";
       Srt.text := [line "Good morning,"; line "everyone."] |};
    {| Srt.index := line "2";
       Srt.timing := line "00:00:03,000 --> 00:00:04,000";
       Srt.text := [line "Let us begin."] |} ].

(** A block whose line of text is indented. *)
Definition indented_block : list Srt.CaptionBlock :=
  [ {| Srt.index := line "1";
       Srt.timing := line "00:00:01,000 --> 00:00:02,500";
       Srt.text := [line "  - Good morning."] |} ].

(** A block whose line of text is a number. *)
Definition numeric_block : list Srt.CaptionBlock :=
  [ {| Srt.index := line "1";
       Srt.timing := line "00:00:01,000 --> 00:00:02,500";
       Srt.text := [line "1984"] |} ].

Definition hostile_title : string := "AC/DC: Live?".

(** What ffprobe prints for a duration, and what [json.loads] makes of
    it. *)
Definition quoted (s : string) : string :=
  String PyStr.dquote (s ++ String PyStr.dquote EmptyString).

Definition duration_json (seconds : string) : string :=
  line ("{" ++ quoted "format" ++ ": {" ++ quoted "duration" ++ ": "
        ++ quoted seconds ++ "}}").

Definition duration_value (seconds : string) : Json.value :=
  Json.Obj [("format", Json.Obj [("duration", Json.Str seconds)])].

(** A world in which every tool works, no bit rate can be probed, the
    video lasts 180 seconds, and [cancel] is called as [cancel_time]
    says. *)
Definition sample_world (cancel_time : option nat) : Pipeline.world nat :=
  {| Pipeline.cancel_at := cancel_time;
     Pipeline.info := Ok hostile_title;
     Pipeline.downloader :=
       {| Pipeline.payloads :=
            [ {| Interp.status := "downloading";
                 Interp.percent_str := Some " 45.3%";
                 Interp.speed_str := Some "1.21MiB/s" |};
              {| Interp.status := "finished";
                 Interp.percent_str := None;
                 Interp.speed_str := None |} ];
          Pipeline.download_error := None |};
     Pipeline.whisper :=
       {| Pipeline.start_error := None;
          Pipeline.output := [line "Detecting language";
                              line "[00:01.000 --> 00:02.500] Hi"];
          Pipeline.returncode := 0 |};
     Pipeline.srt_lines := Ok (Srt.caption_file true two_blocks);
     Pipeline.srt_write_error := None;
     Pipeline.translation_service := 0;
     Pipeline.translate_text_deepseek := flaky;
     Pipeline.abspath := fun p => "/home/user/" ++ p;
     Pipeline.win32 := false;
     Pipeline.int_max_str_digits := 4300;
     Pipeline.stream_bitrate := ProbeOutput (line "N/A");
     Pipeline.format_bitrate := ProbeFailed;
     Pipeline.duration_probe := ProbeOutput (duration_json "180.000000");
     Pipeline.duration_info := Some (duration_value "180.000000");
     Pipeline.ffmpeg :=
       {| Pipeline.start_error := None;
          Pipeline.output := [line encoder_line_half];
          Pipeline.returncode := 0 |} |}.

Definition sample_options (kind : string) : Pipeline.options :=
  {| Pipeline.url := "https://youtu.be/abc123";
     Pipeline.output_dir := "out";
     Pipeline.type := kind;
     Pipeline.quality := "720p";
     Pipeline.language := "en";
     Pipeline.model := "small";
     Pipeline.api_key := "sk-test" |}.

(** A tool that prints two lines and fails. *)
Definition failing_tool : Pipeline.process :=
  {| Pipeline.start_error := None;
     Pipeline.output := [line "loading"; line "out of memory"];
     Pipeline.returncode := 137 |}.

(** A tool that is not installed. *)
Definition missing_tool : Pipeline.process :=
  {| Pipeline.start_error :=
       Some (OtherError "[Errno 2] No such file or directory: 'whisper'");
     Pipeline.output := [];
     Pipeline.returncode := 0 |}.

(** The sample world, with an answer of ffprobe that names no
    duration. *)
Definition undated_world : Pipeline.world nat :=
  let w := sample_world None in
  {| Pipeline.cancel_at := None;
     Pipeline.info := Pipeline.info nat w;
     Pipeline.downloader := Pipeline.downloader nat w;
     Pipeline.whisper := Pipeline.whisper nat w;
     Pipeline.srt_lines := Pipeline.srt_lines nat w;
     Pipeline.srt_write_error := None;
     Pipeline.translation_service := 0;
     Pipeline.translate_text_deepseek := flaky;
     Pipeline.abspath := Pipeline.abspath nat w;
     Pipeline.win32 := false;
     Pipeline.int_max_str_digits := 4300;
     Pipeline.stream_bitrate := Pipeline.stream_bitrate nat w;
     Pipeline.format_bitrate := Pipeline.format_bitrate nat w;
     Pipeline.duration_probe :=
       ProbeOutput (line ("{" ++ quoted "format" ++ ": {}}"));
     Pipeline.duration_info := Some (Json.Obj [("format", Json.Obj [])]);
     Pipeline.ffmpeg := Pipeline.ffmpeg nat w |}.

(** The sample options without an API key. *)
Definition keyless_options : Pipeline.options :=
  {| Pipeline.url := "https://youtu.be/abc123";
     Pipeline.output_dir := "out";
     Pipeline.type := "Video";
     Pipeline.quality := "720p";
     Pipeline.language := "en";
     Pipeline.model := "small";
     Pipeline.api_key := EmptyString |}.

(** The sample world, with a probe of the video stream that answers. *)
Definition probed_world : Pipeline.world nat :=
  let w := sample_world None in
  {| Pipeline.cancel_at := None;
     Pipeline.info := Pipeline.info nat w;
     Pipeline.downloader := Pipeline.downloader nat w;
     Pipeline.whisper := Pipeline.whisper nat w;
     Pipeline.srt_lines := Pipeline.srt_lines nat w;
     Pipeline.srt_write_error := None;
     Pipeline.translation_service := 0;
     Pipeline.translate_text_deepseek := flaky;
     Pipeline.abspath := Pipeline.abspath nat w;
     Pipeline.win32 := false;
     Pipeline.int_max_str_digits := 4300;
     Pipeline.stream_bitrate := ProbeOutput (line "834200");
     Pipeline.format_bitrate := ProbeOutput (line "901337");
     Pipeline.duration_probe := Pipeline.duration_probe nat w;
     Pipeline.duration_info := Pipeline.duration_info nat w;
     Pipeline.ffmpeg := Pipeline.ffmpeg nat w |}.

(** A caption file without text: an index line, a timing line and a
    line of blanks. *)
Definition textless_file : list string :=
  [line "1"; line "00:00:01,000 --> 00:00:02,500"; line "   "].

(** An answer of the translation service, and a network that gives
    it to every request. *)
Definition sample_answer : Json.value :=
  Json.Obj
    [("id", Json.Str "chatcmpl-1");
     ("choices",
      Json.Arr
        [Json.Obj
           [("index", Json.Int 0);
            ("message",
             Json.Obj [("role", Json.Str "assistant");
                       ("content", Json.Str (line " Good morning. "))])]])].

Definition answering (r : Deepseek.request) (calls : nat)
  : res Deepseek.response * nat :=
  (Ok {| Deepseek.status_code := 200;
         Deepseek.reason := "OK";
         Deepseek.body := Some sample_answer |},
   S calls).

(** A Linux system on which [out] is the only directory. *)
Definition sample_system : Folder.system :=
  {| Folder.platform := "linux";
     Folder.path_dirname := Folder.dirname;
     Folder.path_exists := fun p => String.eqb p "out"
                                    || String.eqb p "out/ACDC Live_translated.mp4";
     Folder.path_isdir := fun p => String.eqb p "out" |}.

(** The window before the first run, and a form filled in for the
    sample options. *)
Definition fresh_window : Gui.window :=
  {| Gui.start_btn := true; Gui.cancel_btn := false;
     Gui.tabs := 0; Gui.stage_label := "Status: Ready";
     Gui.progress_bar := 0;
     Gui.progress_status_label := EmptyString;
     Gui.log_box := [];
     Gui.current_options := None;
     Gui.current_title := None;
     Gui.processing_thread := None;
     Gui.saved := [];
     Gui.dialogs := [] |}.

Definition sample_form : Gui.form :=
  {| Gui.url_input := "  https://youtu.be/abc123?t=42 ";
     Gui.path_display := "out";
     Gui.type_index := 0;
     Gui.quality_combo := "720p";
     Gui.lang_combo := "en";
     Gui.model_combo := "small";
     Gui.api_key_input := "sk-test" |}.

(* ================================================================== *)
(** * Properties *)

(** ** Strings *)

Section StringFacts.

Lemma append_nil_r (s : string) : s ++ EmptyString = s.
Proof. induction s; simpl; congruence. Qed.

Lemma append_assoc (a b c : string) : (a ++ b) ++ c = a ++ b ++ c.
Proof. induction a; simpl; congruence. Qed.

Lemma length_append (a b : string) : length (a ++ b) = length a + length b.
Proof. induction a; simpl; congruence. Qed.

Lemma take_append (a b : string) : PyStr.take (length a) (a ++ b) = a.
Proof. induction a; simpl; congruence. Qed.

Lemma take_matched (m rest : string) :
  PyStr.take (length (m ++ rest) - length rest) (m ++ rest) = m.
Proof.
  rewrite length_append.
  replace (length m + length rest - length rest) with (length m) by lia.
  apply take_append.
Qed.

Lemma prefix_append (l s : string) : prefix l (l ++ s) = true.
Proof.
  induction l as [|c l IH]; simpl.
  - now destruct s.
  - destruct (ascii_dec c c); [assumption|congruence].
Qed.

End StringFacts.

(** ** The matcher *)

Section MatcherFacts.
Import Re.

(** What the matcher finds is a match. *)
Lemma exec_sound (A : Type) (r : regex) :
  forall (s : string) (k : string -> option A) (x : A),
    exec r s k = Some x ->
    exists rest, matches r s rest /\ k rest = Some x.
Proof.
  induction r as [|p|r1 IH1 r2 IH2|r1 IH1 r2 IH2|r IH|]; intros s k x H; simpl in H.
  - exists s; split; [constructor|assumption].
  - destruct s as [|c s]; [discriminate|].
    destruct (p c) eqn:Hp; [|discriminate].
    exists s; split; [now constructor|assumption].
  - apply IH1 in H as (s1 & M1 & H).
    apply IH2 in H as (s2 & M2 & H).
    exists s2; split; [econstructor; eassumption|assumption].
  - destruct (exec r1 s k) eqn:E1.
    + injection H as ->. apply IH1 in E1 as (s1 & M1 & E1).
      exists s1; split; [now apply matches_alt_l|assumption].
    + apply IH2 in H as (s1 & M1 & H).
      exists s1; split; [now apply matches_alt_r|assumption].
  - revert H. generalize (length s). intros fuel. revert s.
    induction fuel as [|fuel IHf]; intros s H.
    + exists s; split; [constructor|assumption].
    + match type of H with
      | match ?e with _ => _ end = _ => destruct e eqn:E
      end.
      * injection H as ->. apply IH in E as (s1 & M1 & E).
        destruct (length s1 <? length s)%nat; [|discriminate].
        apply IHf in E as (s2 & M2 & E).
        exists s2; split; [econstructor; eassumption|assumption].
      * exists s; split; [constructor|assumption].
  - destruct (at_end s) eqn:E; [|discriminate].
    exists s; split; [now constructor|assumption].
Qed.

(** A match leaves a suffix of the text. *)
Lemma matches_suffix (r : regex) (s rest : string) :
  matches r s rest -> exists m, s = m ++ rest.
Proof.
  induction 1 as [s|p c s _|r1 r2 s s1 s2 _ [m1 ->] _ [m2 ->]
                 |r1 r2 s s1 _ IH|r1 r2 s s1 _ IH
                 |r s|r s s1 s2 _ [m1 ->] _ [m2 ->]|s _].
  - now exists EmptyString.
  - now exists (String c EmptyString).
  - exists (m1 ++ m2). now rewrite append_assoc.
  - exact IH.
  - exact IH.
  - now exists EmptyString.
  - exists (m1 ++ m2). now rewrite append_assoc.
  - now exists EmptyString.
Qed.

Lemma matches_Lit (l s rest : string) :
  matches (Lit l) s rest -> s = l ++ rest.
Proof.
  revert s; induction l as [|c l IH]; intros s H; simpl in H.
  - inversion H; subst. reflexivity.
  - inversion H as [| |r1 r2 s0 s1 s2 H1 H2| | | | |]; subst.
    inversion H1 as [|p d s0 Hd| | | | | |]; subst.
    apply Ascii.eqb_eq in Hd as <-.
    simpl. f_equal. now apply IH.
Qed.

Lemma matches_star_cls (p : ascii -> bool) (s rest : string) :
  matches (Star (Cls p)) s rest ->
  exists m, s = m ++ rest /\ PyStr.all p m = true.
Proof.
  intros H. remember (Star (Cls p)) as r eqn:Hr.
  induction H as [| | | | |r s|r s s1 s2 H1 _ H2 IH|]; try discriminate.
  - now exists EmptyString.
  - injection Hr as ->.
    destruct (IH eq_refl) as (m & -> & Hm).
    inversion H1 as [|q c s0 Hc| | | | | |]; subst.
    exists (String c m); split; [reflexivity|].
    simpl. now rewrite Hc.
Qed.

Lemma exec_star_cls (A : Type) (p : ascii -> bool) (s : string)
      (k : string -> option A) :
  exec (Star (Cls p)) s k = star_cls p s k.
Proof.
  simpl.
  assert (G : forall fuel s, length s <= fuel ->
    (fix loop (fuel : nat) (s : string) {struct fuel} : option A :=
       match fuel with
       | O => k s
       | S fuel' =>
           match
             match s with
             | String c s' =>
                 if p c
                 then if (length s' <? length s)%nat then loop fuel' s' else None
                 else None
             | EmptyString => None
             end
           with
           | Some x => Some x
           | None => k s
           end
       end) fuel s = star_cls p s k).
  { induction fuel as [|fuel IHf]; intros t Ht.
    - destruct t; [reflexivity|simpl in Ht; lia].
    - destruct t as [|c t]; [reflexivity|].
      cbn [star_cls]. destruct (p c); [|reflexivity].
      replace (length t <? length (String c t))%nat with true
        by (symmetry; apply Nat.ltb_lt; simpl; lia).
      rewrite IHf by (simpl in Ht; lia). reflexivity. }
  now apply G.
Qed.

Lemma star_cls_Some (p : ascii -> bool) (s : string) :
  star_cls p s (fun rest => Some rest) = Some (skip_class p s).
Proof.
  induction s as [|c s IH]; simpl; [reflexivity|].
  destruct (p c); [now rewrite IH|reflexivity].
Qed.

Lemma skip_class_run (p : ascii -> bool) (m rest : string) :
  PyStr.all p m = true -> starts_with p rest = false ->
  skip_class p (m ++ rest) = rest.
Proof.
  intros Hm Hr. induction m as [|c m IH]; simpl in *.
  - destruct rest as [|d rest]; [reflexivity|]. simpl in *. now rewrite Hr.
  - apply andb_true_iff in Hm as [-> Hm]. now apply IH.
Qed.

End MatcherFacts.

(** ** [clean_youtube_url] *)

Section UrlFacts.
Import Re Url.

Ltac inv H := inversion H; subst; clear H.

(** Finds the prefix of a decomposition among a list of candidates. *)
Ltac canonical_form ps :=
  let ps' := eval unfold watch_prefixes, short_prefixes in ps in
  let rec go l :=
    lazymatch l with
    | ?p :: ?l' =>
        first [ solve [ exists p; eexists;
                        split; [cbn; tauto|split; [eassumption|reflexivity]] ]
              | go l' ]
    end in
  go ps'.

Lemma exec_plus_cls (p : ascii -> bool) (s : string) :
  exec (Plus (Cls p)) s (fun rest => Some rest) =
  if starts_with p s then Some (skip_class p s) else None.
Proof.
  unfold Plus. cbn [exec].
  destruct s as [|c s]; [reflexivity|]. cbn [starts_with skip_class].
  destruct (p c); [|reflexivity].
  change (exec (Star (Cls p)) s (fun rest => Some rest) = Some (skip_class p s)).
  rewrite exec_star_cls. apply star_cls_Some.
Qed.

Lemma re_match_take (r : regex) (s m : string) :
  re_match r s = Some m ->
  exists rest, matches r s rest /\ m = PyStr.take (length s - length rest) s.
Proof.
  unfold re_match, match_rest. intros H.
  destruct (exec r s (fun rest => Some rest)) as [rest|] eqn:E; [|discriminate].
  apply exec_sound in E as (rest' & M & E). injection E as ->.
  injection H as <-. now exists rest.
Qed.

Lemma video_id_run (ids rest : string) :
  is_video_id ids = true -> starts_with idchar rest = false ->
  exec (Plus (Cls idchar)) (ids ++ rest) (fun r => Some r) = Some rest.
Proof.
  unfold is_video_id. intros Hid Hrest.
  apply andb_true_iff in Hid as [Hne Hall].
  rewrite exec_plus_cls, skip_class_run by assumption.
  destruct ids as [|c ids]; [discriminate|].
  simpl in *. apply andb_true_iff in Hall as [-> _]. reflexivity.
Qed.

Lemma matches_Seq_inv (r1 r2 : regex) (s rest : string) :
  matches (Seq r1 r2) s rest ->
  exists s1, matches r1 s s1 /\ matches r2 s1 rest.
Proof. intros H. inv H. eauto. Qed.

Lemma matches_Alt_inv (r1 r2 : regex) (s rest : string) :
  matches (Alt r1 r2) s rest -> matches r1 s rest \/ matches r2 s rest.
Proof. intros H. inv H; auto. Qed.

Lemma matches_Eps_inv (s rest : string) : matches Eps s rest -> s = rest.
Proof. intros H. now inv H. Qed.

Lemma matches_Chr_inv (c : ascii) (s rest : string) :
  matches (Chr c) s rest -> s = String c rest.
Proof.
  unfold Chr. intros H. inv H.
  match goal with H : Ascii.eqb _ _ = true |- _ =>
    apply Ascii.eqb_eq in H; now subst end.
Qed.

Lemma matches_video_id (s rest : string) :
  matches (Plus (Cls idchar)) s rest ->
  exists ids, is_video_id ids = true /\ s = ids ++ rest.
Proof.
  unfold Plus. intros H. inv H.
  match goal with H : matches (Cls _) _ _ |- _ => inv H end.
  match goal with H : matches (Star _) _ _ |- _ =>
    apply matches_star_cls in H as (m & -> & Hm) end.
  exists (String c m). split; [|reflexivity].
  unfold is_video_id. simpl.
  match goal with H : idchar c = true |- _ => now rewrite H end.
Qed.

(** Takes a match of one of the two patterns apart. *)
Ltac take_apart :=
  repeat match goal with
         | H : matches (Lit _) _ _ |- _ => apply matches_Lit in H; subst
         | H : matches (Plus _) _ _ |- _ =>
             apply matches_video_id in H as (ids & Hid & ->)
         | H : matches (Cls (Ascii.eqb ?c)) _ _ |- _ =>
             apply (matches_Chr_inv c) in H; subst
         | H : matches Eps _ _ |- _ => apply matches_Eps_inv in H; subst
         | H : matches (Seq _ _) _ _ |- _ =>
             apply matches_Seq_inv in H as (? & ? & ?)
         | H : matches (Alt _ _) _ _ |- _ =>
             apply matches_Alt_inv in H as [?|?]
         end.

(** After one of its prefixes, a pattern is left with the video id. *)
Lemma watch_pattern_prefix (p s : string) :
  In p watch_prefixes ->
  match_rest watch_pattern (p ++ s) = exec (Plus (Cls idchar)) s (fun r => Some r).
Proof.
  intros H. simpl in H.
  repeat (destruct H as [<-|H]; [
    unfold match_rest, watch_pattern; cbn -[Plus];
    now destruct (exec (Plus (Cls idchar)) s _) |]).
  contradiction.
Qed.

Lemma short_pattern_prefix (p s : string) :
  In p short_prefixes ->
  match_rest watch_pattern (p ++ s) = None /\
  match_rest short_pattern (p ++ s) = exec (Plus (Cls idchar)) s (fun r => Some r).
Proof.
  intros H. simpl in H.
  repeat (destruct H as [<-|H]; [
    unfold match_rest, watch_pattern, short_pattern; cbn -[Plus];
    now destruct (exec (Plus (Cls idchar)) s _) |]).
  contradiction.
Qed.

(** The function on a canonical form followed by anything that does
    not lengthen the video id. *)
Lemma clean_canonical (p ids rest : string) :
  In p url_prefixes -> is_video_id ids = true ->
  starts_with idchar rest = false ->
  clean_youtube_url (p ++ ids ++ rest) = p ++ ids.
Proof.
  intros Hp Hid Hrest. unfold url_prefixes in Hp.
  apply in_app_or in Hp as [Hp|Hp];
    unfold clean_youtube_url, patterns, first_match, re_match.
  - rewrite watch_pattern_prefix, video_id_run by assumption.
    now rewrite <- append_assoc, take_matched.
  - destruct (short_pattern_prefix p (ids ++ rest) Hp) as [-> ->].
    rewrite video_id_run by assumption.
    now rewrite <- append_assoc, take_matched.
Qed.

Lemma matches_watch_pattern (u rest : string) :
  matches watch_pattern u rest ->
  exists p ids, In p watch_prefixes /\ is_video_id ids = true /\
                u = p ++ ids ++ rest.
Proof.
  unfold watch_pattern, Opt, Chr. intros H.
  take_apart.
  all: canonical_form watch_prefixes.
Qed.

Lemma matches_short_pattern (u rest : string) :
  matches short_pattern u rest ->
  exists p ids, In p short_prefixes /\ is_video_id ids = true /\
                u = p ++ ids ++ rest.
Proof.
  unfold short_pattern, Opt, Chr. intros H.
  take_apart.
  all: canonical_form short_prefixes.
Qed.

(** What a pattern matched is a canonical form at the start of the
    input. *)
Lemma first_match_canonical (u m : string) :
  first_match patterns u = Some m ->
  exists p ids rest, In p url_prefixes /\ is_video_id ids = true /\
                     u = p ++ ids ++ rest /\ m = p ++ ids.
Proof.
  unfold patterns, first_match, url_prefixes. intros H.
  destruct (re_match watch_pattern u) as [m1|] eqn:E1.
  - injection H as ->.
    apply re_match_take in E1 as (rest & M & ->).
    apply matches_watch_pattern in M as (p & ids & Hp & Hid & ->).
    exists p, ids, rest. repeat split; auto using in_or_app.
    now rewrite <- append_assoc, take_matched.
  - destruct (re_match short_pattern u) as [m2|] eqn:E2; [|discriminate].
    injection H as ->.
    apply re_match_take in E2 as (rest & M & ->).
    apply matches_short_pattern in M as (p & ids & Hp & Hid & ->).
    exists p, ids, rest. repeat split; auto using in_or_app.
    now rewrite <- append_assoc, take_matched.
Qed.

(** C10.  [clean_youtube_url] returns the canonical form at the start of
    its input: a watch-URL or youtu.be prefix and the longest video id
    after it, whatever follows being dropped.  An input that starts with
    no canonical form is returned unchanged.  Cleaning a cleaned URL
    changes nothing. *)
Theorem clean_youtube_url_canonical_idempotent (u : string) :
  (forall p ids rest,
      In p url_prefixes -> is_video_id ids = true ->
      starts_with idchar rest = false ->
      u = p ++ ids ++ rest -> clean_youtube_url u = p ++ ids) /\
  ((forall p ids rest,
       In p url_prefixes -> is_video_id ids = true -> u <> p ++ ids ++ rest) ->
   clean_youtube_url u = u) /\
  clean_youtube_url (clean_youtube_url u) = clean_youtube_url u.
Proof.
  split; [|split].
  - intros p ids rest Hp Hid Hrest ->. now apply clean_canonical.
  - intros Hno. unfold clean_youtube_url.
    destruct (first_match patterns u) as [m|] eqn:E; [|reflexivity].
    apply first_match_canonical in E as (p & ids & rest & Hp & Hid & Hu & _).
    now destruct (Hno p ids rest Hp Hid).
  - unfold clean_youtube_url at 2 3.
    destruct (first_match patterns u) as [m|] eqn:E.
    + apply first_match_canonical in E as (p & ids & rest & Hp & Hid & _ & ->).
      rewrite <- (append_nil_r (p ++ ids)) at 1. rewrite append_assoc.
      now apply clean_canonical.
    + unfold clean_youtube_url. now rewrite E.
Qed.

Lemma clean_youtube_url_witness :
  clean_youtube_url "https://www.youtube.com/watch?v=dQw4w9WgXcQ&list=PL1&t=42s"
  = "https://www.youtube.com/watch?v=dQw4w9WgXcQ"
  /\ clean_youtube_url "not a link" = "not a link".
Proof.
  split.
  - apply (proj1 (clean_youtube_url_canonical_idempotent _)
             "https://www.youtube.com/watch?v=" "dQw4w9WgXcQ" "&list=PL1&t=42s").
    + simpl. tauto.
    + reflexivity.
    + reflexivity.
    + reflexivity.
  - apply (proj1 (proj2 (clean_youtube_url_canonical_idempotent _))).
    intros p ids rest Hp _ Hu. simpl in Hp.
    repeat (destruct Hp as [<-|Hp]; [discriminate Hu|]).
    contradiction.
Defined.

End UrlFacts.

(** ** [translate_srt_file] *)

Section SrtFacts.
Import Srt.

Variable W : Type.
Variable tr : string -> W -> res string * W.

Local Open Scope list_scope.

Local Abbreviation step := (Srt.step tr).
Local Abbreviation run_loop := (Srt.run_loop tr).
Local Abbreviation flush := (Srt.flush tr).

Lemma run_loop_app (l1 l2 : list string) (st : loop_state W) :
  run_loop (l1 ++ l2) st = run_loop l2 (run_loop l1 st).
Proof. apply fold_left_app. Qed.

Lemma run_loop_cons (l : string) (ls : list string) (st : loop_state W) :
  run_loop (l :: ls) st = run_loop ls (step st l).
Proof. reflexivity. Qed.

Lemma step_index (st : loop_state W) (l : string) :
  is_index_line l = true -> step st l = append_line l st.
Proof. intros H. unfold Srt.step. now rewrite H. Qed.

Lemma step_timing (st : loop_state W) (l : string) :
  is_index_line l = false -> is_timing_line l = true ->
  step st l = append_line l st.
Proof. intros H1 H2. unfold Srt.step. now rewrite H1, H2. Qed.

Lemma step_text (st : loop_state W) (l : string) :
  is_text_line l = true ->
  step st l = {| translated_lines := translated_lines st;
                 text_buffer := text_buffer st ++ [PyStr.strip l];
                 service := service st;
                 trace := trace st |}.
Proof.
  unfold is_text_line, Srt.step. intros H.
  apply andb_true_iff in H as [H H3]. apply andb_true_iff in H as [H1 H2].
  apply negb_true_iff in H1, H2, H3. now rewrite H1, H2, H3.
Qed.

Lemma step_newline (st : loop_state W) :
  step st PyStr.newline =
  append_line PyStr.newline
    (match text_buffer st with
     | [] => st
     | _ :: _ => clear_buffer (translate_buffer tr st)
     end).
Proof. reflexivity. Qed.

(** Lines of text go to the buffer, stripped. *)
Lemma run_loop_text (ls : list string) (st : loop_state W) :
  Forall (fun l => is_text_line l = true) ls ->
  run_loop ls st = {| translated_lines := translated_lines st;
                      text_buffer := text_buffer st ++ map PyStr.strip ls;
                      service := service st;
                      trace := trace st |}.
Proof.
  intros H. revert st. induction H as [|l ls Hl _ IH]; intros st.
  - simpl. rewrite app_nil_r. now destruct st.
  - rewrite run_loop_cons, IH, step_text by assumption. simpl.
    now rewrite <- app_assoc.
Qed.

(** The lines a block leaves in the output, and the service after it:
    the text of the block as [translate_buffer] writes it. *)
Lemma translate_buffer_block (b : CaptionBlock) (out : list string)
      (w : W) (t : list event) :
  text b <> [] ->
  let st := translate_buffer tr
              {| translated_lines := out;
                 text_buffer := map PyStr.strip (text b);
                 service := w; trace := t |} in
  translated_lines st = out ++ text (fst (translate_block tr stripped b w)) /\
  service st = snd (translate_block tr stripped b w).
Proof.
  intros Hne. unfold translate_buffer, translate_block, joined_text. simpl.
  destruct (text b) as [|l ls] eqn:E; [congruence|]. rewrite <- E.
  destruct (tr _ w) as [[t'|e] w']; simpl; [easy|].
  unfold stripped. now rewrite map_map.
Qed.

Lemma map_strip_nil (ls : list string) :
  map PyStr.strip ls = [] -> ls = [].
Proof. now destruct ls. Qed.

(** A block that a blank line ends. *)
Lemma run_loop_block (b : CaptionBlock) (tail : list string) (st : loop_state W) :
  well_formed b -> text_buffer st = [] ->
  exists t,
    run_loop (index b :: timing b :: text b ++ PyStr.newline :: tail) st =
    run_loop tail
      {| translated_lines :=
           translated_lines st ++
           index b :: timing b ::
           text (fst (translate_block tr stripped b (service st))) ++ [PyStr.newline];
         text_buffer := [];
         service := snd (translate_block tr stripped b (service st));
         trace := t |}.
Proof.
  intros (Hi & Hti & Ht & Htext) Hbuf.
  rewrite !run_loop_cons, run_loop_app, run_loop_cons.
  rewrite (step_index _ _ Hi), (step_timing _ _ Hti Ht).
  rewrite (run_loop_text _ _ Htext), step_newline.
  destruct st as [out buf w t]. simpl in Hbuf. subst buf. simpl.
  destruct (map PyStr.strip (text b)) as [|x xs] eqn:E.
  - apply map_strip_nil in E. unfold translate_block. rewrite E. simpl.
    exists t. unfold append_line. simpl. rewrite E. now rewrite <- !app_assoc.
  - assert (Hne : text b <> []) by (intros Hn; now rewrite Hn in E).
    rewrite <- E.
    destruct (translate_buffer_block b ((out ++ [index b]) ++ [timing b]) w t Hne)
      as [Hl Hs].
    eexists. unfold append_line, clear_buffer. cbn [translated_lines text_buffer service trace].
    rewrite Hl, Hs. now rewrite <- !app_assoc.
Qed.

(** The last block, when no blank line follows it. *)
Lemma run_loop_last_block (b : CaptionBlock) (st : loop_state W) :
  well_formed b -> text_buffer st = [] ->
  let st' := flush (run_loop (index b :: timing b :: text b) st) in
  translated_lines st' =
    translated_lines st ++
    index b :: timing b :: text (fst (translate_block tr stripped b (service st))) /\
  service st' = snd (translate_block tr stripped b (service st)).
Proof.
  intros (Hi & Hti & Ht & Htext) Hbuf.
  rewrite !run_loop_cons.
  rewrite (step_index _ _ Hi), (step_timing _ _ Hti Ht).
  rewrite (run_loop_text _ _ Htext).
  destruct st as [out buf w t]. simpl in Hbuf. subst buf. simpl.
  unfold Srt.flush. cbn [text_buffer].
  destruct (map PyStr.strip (text b)) as [|x xs] eqn:E.
  - apply map_strip_nil in E. unfold translate_block. rewrite E. simpl.
    rewrite E. now rewrite <- !app_assoc.
  - assert (Hne : text b <> []) by (intros Hn; now rewrite Hn in E).
    rewrite <- E.
    destruct (translate_buffer_block b ((out ++ [index b]) ++ [timing b]) w t Hne)
      as [Hl Hs].
    cbv zeta in Hl, Hs. rewrite Hl, Hs. now rewrite <- !app_assoc.
Qed.

(** Translation keeps the index line and the timing line of a block. *)
Lemma translate_block_lines (fallback : list string -> list string)
      (b : CaptionBlock) (w : W) :
  index (fst (translate_block tr fallback b w)) = index b /\
  timing (fst (translate_block tr fallback b w)) = timing b.
Proof.
  unfold translate_block. destruct (text b); [easy|].
  now destruct (tr _ w) as [[t|e] w'].
Qed.

(** The loop, block by block. *)
Lemma translate_lines_blocks (final_blank : bool) (bs : list CaptionBlock) :
  Forall well_formed bs ->
  forall st : loop_state W, text_buffer st = [] ->
  let st' := flush (run_loop (caption_file final_blank bs) st) in
  translated_lines st' =
    translated_lines st ++
    caption_file final_blank (fst (translate_blocks tr stripped bs (service st))) /\
  service st' = snd (translate_blocks tr stripped bs (service st)).
Proof.
  induction 1 as [|b bs Hb Hbs IH]; intros st Hbuf.
  - simpl. unfold Srt.flush. rewrite Hbuf, app_nil_r. auto.
  - cbn [caption_file translate_blocks].
    destruct (translate_block_lines stripped b (service st)) as [Hix Htm].
    destruct (translate_block tr stripped b (service st)) as [b1 w1] eqn:Eb.
    cbn [fst] in Hix, Htm.
    destruct bs as [|b' bs'].
    + cbn [translate_blocks caption_file fst snd].
      destruct final_blank.
      * destruct (run_loop_block b [] st Hb Hbuf) as [t Ht].
        cbv zeta. rewrite Ht, Eb. simpl. unfold Srt.flush. simpl.
        rewrite Hix, Htm. auto.
      * rewrite app_nil_r.
        destruct (run_loop_last_block b st Hb Hbuf) as [Hl Hs].
        rewrite Eb in Hl, Hs. cbn [fst snd] in Hl, Hs.
        rewrite Hix, Htm, app_nil_r. auto.
    + destruct (run_loop_block b (caption_file final_blank (b' :: bs')) st Hb Hbuf)
        as [t Ht].
      cbv zeta. rewrite Ht, Eb. cbn [fst snd].
      match goal with |- context [run_loop _ ?s] => specialize (IH s eq_refl) end.
      cbv zeta in IH. cbn [service translated_lines] in IH.
      destruct IH as [IHl IHs]. rewrite IHl, IHs.
      destruct (translate_blocks tr stripped (b' :: bs') w1) as [bs1 w2] eqn:Ebs.
      cbn [fst snd caption_file].
      assert (Hne : bs1 <> []).
      { cbn [translate_blocks] in Ebs.
        destruct (translate_block tr stripped b' w1).
        destruct (translate_blocks tr stripped bs' w).
        injection Ebs as <- _. discriminate. }
      destruct bs1 as [|b2 bs2]; [congruence|].
      rewrite Hix, Htm, <- !app_assoc. cbn [app].
      rewrite <- !app_assoc. auto.
Qed.

(** Without surrounding blanks, a line is kept as it is. *)
Lemma stripped_clean (ls : list string) :
  Forall (fun l => add_newline (PyStr.strip l) = l) ls -> stripped ls = ls.
Proof.
  unfold stripped. induction 1 as [|l ls Hl _ IH]; simpl; congruence.
Qed.

Lemma translate_blocks_length (fallback : list string -> list string)
      (bs : list CaptionBlock) (w : W) :
  List.length (fst (translate_blocks tr fallback bs w)) = List.length bs.
Proof.
  revert w. induction bs as [|b bs IH]; intros w; simpl; [reflexivity|].
  destruct (translate_block tr fallback b w) as [b1 w1].
  specialize (IH w1). destruct (translate_blocks tr fallback bs w1).
  simpl in *. congruence.
Qed.

Lemma translate_blocks_lines (fallback : list string -> list string)
      (bs : list CaptionBlock) (w : W) :
  Forall2 (fun b b' => index b' = index b /\ timing b' = timing b)
          bs (fst (translate_blocks tr fallback bs w)).
Proof.
  revert w. induction bs as [|b bs IH]; intros w; simpl; [constructor|].
  pose proof (translate_block_lines fallback b w) as Hb.
  destruct (translate_block tr fallback b w) as [b1 w1].
  specialize (IH w1). destruct (translate_blocks tr fallback bs w1).
  simpl in *. now constructor.
Qed.

(** C2, as the code has it.  For a caption file of N well-formed blocks
    the lines written are those of N blocks in the same order, each with
    the index line and the timing line of its input block.  A block whose
    translation raises keeps its text lines, each stripped of surrounding
    whitespace and ended by a newline (so unchanged when they carry no
    other surrounding whitespace); any other block with text carries the
    translation, on one line.  Errors of the translation never make the
    call fail. *)
Theorem translate_srt_file_blocks
        (final_blank : bool) (bs : list CaptionBlock) (w : W) :
  Forall well_formed bs ->
  let out := fst (translate_blocks tr stripped bs w) in
  fst (fst (translate_srt_file tr (Ok (caption_file final_blank bs)) None w))
    = Ok (caption_file final_blank out) /\
  List.length out = List.length bs /\
  Forall2 (fun b b' => index b' = index b /\ timing b' = timing b) bs out /\
  (forall b w1, text b <> [] ->
     text (fst (translate_block tr stripped b w1)) =
     match fst (tr (joined_text (text b)) w1) with
     | Ok t => [add_newline t]
     | Raise _ => map (fun l => add_newline (PyStr.strip l)) (text b)
     end) /\
  (forall ls, Forall (fun l => add_newline (PyStr.strip l) = l) ls ->
              stripped ls = ls) /\
  (forall lines, exists written,
      fst (fst (translate_srt_file tr (Ok lines) None w)) = Ok written).
Proof.
  intros Hwf out. repeat split.
  - unfold translate_srt_file, translate_lines. cbn [fst].
    destruct (translate_lines_blocks final_blank bs Hwf (init w) eq_refl) as [H _].
    cbv zeta in H. now rewrite H.
  - apply translate_blocks_length.
  - apply translate_blocks_lines.
  - intros b w1 Hne. unfold translate_block.
    destruct (text b) as [|l ls] eqn:E; [congruence|].
    now destruct (tr _ w1) as [[t|e] w2].
  - apply stripped_clean.
  - intros lines. eexists. reflexivity.
Qed.

(** ** What reaches the translation service *)

Lemma translate_buffer_invariant (all : list string) (st : loop_state W) :
  text_buffer st <> [] -> buffer_invariant all st ->
  buffer_invariant all (translate_buffer tr st).
Proof.
  intros Hne [(g & Hg & Hall) Htr]. unfold translate_buffer.
  assert (Hcall : from_text_lines all (PyStr.strip (PyStr.join " " (text_buffer st)))).
  { exists g. repeat split; [|assumption|now rewrite Hg].
    intros ->. now rewrite Hg in Hne. }
  destruct (tr _ (service st)) as [[t|e] w']; split; cbn [text_buffer trace];
    eauto; repeat (apply Forall_app; split); auto;
    repeat constructor; assumption.
Qed.

Lemma step_invariant (all : list string) (st : loop_state W) (l : string) :
  In l all -> buffer_invariant all st -> buffer_invariant all (step st l).
Proof.
  intros Hin Hinv. unfold Srt.step.
  destruct (is_index_line l) eqn:E1; [exact Hinv|].
  destruct (is_timing_line l) eqn:E2; [exact Hinv|].
  destruct (is_blank_line l) eqn:E3.
  - destruct (text_buffer st) as [|x xs] eqn:Eb; [exact Hinv|].
    assert (Hne : text_buffer st <> []) by congruence.
    destruct (translate_buffer_invariant all st Hne Hinv) as [_ Htr].
    split; [|exact Htr]. exists []. split; [reflexivity|constructor].
  - destruct Hinv as [(g & Hg & Hall) Htr]. split; [|exact Htr].
    exists (g ++ [l]). cbn [text_buffer]. rewrite map_app, Hg. split; [reflexivity|].
    apply Forall_app. split; [assumption|].
    repeat constructor; [assumption|].
    unfold is_text_line. now rewrite E1, E2, E3.
Qed.

Lemma run_loop_invariant (all ls : list string) (st : loop_state W) :
  incl ls all -> buffer_invariant all st -> buffer_invariant all (run_loop ls st).
Proof.
  revert st. induction ls as [|l ls IH]; intros st Hincl Hinv; [exact Hinv|].
  rewrite run_loop_cons. apply IH.
  - intros x Hx. apply Hincl. now right.
  - apply step_invariant; [apply Hincl; now left|assumption].
Qed.

(** The output only grows. *)
Lemma step_extends (st : loop_state W) (l : string) :
  exists more, translated_lines (step st l) = translated_lines st ++ more.
Proof.
  unfold Srt.step, append_line, clear_buffer, translate_buffer.
  destruct (is_index_line l); [eexists; reflexivity|].
  destruct (is_timing_line l); [eexists; reflexivity|].
  destruct (is_blank_line l).
  - destruct (text_buffer st); [eexists; reflexivity|].
    destruct (tr _ (service st)) as [[t|e] w']; cbn [translated_lines];
      rewrite <- app_assoc; eexists; reflexivity.
  - exists []. cbn [translated_lines]. now rewrite app_nil_r.
Qed.

Lemma run_loop_extends (ls : list string) (st : loop_state W) :
  exists more, translated_lines (run_loop ls st) = translated_lines st ++ more.
Proof.
  revert st. induction ls as [|l ls IH]; intros st.
  - exists []. simpl. now rewrite app_nil_r.
  - rewrite run_loop_cons. destruct (IH (step st l)) as [m1 ->].
    destruct (step_extends st l) as [m2 ->].
    rewrite <- app_assoc. eexists; reflexivity.
Qed.

Lemma flush_extends (st : loop_state W) :
  exists more, translated_lines (flush st) = translated_lines st ++ more.
Proof.
  unfold Srt.flush, translate_buffer.
  destruct (text_buffer st).
  - exists []. now rewrite app_nil_r.
  - destruct (tr _ (service st)) as [[t|e] w']; eexists; reflexivity.
Qed.

Lemma flush_invariant (all : list string) (st : loop_state W) :
  buffer_invariant all st -> buffer_invariant all (flush st).
Proof.
  intros Hinv. unfold Srt.flush.
  destruct (text_buffer st) eqn:E; [exact Hinv|].
  apply translate_buffer_invariant; [congruence|assumption].
Qed.

(** C6.  The translation service is only ever called on the joined text
    of lines that are neither index lines, nor timing lines, nor blank.
    An index line or a timing line is written to the output as it is,
    right after the output of the lines before it, and reading it
    neither calls the service nor touches the buffered text. *)
Theorem translator_sees_text_only (lines : list string) (w : W) :
  Forall (call_from_text lines) (trace (translate_lines tr lines w)) /\
  forall pre l post,
    lines = pre ++ l :: post ->
    is_index_line l = true \/ is_timing_line l = true ->
    let before := run_loop pre (init w) in
    nth_error (translated_lines (translate_lines tr lines w))
              (List.length (translated_lines before)) = Some l /\
    trace (step before l) = trace before /\
    text_buffer (step before l) = text_buffer before.
Proof.
  split.
  - unfold translate_lines.
    apply flush_invariant, run_loop_invariant; [apply incl_refl|].
    split; [exists []; split; [reflexivity|constructor]|constructor].
  - intros pre l post -> Hl before.
    assert (Hstep : step before l = append_line l before).
    { destruct Hl as [Hl|Hl]; unfold Srt.step; rewrite Hl;
        [reflexivity|now destruct (is_index_line l)]. }
    rewrite Hstep. repeat split.
    unfold translate_lines. rewrite run_loop_app, run_loop_cons.
    fold before. rewrite Hstep.
    destruct (run_loop_extends post (append_line l before)) as [m1 H1].
    destruct (flush_extends (run_loop post (append_line l before))) as [m2 H2].
    rewrite H2, H1. cbn [append_line translated_lines].
    rewrite <- !app_assoc. rewrite nth_error_app2 by lia.
    now rewrite Nat.sub_diag.
Qed.

End SrtFacts.

(** ** The progress interpreters *)

Section InterpFacts.
Import Re Interp.

Ltac inv H := inversion H; subst; clear H.

Lemma contains_prefix (sub s : string) :
  prefix sub s = true -> PyStr.contains sub s = true.
Proof. intros H. destruct s; cbn [PyStr.contains]; now rewrite H. Qed.

Lemma contains_append (sub pre post : string) :
  PyStr.contains sub (pre ++ sub ++ post) = true.
Proof.
  induction pre as [|c pre IH]; simpl.
  - apply contains_prefix, prefix_append.
  - rewrite IH. apply orb_true_r.
Qed.



Lemma matches_Cls_inv (p : ascii -> bool) (s rest : string) :
  matches (Cls p) s rest -> exists c, p c = true /\ s = String c rest.
Proof. intros H. inv H. eauto. Qed.






(** *** Signs of the floating-point operations *)












(** *** The encode interpreter *)









(** *** The download interpreter *)

Lemma to_int_truncates (x : PyFloat.float) (p : Z) :
  PyFloat.to_int x = Ok p -> PyFloat.truncates x p.
Proof.
  destruct x as [s|s| |s m e]; unfold PyFloat.to_int, PyFloat.truncates;
    intros H; try discriminate.
  - now injection H as <-.
  - injection H as <-.
    assert (Habs : forall v, (0 <= v)%Z -> Z.abs (cond_Zopp s v) = v).
    { intros v Hv. destruct s; simpl; lia. }
    destruct (Z.leb_spec 0 e) as [He|He].
    + rewrite Z.shiftl_mul_pow2 by assumption.
      assert (Hp : (0 < 2 ^ e)%Z) by (apply Z.pow_pos_nonneg; lia).
      rewrite Habs by nia.
      rewrite (Z.max_l e 0), (Z.max_r (- e) 0) by lia.
      rewrite Z.pow_0_r. split; [reflexivity|]. nia.
    + rewrite Z.shiftr_div_pow2 by lia.
      assert (Hp : (0 < 2 ^ (- e))%Z) by (apply Z.pow_pos_nonneg; lia).
      pose proof (Z.div_pos (Zpos m) (2 ^ (- e)) ltac:(lia) Hp) as Hq.
      rewrite Habs by assumption.
      rewrite (Z.max_r e 0), (Z.max_l (- e) 0) by lia.
      rewrite Z.pow_0_r. split; [reflexivity|].
      pose proof (Z.div_mod (Zpos m) (2 ^ (- e)) ltac:(lia)) as Hdm.
      pose proof (Z.mod_pos_bound (Zpos m) (2 ^ (- e)) Hp) as Hmb.
      nia.
Qed.

(** C7, as the specification states it, fails: nothing clamps the
    percent, and a percent text of 150.0 is emitted as 150. *)
Lemma progress_hook_not_clamped :
  progress_hook false payload_150 = Ok [Progress 150 "1.21MiB/s"] /\
  ~ (exists p detail,
        progress_hook false payload_150 = Ok [Progress p detail] /\
        (0 <= p <= 100)%Z).
Proof.
  assert (E : progress_hook false payload_150 = Ok [Progress 150 "1.21MiB/s"])
    by (vm_compute; reflexivity).
  split; [exact E|].
  intros (p & detail & H & Hp). rewrite E in H.
  injection H as <- _. lia.
Qed.

(** C7, as the code has it.  While the run is not cancelled, a payload
    with status [downloading] whose percent text, cleaned of escape
    sequences, of the percent sign and of surrounding blanks, reads as a
    float with an integer part gives that integer part (the float
    truncated toward zero, not clamped), paired with the cleaned speed
    text; a payload with status [finished] gives 100 and the text
    [Finalizing...].  The percent text 45.3 followed by an escape
    sequence gives 45. *)
Theorem progress_hook_truncates (d : payload) :
  (forall x p,
      status d = "downloading" ->
      PyFloat.of_string (clean_percent (get "0.0%" (percent_str d))) = Some x ->
      PyFloat.to_int x = Ok p ->
      progress_hook false d
      = Ok [Progress p (clean_speed (get "N/A" (speed_str d)))] /\
      PyFloat.truncates x p) /\
  (status d = "finished" ->
   progress_hook false d = Ok [Progress 100 "Finalizing..."]) /\
  progress_hook false payload_45 = Ok [Progress 45 "1.21MiB/s"].
Proof.
  split; [|split].
  - intros x p Hs Hx Hp. split; [|now apply to_int_truncates].
    unfold progress_hook. now rewrite Hs, Hx, Hp.
  - intros H. unfold progress_hook. rewrite H. reflexivity.
  - vm_compute. reflexivity.
Qed.

Lemma progress_hook_truncates_witness :
  progress_hook false payload_150 = Ok [Progress 150 "1.21MiB/s"] /\
  progress_hook false {| status := "finished"; percent_str := None;
                         speed_str := None |}
  = Ok [Progress 100 "Finalizing..."].
Proof.
  split.
  - apply (proj1 (progress_hook_truncates payload_150)
             (S754_finite false 5277655813324800 (-45)) 150%Z).
    + reflexivity.
    + vm_compute. reflexivity.
    + vm_compute. reflexivity.
  - apply (proj1 (proj2 (progress_hook_truncates _))). reflexivity.
Defined.

(** C3.  The handler of [ValueError] calls the signal [log_message]
    where it means its [emit]: a percent text that is no number makes the
    hook raise [TypeError]. *)
Theorem progress_hook_raises_on_malformed_percent :
  PyFloat.of_string (clean_percent "  N/A%") = None /\
  progress_hook false payload_unknown = Raise signal_called.
Proof. split; vm_compute; reflexivity. Qed.

(** The same for every percent text that is no number. *)
Lemma progress_hook_malformed (d : payload) :
  status d = "downloading" ->
  PyFloat.of_string (clean_percent (get "0.0%" (percent_str d))) = None ->
  progress_hook false d = Raise signal_called.
Proof. intros H1 H2. unfold progress_hook. now rewrite H1, H2. Qed.

End InterpFacts.

(** ** The subprocess executor *)

Section ExecutorFacts.
Import Pipeline.
Local Open Scope list_scope.

Variable W : Type.
Variable w : world W.

Lemma flag_latch (n m : nat) : flag W w n = true -> n <= m -> flag W w m = true.
Proof.
  unfold flag. destruct (cancel_at W w) as [c|]; [|discriminate].
  rewrite !Nat.leb_le. lia.
Qed.

(** Either no read of a range sees the flag, or one is the first to. *)
Lemma first_seen (n len : nat) :
  (forall j, j < len -> flag W w (n + j) = false) \/
  (exists k, k < len /\ flag W w (n + k) = true /\
             forall j, j < k -> flag W w (n + j) = false).
Proof.
  induction len as [|len [IH|(k & Hk & Hf & Hfirst)]].
  - left. intros j Hj. lia.
  - destruct (flag W w (n + len)) eqn:E.
    + right. exists len. repeat split; [lia|assumption|assumption].
    + left. intros j Hj. destruct (Nat.eq_dec j len) as [->|]; [assumption|].
      apply IH. lia.
  - right. exists k. repeat split; [lia|assumption|assumption].
Qed.

(** One turn of the loop. *)
Lemma read_output_cons (l : string) (lines : list string) (n : nat) :
  read_output W w (l :: lines) n =
  if flag W w n then (Ok true, S n, terminated)
  else match read_output W w lines (S n) with
       | (r, n', ev) => (r, n', logged l :: ev)
       end.
Proof.
  cbn [read_output]. unfold bind, is_cancelled, emit, ret.
  destruct (flag W w n); [reflexivity|].
  now destruct (read_output W w lines (S n)) as [[[b|e] n'] ev].
Qed.

(** The loop runs to the end of the output when no read sees the flag. *)
Lemma read_output_all (lines : list string) (n : nat) :
  (forall j, j < List.length lines -> flag W w (n + j) = false) ->
  read_output W w lines n = (Ok false, n + List.length lines, map logged lines).
Proof.
  revert n. induction lines as [|l lines IH]; intros n H.
  - simpl. unfold ret. now rewrite Nat.add_0_r.
  - rewrite read_output_cons.
    pose proof (H 0 ltac:(simpl; lia)) as H0. rewrite Nat.add_0_r in H0.
    rewrite H0, (IH (S n)).
    + simpl. repeat f_equal. lia.
    + intros j Hj. replace (S n + j) with (n + S j) by lia.
      apply H. simpl. lia.
Qed.

(** The loop stops at the first read that sees the flag. *)
Lemma read_output_stopped (lines : list string) (n k : nat) :
  k < List.length lines -> flag W w (n + k) = true ->
  (forall j, j < k -> flag W w (n + j) = false) ->
  read_output W w lines n
  = (Ok true, S (n + k), map logged (firstn k lines) ++ terminated).
Proof.
  revert n k. induction lines as [|l lines IH]; intros n k Hk Hf Hfirst.
  - simpl in Hk. lia.
  - rewrite read_output_cons.
    destruct k as [|k].
    + rewrite Nat.add_0_r in Hf. rewrite Hf. rewrite Nat.add_0_r. reflexivity.
    + pose proof (Hfirst 0 ltac:(lia)) as H0. rewrite Nat.add_0_r in H0.
      rewrite H0, (IH (S n) k).
      * simpl. repeat f_equal. lia.
      * simpl in Hk. lia.
      * now replace (S n + k) with (n + S k) by lia.
      * intros j Hj. replace (S n + j) with (n + S j) by lia.
        apply Hfirst. lia.
Qed.

Lemma popen_started (cmd : list string) (p : process) (n : nat) :
  start_error p = None -> popen cmd p n = (Ok tt, n, [Spawn cmd]).
Proof. intros H. unfold popen. now rewrite H. Qed.

Lemma popen_failed (cmd : list string) (p : process) (e : exn) (n : nat) :
  start_error p = Some e -> popen cmd p n = (Raise e, n, []).
Proof. intros H. unfold popen. now rewrite H. Qed.

(** An exception of a process that was started is raised after the
    wait for its end. *)
Lemma run_subprocess_waited (cmd : list string) (p : process) (n : nat)
      (e : exn) :
  start_error p = None ->
  outcome (_run_subprocess W w cmd p n) = Raise e ->
  In Wait (events (_run_subprocess W w cmd p n)).
Proof.
  intros Hstart.
  unfold _run_subprocess, bind, emit, outcome, events.
  rewrite (popen_started cmd p n Hstart).
  destruct (read_output W w (output p) n) as [[[[|]|e0] n1] ev1] eqn:E;
    cbn [fst snd]; [discriminate| |].
  - intros _.
    destruct (returncode p =? 0)%Z;
      [|unfold is_cancelled; destruct (flag W w n1)];
      cbn [fst snd ret raise]; rewrite !in_app_iff; cbn [In]; auto 10.
  - destruct (first_seen n (List.length (output p)))
      as [Hnone|(k & Hk & Hf & Hfirst)].
    + rewrite (read_output_all _ _ Hnone) in E. discriminate.
    + rewrite (read_output_stopped _ _ _ Hk Hf Hfirst) in E. discriminate.
Qed.

(** C5.  [_run_subprocess] raises in two cases only.  When the program
    cannot be started, the exception of [Popen] passes through, after
    the line of the command and before anything is read or waited for.
    When the process was started, the call raises exactly when the
    process ends with a code other than zero and the cancellation flag
    is not set, and the error is the [RuntimeError] whose text carries
    that code: this is the one failure after the wait for the end of
    the process.  When a read of the flag between two lines of output
    is the first to see it set, the process is sent a terminate signal,
    no further line is read, and the call returns without raising. *)
Theorem run_subprocess_outcome (cmd : list string) (p : process) (n : nat) :
  let run := _run_subprocess W w cmd p n in
  let cmd_line := Log ("[CMD] " ++ PyStr.join " " cmd) in
  (forall e, outcome run = Raise e <->
             start_error p = Some e \/
             (start_error p = None /\
              e = RuntimeError ("A subprocess failed with exit code "
                                ++ PyStr.of_Z (returncode p) ++ ".") /\
              returncode p <> 0%Z /\
              flag W w (n + List.length (output p)) = false)) /\
  (forall e, outcome run = Raise e /\ In Wait (events run) <->
             start_error p = None /\
             e = RuntimeError ("A subprocess failed with exit code "
                               ++ PyStr.of_Z (returncode p) ++ ".") /\
             returncode p <> 0%Z /\
             flag W w (n + List.length (output p)) = false) /\
  (forall e, start_error p = Some e -> run = (Raise e, n, [cmd_line])) /\
  (start_error p = None ->
   forall k, k < List.length (output p) ->
             flag W w (n + k) = true ->
             (forall j, j < k -> flag W w (n + j) = false) ->
             outcome run = Ok tt /\
             events run
             = [cmd_line; Spawn cmd]
               ++ map (fun l => Log (PyStr.strip l)) (firstn k (output p))
               ++ [Terminate; Log "[INFO] Process terminated by user."]).
Proof.
  intros run cmd_line. subst run cmd_line.
  assert (Hwait : forall e,
             start_error p = None ->
             outcome (_run_subprocess W w cmd p n) = Raise e ->
             In Wait (events (_run_subprocess W w cmd p n)))
    by (intros e; apply run_subprocess_waited).
  enough (Hmain :
    (forall e, outcome (_run_subprocess W w cmd p n) = Raise e <->
               start_error p = Some e \/
               (start_error p = None /\
                e = RuntimeError ("A subprocess failed with exit code "
                                  ++ PyStr.of_Z (returncode p) ++ ".")%string /\
                returncode p <> 0%Z /\
                flag W w (n + List.length (output p)) = false)) /\
    (forall e, start_error p = Some e ->
               _run_subprocess W w cmd p n
               = (Raise e, n, [Log ("[CMD] " ++ PyStr.join " " cmd)%string])) /\
    (start_error p = None ->
     forall k, k < List.length (output p) ->
               flag W w (n + k) = true ->
               (forall j, j < k -> flag W w (n + j) = false) ->
               outcome (_run_subprocess W w cmd p n) = Ok tt /\
               events (_run_subprocess W w cmd p n)
               = [Log ("[CMD] " ++ PyStr.join " " cmd)%string; Spawn cmd]
                 ++ map (fun l => Log (PyStr.strip l)) (firstn k (output p))
                 ++ [Terminate; Log "[INFO] Process terminated by user."])).
  { destruct Hmain as (H1 & H2 & H3).
    split; [exact H1|]. split; [|split; [exact H2|exact H3]].
    intros e. split.
    - intros [Hr Hw]. apply H1 in Hr as [Hs|Hr]; [|exact Hr].
      rewrite (H2 e Hs) in Hw. unfold events in Hw. cbn [snd In] in Hw.
      destruct Hw as [Hw|[]]. discriminate.
    - intros (Hs & He & Hrc & Hf).
      assert (Hr : outcome (_run_subprocess W w cmd p n) = Raise e)
        by (apply H1; right; auto).
      split; [exact Hr|]. now apply (Hwait e). }
  destruct (start_error p) as [e0|] eqn:Hstart;
    unfold _run_subprocess, bind, emit, outcome, events;
    [rewrite (popen_failed cmd p e0 n Hstart)
    |rewrite (popen_started cmd p n Hstart)].
  - cbn [fst snd app].
    split; [|split].
    + intros e. split.
      * intros H. injection H as <-. now left.
      * intros [H|(H & _)]; [now injection H as <-|discriminate].
    + intros e H. now injection H as <-.
    + discriminate.
  - cbn [fst snd app].
    destruct (first_seen n (List.length (output p)))
      as [Hnone|(k & Hk & Hf & Hfirst)].
    + rewrite (read_output_all _ _ Hnone).
      split; [|split].
      * intros e. unfold ret, raise, is_cancelled.
        destruct (Z.eqb_spec (returncode p) 0) as [Hz|Hz]; cbn [fst snd].
        -- split; [discriminate|].
           intros [H|(_ & _ & Hrc & _)]; [discriminate|contradiction].
        -- destruct (flag W w (n + List.length (output p))) eqn:E; cbn [fst snd].
           ++ split; [discriminate|].
              intros [H|(_ & _ & _ & H)]; discriminate.
           ++ split.
              ** intros H. injection H as <-. right. auto.
              ** intros [H|(_ & -> & _ & _)]; [discriminate|reflexivity].
      * discriminate.
      * intros _ k Hk Hf _. rewrite (Hnone k Hk) in Hf. discriminate.
    + rewrite (read_output_stopped _ _ _ Hk Hf Hfirst). cbn [fst snd].
      split; [|split].
      * intros e. split; [discriminate|].
        intros [H|(_ & _ & _ & Hend)]; [discriminate|].
        rewrite (flag_latch (n + k) _ Hf) in Hend by lia. discriminate.
      * discriminate.
      * intros _ k' Hk' Hf' Hfirst'.
        assert (k' = k).
        { destruct (Nat.lt_trichotomy k' k) as [Hlt|[Heq|Hgt]]; [|assumption|].
          - rewrite (Hfirst k' Hlt) in Hf'. discriminate.
          - rewrite (Hfirst' k Hgt) in Hf. discriminate. }
        subst k'. split; [reflexivity|]. unfold ret. simpl.
        now rewrite app_nil_r.
Qed.

End ExecutorFacts.

(** ** Sample caption files *)

Section SrtSamples.
Import Srt.

Lemma translate_srt_file_blocks_witness :
  fst (fst (translate_srt_file flaky (Ok (caption_file true two_blocks)) None 0))
  = Ok [line "1"; line "00:00:01,000 --> 00:00:02,500";
        line "<Good morning, everyone.>"; PyStr.newline;
        line "2"; line "00:00:03,000 --> 00:00:04,000";
        line "Let us begin."; PyStr.newline].
Proof.
  apply (proj1 (translate_srt_file_blocks nat flaky true two_blocks 0
                  ltac:(repeat constructor))).
Defined.

(** C2, as the specification states it, fails.  A text line that is
    indented is not kept verbatim when its translation fails: the line
    written has lost the indentation.  And a text line that is a bare
    number is taken for an index line: it is written as it is and never
    translated, also when the service works; such a line is no text line
    of a well-formed block. *)
Lemma fallback_not_verbatim :
  Forall well_formed indented_block /\
  fst (fst (translate_srt_file down (Ok (caption_file true indented_block)) None tt))
  = Ok [line "1"; line "00:00:01,000 --> 00:00:02,500";
        line "- Good morning."; PyStr.newline] /\
  fst (fst (translate_srt_file down (Ok (caption_file true indented_block)) None tt))
  <> Ok (caption_file true (fst (translate_blocks down verbatim indented_block tt))) /\
  translate_srt_file flaky (Ok (caption_file true numeric_block)) None 0
  = (Ok [line "1"; line "00:00:01,000 --> 00:00:02,500"; line "1984"; PyStr.newline],
     0, []) /\
  caption_file true (fst (translate_blocks flaky verbatim numeric_block 0))
  = [line "1"; line "00:00:01,000 --> 00:00:02,500"; line "<1984>"; PyStr.newline].
Proof.
  split; [repeat constructor|]. split; [reflexivity|].
  split; [vm_compute; discriminate|]. split; reflexivity.
Qed.

Lemma translator_sees_text_only_witness :
  nth_error
    (translated_lines (translate_lines flaky (caption_file true two_blocks) 0))
    4 = Some (line "2").
Proof.
  exact (proj1 (proj2 (translator_sees_text_only nat flaky
                         (caption_file true two_blocks) 0)
                      [line "1"; line "00:00:01,000 --> 00:00:02,500";
                       line "Good morning,"; line "everyone."; PyStr.newline]
                      (line "2")
                      [line "00:00:03,000 --> 00:00:04,000";
                       line "Let us begin."; PyStr.newline]
                      eq_refl (or_introl eq_refl))).
Defined.

End SrtSamples.

(** ** Terminal results of a run *)

Section RunFacts.
Import Pipeline.
Local Open Scope list_scope.

Variable W : Type.
Variable w : world W.
Variable o : options.

Lemma results_app (a b : list event) : results (a ++ b) = results a ++ results b.
Proof. apply filter_app. Qed.

Lemma quiet_ret (A : Type) (a : A) : quiet (ret a).
Proof. intros n. reflexivity. Qed.

Lemma quiet_raise (A : Type) (e : exn) : quiet (@raise A e).
Proof. intros n. reflexivity. Qed.

Lemma quiet_lift (A : Type) (r : res A) : quiet (lift r).
Proof. intros n. reflexivity. Qed.

Lemma quiet_emit (e : event) : is_finished e = false -> quiet (emit e).
Proof. intros H n. unfold emit, events, results. simpl. now rewrite H. Qed.

Lemma quiet_emit_all (es : list event) : results es = [] -> quiet (emit_all es).
Proof. intros H n. exact H. Qed.

Lemma quiet_is_cancelled : quiet (is_cancelled W w).
Proof. intros n. reflexivity. Qed.

Lemma quiet_bind (A B : Type) (m : M A) (f : A -> M B) :
  quiet m ->
  (forall n a, outcome (m n) = Ok a -> quiet (f a)) ->
  quiet (bind m f).
Proof.
  intros Hm Hf n. unfold bind.
  specialize (Hm n). specialize (Hf n).
  destruct (m n) as [[[a|e] n1] ev1]; unfold events in *; cbn [snd] in *;
    [|assumption].
  specialize (Hf a eq_refl n1).
  destruct (f a n1) as [[r n2] ev2]. unfold events in Hf. cbn [snd] in *.
  now rewrite results_app, Hm, Hf.
Qed.

(** Goes through the binds of a computation; [stage] closes the goals
    that are about a stage already known to be quiet. *)
Ltac quiet_by stage :=
  repeat first
    [ solve [stage]
    | assumption
    | apply quiet_ret | apply quiet_raise | apply quiet_lift
    | apply quiet_is_cancelled
    | apply quiet_emit; reflexivity
    | apply quiet_bind; [|intros ? ? ?]
    | match goal with |- quiet (if ?c then _ else _) => destruct c end
    | match goal with |- quiet (match ?c with Some _ => _ | None => _ end) =>
        destruct c end ].

Lemma quiet_read_output (lines : list string) : quiet (read_output W w lines).
Proof. induction lines as [|l lines IH]; cbn [read_output]; quiet_by fail. Qed.

Lemma quiet_popen (cmd : list string) (p : process) : quiet (popen cmd p).
Proof.
  unfold popen.
  destruct (start_error p); [apply quiet_raise|now apply quiet_emit].
Qed.

Lemma quiet_run_subprocess (cmd : list string) (p : process) :
  quiet (_run_subprocess W w cmd p).
Proof.
  unfold _run_subprocess.
  quiet_by ltac:(first [apply quiet_read_output | apply quiet_popen]).
Qed.

(** The interpreters emit progress only. *)
Lemma progress_hook_events (c : bool) (d : Interp.payload) (evs : list event) :
  Interp.progress_hook c d = Ok evs -> results evs = [].
Proof.
  unfold Interp.progress_hook. intros H.
  destruct c; [discriminate|].
  destruct (String.eqb (Interp.status d) "downloading").
  - destruct (PyFloat.of_string _) as [x|]; [|discriminate].
    destruct (PyFloat.to_int x) as [p|[]]; try discriminate.
    now injection H as <-.
  - destruct (String.eqb (Interp.status d) "finished"); now injection H as <-.
Qed.

Lemma encode_progress_events (l : string) (total : PyFloat.float)
      (evs : list event) :
  Interp.encode_progress l total = Ok evs -> results evs = [].
Proof.
  unfold Interp.encode_progress. intros H.
  destruct (PyStr.contains "time=" l); [|now injection H as <-].
  destruct (Re.re_search Interp.time_pattern l) as [mt|]; [|now injection H as <-].
  destruct (PyFloat.gt0 total); [|now injection H as <-].
  destruct (Interp.time_groups mt) as [[[h m] s] ms].
  destruct (Interp.encoded_percent h m s ms total); [|discriminate].
  now injection H as <-.
Qed.

Lemma quiet_run_hooks (ds : list Interp.payload) : quiet (run_hooks W w ds).
Proof.
  induction ds as [|d ds IH]; cbn [run_hooks]; quiet_by fail.
  apply quiet_emit_all. unfold lift, outcome in *. cbn [fst] in *.
  eapply progress_hook_events; eassumption.
Qed.

Lemma quiet_ydl_download (format outtmpl : string) :
  quiet (ydl_download W w format outtmpl).
Proof. unfold ydl_download. quiet_by ltac:(apply quiet_run_hooks). Qed.

Lemma quiet_read_encoder (total : PyFloat.float) (lines : list string) :
  quiet (read_encoder W w total lines).
Proof.
  induction lines as [|l lines IH]; cbn [read_encoder]; quiet_by fail.
  apply quiet_emit_all. unfold lift, outcome in *. cbn [fst] in *.
  eapply encode_progress_events; eassumption.
Qed.

Lemma quiet_encoding (total : PyFloat.float) : quiet (encoding W w total).
Proof. unfold encoding. quiet_by ltac:(apply quiet_read_encoder). Qed.

Lemma quiet_encode (v s out : string) (bitrate : option string) :
  quiet (encode W w v s out bitrate).
Proof.
  unfold encode.
  quiet_by ltac:(first [apply quiet_encoding | apply quiet_popen]).
Qed.

Lemma quiet_synthesize (v s out : string) : quiet (_synthesize_video W w v s out).
Proof. unfold _synthesize_video. quiet_by ltac:(apply quiet_encode). Qed.

(** The translation logs and calls the service, nothing else. *)
Lemma srt_step_quiet (st : Srt.loop_state W) (l : string) :
  results (Srt.trace st) = [] ->
  results (Srt.trace (Srt.step (translate_text_deepseek W w) st l)) = [].
Proof.
  intros H. unfold Srt.step, Srt.append_line, Srt.clear_buffer, Srt.translate_buffer.
  destruct (Srt.is_index_line l); [exact H|].
  destruct (Srt.is_timing_line l); [exact H|].
  destruct (Srt.is_blank_line l); [|exact H].
  destruct (Srt.text_buffer st); [exact H|].
  destruct (translate_text_deepseek W w _ _) as [[t|e] w'];
    cbn [Srt.trace]; rewrite ?results_app, H; reflexivity.
Qed.

Lemma srt_trace_quiet (lines : list string) (w0 : W) :
  results (Srt.trace (Srt.translate_lines (translate_text_deepseek W w) lines w0)) = [].
Proof.
  unfold Srt.translate_lines, Srt.run_loop.
  assert (H : forall st, results (Srt.trace st) = [] ->
            results (Srt.trace (fold_left (Srt.step (translate_text_deepseek W w))
                                          lines st)) = []).
  { induction lines as [|l lines IH]; intros st Hst; [exact Hst|].
    simpl. apply IH, srt_step_quiet, Hst. }
  specialize (H (Srt.init w0) eq_refl).
  unfold Srt.flush, Srt.translate_buffer.
  destruct (Srt.text_buffer _); [exact H|].
  destruct (translate_text_deepseek W w _ _) as [[t|e] w'];
    cbn [Srt.trace]; rewrite ?results_app, H; reflexivity.
Qed.

Lemma quiet_translate (s1 s2 : string) : quiet (_translate_subtitles W w o s1 s2).
Proof.
  unfold _translate_subtitles. quiet_by fail.
  destruct (Srt.translate_srt_file _ _ _ _) as [[r w'] evs] eqn:E.
  quiet_by fail. apply quiet_emit_all.
  unfold Srt.translate_srt_file in E.
  destruct (srt_lines W w) as [lines|e]; [|now injection E as _ _ <-].
  destruct (srt_write_error W w); injection E as _ _ <-; apply srt_trace_quiet.
Qed.

Lemma quiet_download_video (path : string) : quiet (_download_video W w o path).
Proof. unfold _download_video. quiet_by ltac:(apply quiet_ydl_download). Qed.

Lemma quiet_extract (v s : string) : quiet (_extract_subtitles W w o v s).
Proof. unfold _extract_subtitles. quiet_by ltac:(apply quiet_run_subprocess). Qed.

(** *** Computations that end in a terminal result *)

Section Ending.

(** What holds of the events when the computation returns must survive
    events without a result put before. *)
Variable P : list event -> Prop.
Hypothesis P_after : forall pre ev, results pre = [] -> P ev -> P (pre ++ ev).
Lemma ends_bind (A B : Type) (m : M A) (f : A -> M B) :
  quiet m ->
  (forall n a, outcome (m n) = Ok a -> ends P (f a)) ->
  ends P (bind m f).
Proof.
  intros Hm Hf n. unfold bind.
  specialize (Hm n). specialize (Hf n).
  destruct (m n) as [[[a|e] n1] ev1]; unfold events in *; cbn [snd] in *;
    [|assumption].
  specialize (Hf a eq_refl n1).
  destruct (f a n1) as [[[b|e] n2] ev2].
  - now apply P_after.
  - now rewrite results_app, Hm, Hf.
Qed.

End Ending.

Lemma at_most_one_after (pre ev : list event) :
  results pre = [] -> at_most_one ev -> at_most_one (pre ++ ev).
Proof.
  intros Hpre [H|(p & msg & path & -> & Hp)].
  - left. now rewrite results_app, Hpre, H.
  - right. exists (pre ++ p), msg, path. rewrite app_assoc. split; [reflexivity|].
    now rewrite results_app, Hpre, Hp.
Qed.

Lemma one_success_after (pre ev : list event) :
  results pre = [] -> one_success ev -> one_success (pre ++ ev).
Proof.
  intros Hpre (p & msg & path & -> & Hp).
  exists (pre ++ p), msg, path. rewrite app_assoc. split; [reflexivity|].
  now rewrite results_app, Hpre, Hp.
Qed.

Lemma ends_success (P : list event -> Prop) (msg path : string) :
  P [Finished true msg path] -> ends P (emit (Finished true msg path)).
Proof. intros H n. exact H. Qed.

Lemma one_success_emit (msg path : string) : one_success [Finished true msg path].
Proof. now exists [], msg, path. Qed.

Lemma at_most_one_emit (msg path : string) : at_most_one [Finished true msg path].
Proof. right. apply one_success_emit. Qed.

Lemma download_audio_at_most_one (title : string) :
  ends at_most_one (_download_audio W w o title).
Proof.
  unfold _download_audio.
  repeat (apply (ends_bind _ at_most_one_after);
          [first [apply quiet_emit; reflexivity | apply quiet_ydl_download
                 | apply quiet_is_cancelled] | intros ? ? ?]).
  match goal with |- ends _ (if negb ?c then _ else _) => destruct c end;
    cbn [negb].
  - intros n'. now left.
  - apply ends_success, at_most_one_emit.
Qed.

Lemma process_video_at_most_one (title : string) :
  ends at_most_one (_process_video W w o title).
Proof.
  unfold _process_video.
  repeat (first
    [ apply (ends_bind _ at_most_one_after);
      [first [apply quiet_download_video | apply quiet_extract
             | apply quiet_translate | apply quiet_synthesize
             | apply quiet_is_cancelled] | intros ? ? ?]
    | match goal with |- ends _ (if ?c then _ else _) =>
        destruct c; [intros ?; now left|] end ]).
  apply ends_success, at_most_one_emit.
Qed.

Lemma run_body_at_most_one : ends at_most_one (run_body W w o).
Proof.
  unfold run_body.
  repeat (apply (ends_bind _ at_most_one_after);
          [first [apply quiet_emit; reflexivity | apply quiet_lift
                 | apply quiet_is_cancelled] | intros ? ? ?]).
  match goal with |- ends _ (if ?c then _ else _) =>
    destruct c; [intros ?; now left|] end.
  destruct (String.eqb (type o) "Audio");
    [apply download_audio_at_most_one|apply process_video_at_most_one].
Qed.

(** *** A run that is never cancelled *)

Section NeverCancelled.

Hypothesis never : cancel_at W w = None.

Lemma flag_never (n : nat) : flag W w n = false.
Proof. unfold flag. now rewrite never. Qed.

Lemma read_never (n : nat) (c : bool) :
  outcome (is_cancelled W w n) = Ok c -> c = false.
Proof.
  unfold is_cancelled, outcome. cbn [fst]. rewrite flag_never. congruence.
Qed.

Lemma download_audio_one_success (title : string) :
  ends one_success (_download_audio W w o title).
Proof.
  unfold _download_audio.
  repeat (apply (ends_bind _ one_success_after);
          [first [apply quiet_emit; reflexivity | apply quiet_ydl_download
                 | apply quiet_is_cancelled] | intros ? ? ?]).
  match goal with H : outcome (is_cancelled _ _ _) = _ |- _ =>
    apply read_never in H; subst end.
  apply ends_success, one_success_emit.
Qed.

Lemma process_video_one_success (title : string) :
  ends one_success (_process_video W w o title).
Proof.
  unfold _process_video.
  repeat (first
    [ apply (ends_bind _ one_success_after);
      [first [apply quiet_download_video | apply quiet_extract
             | apply quiet_translate | apply quiet_synthesize
             | apply quiet_is_cancelled] | intros ? ? ?]
    | match goal with H : outcome (is_cancelled _ _ _) = _ |- _ =>
        apply read_never in H; subst; cbv iota end ]).
  apply ends_success, one_success_emit.
Qed.

Lemma run_body_one_success : ends one_success (run_body W w o).
Proof.
  unfold run_body.
  repeat (apply (ends_bind _ one_success_after);
          [first [apply quiet_emit; reflexivity | apply quiet_lift
                 | apply quiet_is_cancelled] | intros ? ? ?]).
  match goal with H : outcome (is_cancelled _ _ _) = _ |- _ =>
    apply read_never in H; subst; cbv iota end.
  destruct (String.eqb (type o) "Audio");
    [apply download_audio_one_success|apply process_video_one_success].
Qed.

End NeverCancelled.

(** [run], from what its body gives. *)
Lemma run_unfold (n : nat) :
  run W w o n =
  match run_body W w o n with
  | (Ok a, n1, ev) => (Ok a, n1, ev)
  | (Raise e, n1, ev) => (Ok tt, n1, ev ++ failure_events e)
  end.
Proof.
  unfold run, try_except. now destruct (run_body W w o n) as [[[a|e] n1] ev].
Qed.

(** C1, as the code has it.  A run emits at most one terminal result,
    and one it emits is its last event; it reports a success or a
    failure, there is no third kind.  A run during which cancellation is
    never requested emits exactly one.  A run that sees the cancellation
    flag set at its first check, after the metadata was fetched, ends
    without any terminal result. *)
Theorem run_results :
  let tr := run_trace W w o in
  (results tr = [] \/
   exists pre success msg path,
     tr = pre ++ [Finished success msg path] /\ results pre = []) /\
  (cancel_at W w = None ->
   exists success msg path, results tr = [Finished success msg path]) /\
  (cancel_at W w = Some 0 ->
   forall title, info W w = Ok title -> results tr = []).
Proof.
  intros tr. subst tr. unfold run_trace. rewrite run_unfold.
  split; [|split].
  - pose proof (run_body_at_most_one 0) as H.
    destruct (run_body W w o 0) as [[[a|e] n1] ev]; cbn [snd].
    + destruct H as [H|(pre & msg & path & -> & H)]; [now left|].
      right. now exists pre, true, msg, path.
    + right. exists (ev ++ [Log ("[ERROR] A critical error occurred: " ++ exn_str e)]),
               false, (exn_str e), EmptyString.
      unfold failure_events. rewrite <- app_assoc. split; [reflexivity|].
      now rewrite results_app, H.
  - intros never. pose proof (run_body_one_success never 0) as H.
    destruct (run_body W w o 0) as [[[a|e] n1] ev]; cbn [snd].
    + destruct H as (pre & msg & path & -> & H).
      exists true, msg, path. now rewrite results_app, H.
    + exists false, (exn_str e), EmptyString.
      now rewrite results_app, H.
  - intros Hc title Hinfo.
    unfold run_body, bind, emit, lift, is_cancelled, flag, ret.
    now rewrite Hinfo, Hc.
Qed.

End RunFacts.

(** ** Encoding without a bit rate *)

Section EncoderFacts.
Import Pipeline.
Local Open Scope list_scope.

Variable W : Type.
Variable w : world W.

Lemma get_video_bitrate_failed :
  stream_bitrate W w = ProbeFailed -> format_bitrate W w = ProbeFailed ->
  get_video_bitrate W w = Ok None.
Proof. intros H1 H2. unfold get_video_bitrate. now rewrite H1, H2. Qed.

(** [encode], by what the probe of the duration and the start of the
    encoder give. *)
Lemma encode_unfold (v s out : string) (bitrate : option string) (n : nat) :
  encode W w v s out bitrate n =
  match get_video_duration W w with
  | Raise e => (Raise e, n, announced w v s out bitrate)
  | Ok total =>
      match start_error (ffmpeg W w) with
      | Some e => (Raise e, n, announced w v s out bitrate)
      | None =>
          match encoding W w total n with
          | (r, n', ev) =>
              (r, n',
               announced w v s out bitrate
               ++ Spawn (ffmpeg_cmd W w v s out bitrate) :: ev)
          end
      end
  end.
Proof.
  unfold encode, announced, popen, bind, lift; unfold emit.
  destruct bitrate as [b|];
    (destruct (get_video_duration W w) as [total|e]; [|reflexivity];
     destruct (start_error (ffmpeg W w)) as [e|]; [reflexivity|];
     destruct (encoding W w total n) as [[r n'] ev]; reflexivity).
Qed.

Lemma spawn_free_read_encoder (total : PyFloat.float) (lines : list string) (n : nat) :
  Forall (fun e => is_spawn e = false) (events (read_encoder W w total lines n)).
Proof.
  revert n. induction lines as [|l lines IH]; intros n; cbn [read_encoder].
  - constructor.
  - unfold bind at 1, is_cancelled. destruct (flag W w n).
    + repeat constructor.
    + unfold bind at 1 2, emit at 1, lift.
      destruct (Interp.encode_progress l total) as [evs|e] eqn:E;
        [|repeat constructor].
      unfold bind, emit_all. specialize (IH (S n)).
      destruct (read_encoder W w total lines (S n)) as [[r n'] ev].
      unfold events in *. cbn [snd app] in *.
      constructor; [reflexivity|]. apply Forall_app. split; [|exact IH].
      unfold Interp.encode_progress in E.
      destruct (PyStr.contains "time=" l); [|injection E as <-; constructor].
      destruct (Re.re_search Interp.time_pattern l);
        [|injection E as <-; constructor].
      destruct (PyFloat.gt0 total); [|injection E as <-; constructor].
      destruct (Interp.time_groups s) as [[[h m] sec] ms].
      destruct (Interp.encoded_percent h m sec ms total); [|discriminate].
      injection E as <-. repeat constructor.
Qed.

Lemma spawn_free_encoding (total : PyFloat.float) (n : nat) :
  Forall (fun e => is_spawn e = false) (events (encoding W w total n)).
Proof.
  unfold Pipeline.encoding, bind at 1.
  pose proof (spawn_free_read_encoder total (output (ffmpeg W w)) n) as H.
  destruct (read_encoder _ _ _ _ n) as [[[stopped|e] n1] ev1];
    unfold events in *; cbn [snd] in *; [|exact H].
  destruct stopped; [unfold ret; cbn [snd]; now rewrite app_nil_r|].
  unfold bind, emit, is_cancelled, ret, raise.
  destruct (returncode (ffmpeg W w) =? 0)%Z; cbn [snd].
  - apply Forall_app. split; [exact H|repeat constructor].
  - destruct (flag W w n1); cbn [snd];
      (apply Forall_app; split; [exact H|repeat constructor]).
Qed.

(** The loop over the output of the encoder raises only what reading
    the progress off one of its lines raises. *)
Lemma read_encoder_raises (total : PyFloat.float) (lines : list string)
      (n : nat) (e : exn) :
  outcome (read_encoder W w total lines n) = Raise e ->
  exists l, In l lines /\ Interp.encode_progress l total = Raise e.
Proof.
  revert n. induction lines as [|l lines IH]; intros n; cbn [read_encoder].
  - discriminate.
  - unfold bind at 1, is_cancelled. destruct (flag W w n); [discriminate|].
    unfold bind at 1 2, emit at 1, lift.
    destruct (Interp.encode_progress l total) as [evs|e0] eqn:E.
    + unfold bind, emit_all. specialize (IH (S n)). unfold outcome in *.
      destruct (read_encoder W w total lines (S n)) as [[r n'] ev].
      cbn [fst] in *. intros H. destruct (IH H) as (l' & Hin & Hl').
      exists l'. split; [now right|exact Hl'].
    + unfold outcome. cbn [fst]. intros H. injection H as <-.
      exists l. split; [now left|exact E].
Qed.

(** What makes the encoder's part of the stage raise: a line of output
    whose progress cannot be computed, or an exit code other than
    zero. *)
Lemma encoding_raises (total : PyFloat.float) (n : nat) (e : exn) :
  outcome (encoding W w total n) = Raise e ->
  (exists l, In l (output (ffmpeg W w)) /\
             Interp.encode_progress l total = Raise e) \/
  (e = ffmpeg_failed /\ returncode (ffmpeg W w) <> 0%Z).
Proof.
  unfold Pipeline.encoding, bind at 1.
  pose proof (read_encoder_raises total (output (ffmpeg W w)) n) as H.
  unfold outcome in *.
  destruct (read_encoder _ _ _ _ n) as [[[stopped|e0] n1] ev1]; cbn [fst] in *.
  - destruct stopped; [discriminate|].
    unfold bind, emit, is_cancelled, ret, raise.
    destruct (Z.eqb_spec (returncode (ffmpeg W w)) 0) as [Hz|Hz];
      [discriminate|].
    destruct (flag W w n1); cbn [fst]; [discriminate|].
    intros E. injection E as <-. right. auto.
  - intros E. injection E as <-. left. now apply H.
Qed.

Lemma synthesize_unfold (v s out : string) (n : nat) :
  get_video_bitrate W w = Ok None ->
  _synthesize_video W w v s out n =
  match encode W w v s out None n with
  | (r, n', ev) =>
      (r, n', StageChanged "Step 4/4: Encoding Final Video (FFmpeg)" :: ev)
  end.
Proof.
  intros Hnone. unfold _synthesize_video, bind, emit, lift. rewrite Hnone.
  now destruct (encode W w v s out None n) as [[[a|e] n'] ev].
Qed.

(** C9.  When the probe of the bit rate gives no value, the stage logs
    the warning and the command with the constant quality arguments
    ([-crf 23], and no [-b:v]), and only then probes the duration and
    starts the encoder, with that command; it starts it once.  The
    stage does not abort for the missing bit rate: whether it returns
    or raises, and how often it reads the cancellation flag, is what it
    would be with any bit rate, and what it raises is the exception of
    the probe of the duration, the one of starting the encoder, the one
    of computing the progress of a line of output, or the error of an
    exit code other than zero. *)
Theorem synthesize_without_bitrate (v s out : string) (n : nat) :
  get_video_bitrate W w = Ok None ->
  let stage := _synthesize_video W w v s out n in
  let cmd := ["ffmpeg"; "-i"; v; "-vf"; subtitles_filter W w s;
              "-c:v"; "libx264"; "-preset"; "medium"; "-crf"; "23";
              "-c:a"; "copy"; "-y"; out] in
  let head := [StageChanged "Step 4/4: Encoding Final Video (FFmpeg)";
               Log "[WARN] Could not detect bitrate. Using CRF=23 for encoding.";
               Log ("[CMD] " ++ PyStr.join " " cmd)%string] in
  (forall total,
      get_video_duration W w = Ok total ->
      start_error (ffmpeg W w) = None ->
      events stage = head ++ Spawn cmd :: events (encoding W w total n) /\
      Forall (fun e => is_spawn e = false) (events (encoding W w total n)) /\
      outcome stage = outcome (encoding W w total n)) /\
  (forall e, get_video_duration W w = Raise e -> stage = (Raise e, n, head)) /\
  (forall total e,
      get_video_duration W w = Ok total ->
      start_error (ffmpeg W w) = Some e -> stage = (Raise e, n, head)) /\
  (forall b, outcome stage = outcome (encode W w v s out (Some b) n) /\
             reads stage = reads (encode W w v s out (Some b) n)) /\
  (forall e, outcome stage = Raise e ->
             get_video_duration W w = Raise e \/
             start_error (ffmpeg W w) = Some e \/
             (exists l total,
                 In l (output (ffmpeg W w)) /\
                 get_video_duration W w = Ok total /\
                 Interp.encode_progress l total = Raise e) \/
             (e = RuntimeError "FFmpeg failed to synthesize the video." /\
              returncode (ffmpeg W w) <> 0%Z)).
Proof.
  intros Hnone stage cmd head. subst stage.
  rewrite (synthesize_unfold v s out n Hnone).
  split; [|split; [|split; [|split]]].
  - intros total Hd Hstart. rewrite encode_unfold, Hd, Hstart.
    pose proof (spawn_free_encoding total n) as Hfree.
    destruct (encoding W w total n) as [[r n'] ev].
    split; [reflexivity|]. split; [exact Hfree|reflexivity].
  - intros e Hd. now rewrite encode_unfold, Hd.
  - intros total e Hd Hstart. now rewrite encode_unfold, Hd, Hstart.
  - intros b. rewrite !encode_unfold.
    destruct (get_video_duration W w) as [total|e]; [|split; reflexivity].
    destruct (start_error (ffmpeg W w)); [split; reflexivity|].
    now destruct (encoding W w total n) as [[r n'] ev].
  - intros e. rewrite encode_unfold.
    destruct (get_video_duration W w) as [total|e0].
    + destruct (start_error (ffmpeg W w)) as [e0|].
      * unfold outcome. cbn [fst]. intros H. injection H as <-. auto.
      * pose proof (encoding_raises total n e) as H.
        destruct (encoding W w total n) as [[r n'] ev].
        unfold outcome in *. cbn [fst] in *. intros E.
        destruct (H E) as [(l & Hin & Hl)|Hrc].
        -- right. right. left. now exists l, total.
        -- right. right. right. exact Hrc.
    + unfold outcome. cbn [fst]. intros H. injection H as <-. now left.
Qed.

End EncoderFacts.

(** ** File names from the title *)

Section PathFacts.
Import Pipeline.

Lemma re_match_class (p : ascii -> bool) (c : ascii) (s : string) :
  Re.re_match (Re.Cls p) (String c s)
  = if p c then Some (String c EmptyString) else None.
Proof.
  unfold Re.re_match, Re.match_rest. cbn [Re.exec].
  destruct (p c); [|reflexivity].
  cbn [length]. replace (S (length s) - length s) with 1 by lia.
  reflexivity.
Qed.

(** Deleting the matches of a class removes its characters. *)
Lemma re_delete_class (p : ascii -> bool) (s : string) :
  Re.re_delete (Re.Cls p) s = remove p s.
Proof.
  unfold Re.re_delete. induction s as [|c s IH]; [reflexivity|].
  cbn [Re.delete_from remove]. rewrite re_match_class.
  destruct (p c); cbn [length]; now rewrite IH.
Qed.

Lemma remove_all (p : ascii -> bool) (s : string) :
  PyStr.all (fun c => negb (p c)) (remove p s) = true.
Proof.
  induction s as [|c s IH]; [reflexivity|]. simpl.
  destruct (p c) eqn:E; [exact IH|]. simpl. now rewrite E.
Qed.

(** The video branch: no path-hostile character is left in the name
    the four paths are built from. *)
Lemma base_name_sanitized (title : string) :
  PyStr.all (fun c => negb (path_hostile c)) (base_name title) = true.
Proof. unfold base_name, sanitize. rewrite re_delete_class. apply remove_all. Qed.

(** The audio branch puts the title into the path as it is. *)
Lemma audio_path_raw (o : options) (title : string) :
  exists dir, audio_final_path o title = dir ++ title ++ ".mp3".
Proof.
  unfold audio_final_path, path_join.
  destruct (prefix "/" (title ++ ".mp3")); [now exists EmptyString|].
  destruct (PyStr.is_empty (output_dir o)); [now exists EmptyString|].
  destruct (String.eqb _ "/").
  - now exists (output_dir o).
  - exists (output_dir o ++ "/"). now rewrite append_assoc.
Qed.

End PathFacts.

(** ** Sample runs *)

Section SampleRuns.
Import Pipeline.

(** C1, as the specification states it, fails.  A run cancelled before
    its first check ends with no terminal result at all; a run cancelled
    while the audio is downloaded ends with a failure. *)
Lemma cancelled_run_results :
  results (run_trace nat (sample_world (Some 0)) (sample_options "Video")) = [] /\
  List.length (results (run_trace nat (sample_world (Some 0))
                                  (sample_options "Video"))) <> 1 /\
  results (run_trace nat (sample_world (Some 1)) (sample_options "Audio"))
  = [Finished false "The download was cancelled" EmptyString].
Proof. split; [|split]; vm_compute; [reflexivity|discriminate|reflexivity]. Qed.

Lemma run_results_witness :
  (exists success msg path,
      results (run_trace nat (sample_world None) (sample_options "Video"))
      = [Finished success msg path]) /\
  results (run_trace nat (sample_world (Some 0)) (sample_options "Audio")) = [].
Proof.
  split.
  - apply (proj1 (proj2 (run_results nat (sample_world None)
                                     (sample_options "Video")))).
    reflexivity.
  - apply (proj2 (proj2 (run_results nat (sample_world (Some 0))
                                     (sample_options "Audio")))
             eq_refl hostile_title).
    reflexivity.
Defined.

(** A tool that ends with the code 137 makes the call raise with that
    code in the text; a cancellation seen at the second line terminates
    the process after the first; a tool that is not installed makes the
    call raise the error of [Popen]. *)
Lemma run_subprocess_outcome_witness :
  outcome (_run_subprocess nat (sample_world None) ["whisper"] failing_tool 0)
  = Raise (RuntimeError "A subprocess failed with exit code 137.") /\
  (outcome (_run_subprocess nat (sample_world (Some 1)) ["whisper"] failing_tool 0)
   = Ok tt /\
   events (_run_subprocess nat (sample_world (Some 1)) ["whisper"] failing_tool 0)
   = [Log "[CMD] whisper"; Spawn ["whisper"]; Log "loading";
      Terminate; Log "[INFO] Process terminated by user."]) /\
  _run_subprocess nat (sample_world None) ["whisper"] missing_tool 0
  = (Raise (OtherError "[Errno 2] No such file or directory: 'whisper'"), 0,
     [Log "[CMD] whisper"]).
Proof.
  split; [|split].
  - apply (proj1 (run_subprocess_outcome nat (sample_world None)
                    ["whisper"] failing_tool 0)).
    right. repeat split. discriminate.
  - apply (proj2 (proj2 (proj2 (run_subprocess_outcome nat
                                  (sample_world (Some 1))
                                  ["whisper"] failing_tool 0))) eq_refl 1).
    + simpl. lia.
    + reflexivity.
    + intros j Hj. assert (j = 0) as -> by lia. reflexivity.
  - apply (proj1 (proj2 (proj2 (run_subprocess_outcome nat (sample_world None)
                                  ["whisper"] missing_tool 0)))).
    reflexivity.
Defined.

(** In the sample world, where no bit rate can be probed, the stage
    logs the warning and the command, starts the encoder with [-crf 23]
    and follows its output to the end; where the answer of the probe of
    the duration names no duration, it raises the [KeyError] after the
    line of the command, and starts nothing. *)
Lemma synthesize_without_bitrate_witness :
  _synthesize_video nat (sample_world None) "in.mp4" "in_zh.srt" "out.mp4" 0
  = (Ok tt, 1,
     [StageChanged "Step 4/4: Encoding Final Video (FFmpeg)";
      Log "[WARN] Could not detect bitrate. Using CRF=23 for encoding.";
      Log "[CMD] ffmpeg -i in.mp4 -vf subtitles='/home/user/in_zh.srt' -c:v libx264 -preset medium -crf 23 -c:a copy -y out.mp4";
      Spawn ["ffmpeg"; "-i"; "in.mp4"; "-vf";
             "subtitles='/home/user/in_zh.srt'";
             "-c:v"; "libx264"; "-preset"; "medium"; "-crf"; "23";
             "-c:a"; "copy"; "-y"; "out.mp4"];
      Log encoder_line_half;
      Progress 50 "50% encoded";
      Wait]) /\
  _synthesize_video nat undated_world "in.mp4" "in_zh.srt" "out.mp4" 0
  = (Raise (OtherError "'duration'"), 0,
     [StageChanged "Step 4/4: Encoding Final Video (FFmpeg)";
      Log "[WARN] Could not detect bitrate. Using CRF=23 for encoding.";
      Log "[CMD] ffmpeg -i in.mp4 -vf subtitles='/home/user/in_zh.srt' -c:v libx264 -preset medium -crf 23 -c:a copy -y out.mp4"]).
Proof.
  split.
  - pose proof (proj1 (synthesize_without_bitrate nat (sample_world None)
                         "in.mp4" "in_zh.srt" "out.mp4" 0 eq_refl)
                  (PyFloat.of_int 180) eq_refl eq_refl) as (Hev & _ & Hout).
    destruct (_synthesize_video nat (sample_world None) "in.mp4" "in_zh.srt"
                "out.mp4" 0) as [[r n'] ev] eqn:E.
    unfold events, outcome in *. cbn [fst snd] in *. subst r ev.
    assert (n' = 1) as ->
        by (apply (f_equal reads) in E; vm_compute in E; congruence).
    vm_compute. reflexivity.
  - apply (proj1 (proj2 (synthesize_without_bitrate nat undated_world
                           "in.mp4" "in_zh.srt" "out.mp4" 0 eq_refl))).
    reflexivity.
Defined.

(** C8.  In the audio branch the title goes into the path of the result
    as it was fetched, path-hostile characters included; the video branch
    removes them first. *)
Theorem audio_path_keeps_hostile_characters :
  results (run_trace nat (sample_world None) (sample_options "Audio"))
  = [Finished true "Audio download completed successfully!"
              "out/AC/DC: Live?.mp3"] /\
  audio_final_path (sample_options "Audio") hostile_title
  = "out/" ++ hostile_title ++ ".mp3" /\
  PyStr.all (fun c => negb (path_hostile c)) hostile_title = false /\
  base_name hostile_title = "ACDC Live" /\
  results (run_trace nat (sample_world None) (sample_options "Video"))
  = [Finished true "Video processing completed successfully!"
              "out/ACDC Live_translated.mp4"].
Proof. repeat split; vm_compute; reflexivity. Qed.

End SampleRuns.

(** ** Kinds of events a stage emits *)

Section KindFacts.
Import Pipeline.
Local Open Scope list_scope.

Variable W : Type.
Variable w : world W.
Variable o : options.
Variable allowed : event -> bool.

Lemma only_ret (A : Type) (a : A) : only allowed (ret a).
Proof. intros n. reflexivity. Qed.

Lemma only_raise (A : Type) (e : exn) : only allowed (@raise A e).
Proof. intros n. reflexivity. Qed.

Lemma only_lift (A : Type) (r : res A) : only allowed (lift r).
Proof. intros n. reflexivity. Qed.

Lemma only_is_cancelled : only allowed (is_cancelled W w).
Proof. intros n. reflexivity. Qed.

Lemma only_emit (e : event) : allowed e = true -> only allowed (emit e).
Proof. intros H n. unfold emit, events. simpl. now rewrite H. Qed.

Lemma only_emit_all (es : list event) :
  forallb allowed es = true -> only allowed (emit_all es).
Proof. intros H n. exact H. Qed.

Lemma only_popen (cmd : list string) (p : process) :
  allowed (Spawn cmd) = true -> only allowed (popen cmd p).
Proof.
  intros H. unfold popen. destruct (start_error p); [apply only_raise|].
  now apply only_emit.
Qed.

Lemma only_bind (A B : Type) (m : M A) (f : A -> M B) :
  only allowed m ->
  (forall n a, outcome (m n) = Ok a -> only allowed (f a)) ->
  only allowed (bind m f).
Proof.
  intros Hm Hf n. unfold bind.
  specialize (Hm n). specialize (Hf n).
  destruct (m n) as [[[a|e] n1] ev1]; unfold events in *; cbn [snd] in *;
    [|assumption].
  specialize (Hf a eq_refl n1).
  destruct (f a n1) as [[r n2] ev2]. unfold events in Hf. cbn [snd] in *.
  now rewrite forallb_app, Hm, Hf.
Qed.

End KindFacts.

(** Goes through the binds of a computation; [stage] closes the goals
    about a part whose events are known. *)
Ltac only_by stage :=
  repeat first
    [ solve [stage]
    | assumption
    | apply only_ret | apply only_raise | apply only_lift
    | apply only_is_cancelled
    | apply only_emit; reflexivity
    | apply only_popen; reflexivity
    | apply only_bind; [|intros ? ? ?]
    | match goal with |- only _ (if ?c then _ else _) => destruct c end
    | match goal with |- only _ (match ?c with Some _ => _ | None => _ end) =>
        destruct c end ].

Section StageKinds.
Import Pipeline.
Local Open Scope list_scope.

Variable W : Type.
Variable w : world W.
Variable o : options.

Lemma only_read_output (lines : list string) :
  only tool_event (read_output W w lines).
Proof. induction lines as [|l lines IH]; cbn [read_output]; only_by fail. Qed.

Lemma only_run_subprocess (cmd : list string) (p : process) :
  only tool_event (_run_subprocess W w cmd p).
Proof. unfold _run_subprocess. only_by ltac:(apply only_read_output). Qed.

Lemma progress_hook_progress (c : bool) (d : Interp.payload) (evs : list event) :
  Interp.progress_hook c d = Ok evs -> forallb is_progress evs = true.
Proof.
  unfold Interp.progress_hook. intros H.
  destruct c; [discriminate|].
  destruct (String.eqb (Interp.status d) "downloading").
  - destruct (PyFloat.of_string _) as [x|]; [|discriminate].
    destruct (PyFloat.to_int x) as [p|[]]; try discriminate.
    now injection H as <-.
  - destruct (String.eqb (Interp.status d) "finished"); now injection H as <-.
Qed.

Lemma encode_progress_progress (l : string) (total : PyFloat.float)
      (evs : list event) :
  Interp.encode_progress l total = Ok evs -> forallb is_progress evs = true.
Proof.
  unfold Interp.encode_progress. intros H.
  destruct (PyStr.contains "time=" l); [|now injection H as <-].
  destruct (Re.re_search Interp.time_pattern l) as [mt|]; [|now injection H as <-].
  destruct (PyFloat.gt0 total); [|now injection H as <-].
  destruct (Interp.time_groups mt) as [[[h m] s] ms].
  destruct (Interp.encoded_percent h m s ms total); [|discriminate].
  now injection H as <-.
Qed.

Lemma forallb_weaken (p q : event -> bool) (l : list event) :
  (forall e, p e = true -> q e = true) ->
  forallb p l = true -> forallb q l = true.
Proof.
  intros Hpq. rewrite !forallb_forall. auto.
Qed.

Lemma progress_is_download (e : event) : is_progress e = true -> download_event e = true.
Proof. now destruct e. Qed.

Lemma progress_is_tool (e : event) : is_progress e = true -> tool_event e = true.
Proof. now destruct e. Qed.

Lemma only_run_hooks (ds : list Interp.payload) :
  only download_event (run_hooks W w ds).
Proof.
  induction ds as [|d ds IH]; cbn [run_hooks]; only_by fail.
  apply only_emit_all. unfold lift, outcome in *. cbn [fst] in *.
  eapply forallb_weaken; [exact progress_is_download|].
  eapply progress_hook_progress; eassumption.
Qed.

Lemma only_ydl_download (format outtmpl : string) :
  only download_event (ydl_download W w format outtmpl).
Proof. unfold ydl_download. only_by ltac:(apply only_run_hooks). Qed.

Lemma only_read_encoder (total : PyFloat.float) (lines : list string) :
  only tool_event (read_encoder W w total lines).
Proof.
  induction lines as [|l lines IH]; cbn [read_encoder]; only_by fail.
  apply only_emit_all. unfold lift, outcome in *. cbn [fst] in *.
  eapply forallb_weaken; [exact progress_is_tool|].
  eapply encode_progress_progress; eassumption.
Qed.

Lemma only_encoding (total : PyFloat.float) : only tool_event (encoding W w total).
Proof. unfold encoding. only_by ltac:(apply only_read_encoder). Qed.

Lemma only_encode (v s out : string) (bitrate : option string) :
  only tool_event (encode W w v s out bitrate).
Proof. unfold encode. only_by ltac:(apply only_encoding). Qed.

Lemma srt_step_kinds (st : Srt.loop_state W) (l : string) :
  forallb translation_event (Srt.trace st) = true ->
  forallb translation_event
          (Srt.trace (Srt.step (translate_text_deepseek W w) st l)) = true.
Proof.
  intros H. unfold Srt.step, Srt.append_line, Srt.clear_buffer, Srt.translate_buffer.
  destruct (Srt.is_index_line l); [exact H|].
  destruct (Srt.is_timing_line l); [exact H|].
  destruct (Srt.is_blank_line l); [|exact H].
  destruct (Srt.text_buffer st); [exact H|].
  destruct (translate_text_deepseek W w _ _) as [[t|e] w'];
    cbn [Srt.trace]; rewrite ?forallb_app, H; reflexivity.
Qed.

Lemma srt_trace_kinds (lines : list string) (w0 : W) :
  forallb translation_event
          (Srt.trace (Srt.translate_lines (translate_text_deepseek W w) lines w0))
  = true.
Proof.
  unfold Srt.translate_lines, Srt.run_loop.
  assert (H : forall st, forallb translation_event (Srt.trace st) = true ->
            forallb translation_event
              (Srt.trace (fold_left (Srt.step (translate_text_deepseek W w))
                                    lines st)) = true).
  { induction lines as [|l lines IH]; intros st Hst; [exact Hst|].
    simpl. apply IH, srt_step_kinds, Hst. }
  specialize (H (Srt.init w0) eq_refl).
  unfold Srt.flush, Srt.translate_buffer.
  destruct (Srt.text_buffer _); [exact H|].
  destruct (translate_text_deepseek W w _ _) as [[t|e] w'];
    cbn [Srt.trace]; rewrite ?forallb_app, H; reflexivity.
Qed.

(** The events of a computation that are of a kind it never emits. *)
Lemma only_free (allowed p : event -> bool) (A : Type) (m : M A) (n : nat) :
  only allowed m ->
  (forall e, allowed e = true -> p e = false) ->
  filter p (events (m n)) = [].
Proof.
  intros Hm Hp. specialize (Hm n).
  induction (events (m n)) as [|e ev IH]; [reflexivity|].
  simpl in *. apply andb_true_iff in Hm as [He Hev].
  now rewrite (Hp e He), IH.
Qed.

Lemma only_not_in (allowed : event -> bool) (A : Type) (m : M A) (n : nat)
      (e : event) :
  only allowed m -> allowed e = false -> ~ In e (events (m n)).
Proof.
  intros Hm He Hin. specialize (Hm n).
  rewrite forallb_forall in Hm. apply Hm in Hin. congruence.
Qed.

End StageKinds.

(** ** Stages and the checks between them *)

Section ChainFacts.
Import Pipeline.
Local Open Scope list_scope.

Variable W : Type.
Variable w : world W.
Variable o : options.

Lemma process_video_stages (title : string) :
  _process_video W w o title
  = stages_then w (video_stages w o title) (emit (video_done o title)).
Proof. reflexivity. Qed.

(** What a stage and its check give, from what the stage gives. *)
Lemma checked_unfold (stage rest : M unit) (n : nat) :
  checked w stage rest n =
  match stage n with
  | (Ok _, n1, ev1) =>
      if flag W w n1 then (Ok tt, S n1, ev1)
      else match rest (S n1) with
           | (r, n2, ev2) => (r, n2, ev1 ++ ev2)
           end
  | (Raise e, n1, ev1) => (Raise e, n1, ev1)
  end.
Proof.
  unfold checked, bind, is_cancelled, ret.
  destruct (stage n) as [[[a|e] n1] ev1]; [|reflexivity].
  destruct (flag W w n1); [now rewrite app_nil_r|].
  now destruct (rest (S n1)) as [[r n2] ev2].
Qed.

Lemma finished_not_in (ev : list event) (e : event) :
  results ev = [] -> is_finished e = true -> ~ In e ev.
Proof.
  intros H He Hin.
  assert (Hf : In e (results ev)) by (apply filter_In; auto).
  now rewrite H in Hf.
Qed.

(** A terminal result among the events of a chain of stages comes from
    its last step, which is reached only when every stage returned with
    the flag unset. *)
Lemma stages_then_result (scs : list (M unit * Prop)) (last : M unit)
      (n : nat) (e : event) :
  Forall (fun sc => quiet (fst sc) /\ needs w (fst sc) (snd sc)) scs ->
  is_finished e = true ->
  In e (events (stages_then w (map fst scs) last n)) ->
  Forall (fun sc => snd sc) scs /\ exists n', In e (events (last n')).
Proof.
  intros Hscs He. revert n.
  induction Hscs as [|[s c] scs [Hq Hn] _ IH]; intros n Hin.
  - split; [constructor|]. now exists n.
  - cbn [map fst stages_then] in Hin. rewrite checked_unfold in Hin.
    cbn [fst snd] in *.
    specialize (Hq n). specialize (Hn n). unfold events in *.
    destruct (s n) as [[[a|ex] n1] ev1]; cbn [snd] in *.
    + destruct (flag W w n1) eqn:Ef; cbn [snd] in Hin.
      * now apply finished_not_in in Hin.
      * specialize (IH (S n1)).
        destruct (stages_then w (map fst scs) last (S n1)) as [[r n2] ev2].
        cbn [snd] in *. apply in_app_or in Hin as [Hin|Hin].
        -- now apply finished_not_in in Hin.
        -- destruct (IH Hin) as [Hall Hlast]. split; [|exact Hlast].
           constructor; [|exact Hall]. cbn [snd]. eapply Hn; eauto.
    + now apply finished_not_in in Hin.
Qed.

(** *** What each stage needs to return *)

Lemma read_output_flag (lines : list string) (n : nat) :
  match read_output W w lines n with
  | (Ok true, n', _) => flag W w n' = true
  | (Ok false, _, _) => True
  | (Raise _, _, _) => False
  end.
Proof.
  revert n. induction lines as [|l lines IH]; intros n; [exact I|].
  rewrite read_output_cons. destruct (flag W w n) eqn:E.
  - apply (flag_latch W w n); [exact E|lia].
  - specialize (IH (S n)).
    now destruct (read_output W w lines (S n)) as [[[[|]|e] n'] ev].
Qed.

Lemma needs_run_subprocess (cmd : list string) (p : process) :
  needs w (_run_subprocess W w cmd p) (returncode p = 0%Z).
Proof.
  intros n a n' ev.
  unfold _run_subprocess, popen, bind, ret, raise, is_cancelled; unfold emit.
  destruct (start_error p); [discriminate|].
  pose proof (read_output_flag (output p) n) as Hr.
  destruct (read_output W w (output p) n) as [[[[|]|e] n1] ev1];
    [|destruct (Z.eqb_spec (returncode p) 0) as [Hz|Hz]; [auto|]|discriminate].
  - intros H Hf. injection H as _ <- _. congruence.
  - destruct (flag W w n1) eqn:E; [|discriminate].
    intros H Hf. injection H as _ <- _.
    rewrite (flag_latch W w n1 (S n1) E) in Hf by lia. discriminate.
Qed.

Lemma needs_extract (v s : string) :
  needs w (_extract_subtitles W w o v s) (returncode (whisper W w) = 0%Z).
Proof.
  intros n a n' ev. unfold _extract_subtitles.
  unfold bind at 1 2, emit at 1 2.
  pose proof (needs_run_subprocess
    ["whisper"; v; "--model"; model o; "--language"; language o;
     "--output_format"; "srt"; "--output_dir"; output_dir o]
    (whisper W w) n) as H.
  destruct (_run_subprocess W w _ (whisper W w) n) as [[[u|e] n1] ev1];
    [|discriminate].
  intros Heq Hf. injection Heq as _ <- _. eapply H; eauto.
Qed.

Lemma needs_ydl_download (format outtmpl : string) :
  needs w (ydl_download W w format outtmpl)
        (download_error (downloader W w) = None).
Proof.
  intros n a n' ev. unfold ydl_download, bind, emit, raise, ret.
  destruct (run_hooks W w _ n) as [[[u|e] n1] ev1]; [|discriminate].
  now destruct (download_error (downloader W w)).
Qed.

Lemma needs_download_video (path : string) :
  needs w (_download_video W w o path)
        (download_error (downloader W w) = None).
Proof.
  intros n a n' ev. unfold _download_video. unfold bind at 1, emit at 1.
  pose proof (needs_ydl_download (quality_map (quality o)) path n) as H.
  destruct (ydl_download W w _ path n) as [[[u|e] n1] ev1]; [|discriminate].
  intros Heq Hf. injection Heq as _ <- _. eapply H; eauto.
Qed.

Lemma needs_translate (s1 s2 : string) :
  needs w (_translate_subtitles W w o s1 s2)
        (PyStr.is_empty (api_key o) = false /\
         (exists lines, srt_lines W w = Ok lines) /\
         srt_write_error W w = None).
Proof.
  intros n a n' ev. unfold _translate_subtitles.
  unfold bind at 1 2, emit at 1 2.
  destruct (PyStr.is_empty (api_key o)); [discriminate|].
  unfold Srt.translate_srt_file.
  destruct (srt_lines W w) as [lines|e].
  - destruct (srt_write_error W w) as [e|].
    + unfold bind, emit_all, lift. discriminate.
    + intros _ _. repeat split. now exists lines.
  - unfold bind, emit_all, lift. discriminate.
Qed.

Lemma read_encoder_flag (total : PyFloat.float) (lines : list string) (n : nat) :
  match read_encoder W w total lines n with
  | (Ok true, n', _) => flag W w n' = true
  | _ => True
  end.
Proof.
  revert n. induction lines as [|l lines IH]; intros n; [exact I|].
  cbn [read_encoder]. unfold bind at 1, is_cancelled.
  destruct (flag W w n) eqn:E.
  - cbn. apply (flag_latch W w n); [exact E|lia].
  - unfold bind at 1 2, emit at 1, lift.
    destruct (Interp.encode_progress l total) as [evs|e]; [|exact I].
    unfold bind, emit_all. specialize (IH (S n)).
    now destruct (read_encoder W w total lines (S n)) as [[[[|]|e] n'] ev].
Qed.

Lemma needs_encoding (total : PyFloat.float) :
  needs w (encoding W w total) (returncode (ffmpeg W w) = 0%Z).
Proof.
  intros n a n' ev. unfold encoding, bind, emit, ret, raise, is_cancelled.
  pose proof (read_encoder_flag total (output (ffmpeg W w)) n) as Hr.
  destruct (read_encoder W w total (output (ffmpeg W w)) n)
    as [[[[|]|e] n1] ev1];
    [|destruct (Z.eqb_spec (returncode (ffmpeg W w)) 0) as [Hz|Hz]; [auto|]
     |discriminate].
  - intros H Hf. injection H as _ <- _. congruence.
  - destruct (flag W w n1) eqn:E; [|discriminate].
    intros H Hf. injection H as _ <- _.
    rewrite (flag_latch W w n1 (S n1) E) in Hf by lia. discriminate.
Qed.

Lemma needs_synthesize (v s out : string) :
  needs w (_synthesize_video W w v s out) (returncode (ffmpeg W w) = 0%Z).
Proof.
  intros n a n' ev. unfold _synthesize_video.
  unfold bind at 1 2, emit at 1, lift.
  destruct (get_video_bitrate W w) as [bitrate|e]; [|discriminate].
  rewrite encode_unfold.
  destruct (get_video_duration W w) as [total|e]; [|discriminate].
  destruct (start_error (ffmpeg W w)); [discriminate|].
  pose proof (needs_encoding total n) as H.
  destruct (encoding W w total n) as [[[u|e] n1] ev1]; [|discriminate].
  intros Heq Hf. injection Heq as _ <- _. eapply H; eauto.
Qed.

End ChainFacts.

Section RunShape.
Import Pipeline.
Local Open Scope list_scope.

Variable W : Type.
Variable w : world W.
Variable o : options.

(** [run_body], from what its branch gives. *)
Lemma run_body_unfold (n : nat) :
  run_body W w o n =
  let started := [StageChanged "Getting video information...";
                  Log ("[INFO] Getting info for URL: " ++ url o)%string] in
  match info W w with
  | Raise e => (Raise e, n, started)
  | Ok title =>
      if flag W w n then (Ok tt, S n, started ++ [InfoRetrieved title])
      else
        match (if String.eqb (type o) "Audio" then _download_audio W w o title
               else _process_video W w o title) (S n) with
        | (r, n', ev) => (r, n', started ++ InfoRetrieved title :: ev)
        end
  end.
Proof.
  unfold run_body, bind, emit, lift, is_cancelled, ret.
  destruct (info W w) as [title|e]; [|reflexivity].
  destruct (flag W w n); [reflexivity|].
  destruct (String.eqb (type o) "Audio").
  - now destruct (_download_audio W w o title (S n)) as [[r n'] ev].
  - now destruct (_process_video W w o title (S n)) as [[r n'] ev].
Qed.

(** [_download_audio], from what the download gives. *)
Lemma download_audio_unfold (title : string) (n : nat) :
  _download_audio W w o title n =
  let stage := StageChanged "Step 1/1: Downloading Audio (MP3)" in
  match ydl_download W w "bestaudio/best"
          (path_join (output_dir o) "%(title)s.%(ext)s") n with
  | (Ok _, n1, ev1) =>
      (Ok tt, S n1,
       stage :: ev1 ++
       if flag W w n1 then []
       else [Finished true "Audio download completed successfully!"
                      (audio_final_path o title)])
  | (Raise e, n1, ev1) => (Raise e, n1, stage :: ev1)
  end.
Proof.
  unfold _download_audio, bind, emit, is_cancelled, ret.
  destruct (ydl_download W w _ _ n) as [[[u|e] n1] ev1]; [|reflexivity].
  now destruct (flag W w n1).
Qed.

Lemma video_stages_need (title : string) :
  Forall (fun sc => quiet (fst sc) /\ needs w (fst sc) (snd sc))
    (combine (video_stages w o title)
       [download_error (downloader W w) = None;
        returncode (whisper W w) = 0%Z;
        PyStr.is_empty (api_key o) = false /\
        (exists lines, srt_lines W w = Ok lines) /\
        srt_write_error W w = None;
        returncode (ffmpeg W w) = 0%Z]).
Proof.
  unfold video_stages. cbn [combine].
  constructor; [split; [apply quiet_download_video|apply needs_download_video]|].
  constructor; [split; [apply quiet_extract|apply needs_extract]|].
  constructor; [split; [apply quiet_translate|apply needs_translate]|].
  constructor; [split; [apply quiet_synthesize|apply needs_synthesize]|].
  constructor.
Qed.

(** X1.  A run reports a success only when every stage of its branch
    went through: the metadata was fetched and the download raised no
    error; in the video branch, moreover, Whisper and FFmpeg both ended
    with exit code 0, an API key was set, and the caption file was read
    and its translation written.  The message and the path reported are
    those of the branch. *)
Theorem success_needs_every_stage (msg path : string) :
  In (Finished true msg path) (run_trace W w o) ->
  exists title,
    info W w = Ok title /\
    download_error (downloader W w) = None /\
    if String.eqb (type o) "Audio"
    then msg = "Audio download completed successfully!"%string /\
         path = audio_final_path o title
    else msg = "Video processing completed successfully!"%string /\
         path = final_video_path o title /\
         returncode (whisper W w) = 0%Z /\
         returncode (ffmpeg W w) = 0%Z /\
         PyStr.is_empty (api_key o) = false /\
         (exists lines, srt_lines W w = Ok lines) /\
         srt_write_error W w = None.
Proof.
  unfold run_trace. rewrite run_unfold.
  pose proof (run_body_at_most_one W w o 0) as Hends.
  rewrite run_body_unfold in *. cbv zeta in *.
  destruct (info W w) as [title|e].
  2:{ cbn. intros [H|[H|[H|[H|[]]]]]; discriminate. }
  destruct (flag W w 0).
  { cbn. intros [H|[H|[H|[]]]]; discriminate. }
  intros Hin. exists title. split; [reflexivity|].
  destruct (String.eqb (type o) "Audio").
  - rewrite download_audio_unfold in *. cbv zeta in *.
    pose proof (needs_ydl_download W w "bestaudio/best"
                  (path_join (output_dir o) "%(title)s.%(ext)s") 1) as Hneeds.
    pose proof (only_not_in download_event _ (ydl_download W w "bestaudio/best"
                  (path_join (output_dir o) "%(title)s.%(ext)s")) 1
                  (Finished true msg path)
                  (only_ydl_download W w _ _) eq_refl) as Hfree.
    unfold events in Hfree.
    destruct (ydl_download W w _ _ 1) as [[[u|e] n1] ev1]; cbn [snd] in *.
    + destruct Hin as [H|[H|[H|[H|Hin]]]]; try discriminate.
      apply in_app_or in Hin as [Hin|Hin]; [contradiction|].
      destruct (flag W w n1) eqn:Ef; [contradiction|].
      destruct Hin as [H|[]]. injection H as <- <-.
      split; [eapply Hneeds; eauto|]. split; reflexivity.
    + apply in_app_or in Hin as [Hin|Hin].
      * destruct Hin as [H|[H|[H|[H|Hin]]]]; try discriminate. contradiction.
      * destruct Hin as [H|[H|[]]]; discriminate.
  - rewrite process_video_stages in *.
    pose proof (stages_then_result W w _ (emit (video_done o title)) 1
                  (Finished true msg path) (video_stages_need title) eq_refl)
      as Hres.
    unfold video_stages in *. cbn [combine map fst] in Hres.
    unfold events in Hres.
    destruct (stages_then w _ _ 1) as [[[u|e] n1] ev1];
      cbn [snd] in *.
    + destruct Hin as [H|[H|[H|Hin]]]; try discriminate.
      destruct (Hres Hin) as [Hall (n' & [Hlast|[]])].
      injection Hlast as <- <-.
      inversion Hall as [|? ? H1 Hall1]; subst.
      inversion Hall1 as [|? ? H2 Hall2]; subst.
      inversion Hall2 as [|? ? H3 Hall3]; subst.
      inversion Hall3 as [|? ? H4 _]; subst.
      cbn [snd] in *. tauto.
    + exfalso. apply in_app_or in Hin as [Hin|Hin].
      * destruct Hin as [H|[H|[H|Hin]]]; try discriminate.
        eapply finished_not_in; [| |exact Hin]; [|reflexivity].
        cbn in Hends. exact Hends.
      * destruct Hin as [H|[H|[]]]; discriminate.
Qed.

End RunShape.

(** ** Termination of a child process *)

Section TerminationFacts.
Import Pipeline.
Local Open Scope list_scope.

Variable W : Type.
Variable w : world W.
Variable o : options.

Lemma only_weaken (allowed allowed' : event -> bool) (A : Type) (m : M A) :
  (forall e, allowed e = true -> allowed' e = true) ->
  only allowed m -> only allowed' m.
Proof. intros H Hm n. eapply forallb_weaken; [exact H|apply Hm]. Qed.

Lemma orderly_free (A : Type) (m : M A) :
  (forall n, ~ In Terminate (events (m n))) -> orderly w m.
Proof.
  intros H n. specialize (H n). destruct (m n) as [[r n'] ev]. now left.
Qed.

Lemma orderly_bind (A B : Type) (m : M A) (f : A -> M B) :
  (forall n, ~ In Terminate (events (m n))) -> quiet m ->
  (forall a, orderly w (f a)) -> orderly w (bind m f).
Proof.
  intros Hfree Hq Hf n. unfold bind.
  specialize (Hfree n). specialize (Hq n). unfold events in *.
  destruct (m n) as [[[a|e] n1] ev1]; cbn [snd] in *; [|now left].
  specialize (Hf a n1).
  destruct (f a n1) as [[r n2] ev2].
  destruct Hf as [Hf|((pre & msg & -> & Hpre & Hmsg) & Hres & Hflag & Hok)].
  - left. rewrite in_app_iff. tauto.
  - right. repeat split; try assumption.
    + exists (ev1 ++ pre), msg. rewrite app_assoc. repeat split; [|assumption].
      rewrite in_app_iff. tauto.
    + now rewrite results_app, Hq, Hres.
Qed.

Lemma orderly_emit (B : Type) (e : event) (m : M B) :
  is_terminate e = false -> is_finished e = false ->
  orderly w m -> orderly w (bind (emit e) (fun _ => m)).
Proof.
  intros Ht Hf Hm. apply orderly_bind.
  - intros n [H|[]]. subst e. discriminate.
  - now apply quiet_emit.
  - intros _. exact Hm.
Qed.

Lemma orderly_popen (B : Type) (cmd : list string) (p : process) (m : M B) :
  orderly w m -> orderly w (bind (popen cmd p) (fun _ => m)).
Proof.
  intros Hm. apply orderly_bind.
  - intros n. unfold popen.
    destruct (start_error p); [intros []|intros [H|[]]; discriminate].
  - apply quiet_popen.
  - intros _. exact Hm.
Qed.

(** The loop over the output of a child process. *)
Lemma read_output_orderly (lines : list string) (n : nat) :
  match read_output W w lines n with
  | (Ok true, n', ev) =>
      flag W w n' = true /\
      exists pre, ev = pre ++ terminated /\ ~ In Terminate pre
  | (Ok false, _, ev) => ~ In Terminate ev
  | (Raise _, _, _) => False
  end.
Proof.
  revert n. induction lines as [|l lines IH]; intros n; [intros []|].
  rewrite read_output_cons. destruct (flag W w n) eqn:E.
  - split; [apply (flag_latch W w n); [exact E|lia]|].
    exists []. split; [reflexivity|intros []].
  - specialize (IH (S n)).
    destruct (read_output W w lines (S n)) as [[[[|]|e] n'] ev].
    + destruct IH as (Hf & pre & -> & Hpre). split; [exact Hf|].
      exists (logged l :: pre). split; [reflexivity|].
      intros [H|H]; [discriminate|contradiction].
    + intros [H|H]; [discriminate|contradiction].
    + exact IH.
Qed.

Lemma orderly_run_subprocess (cmd : list string) (p : process) :
  orderly w (_run_subprocess W w cmd p).
Proof.
  unfold _run_subprocess.
  apply orderly_emit; [reflexivity..|]. apply orderly_popen.
  intros n. unfold bind, emit, ret, raise, is_cancelled.
  pose proof (read_output_orderly (output p) n) as Hr.
  pose proof (quiet_read_output W w (output p) n) as Hq. unfold events in Hq.
  destruct (read_output W w (output p) n) as [[[[|]|e] n1] ev1];
    cbn [snd] in *; [| |contradiction].
  - destruct Hr as (Hf & pre & -> & Hpre). right.
    rewrite app_nil_r. repeat split; [|assumption..|now exists tt].
    exists pre, "[INFO] Process terminated by user.".
    repeat split; [assumption|]. now left.
  - destruct (returncode p =? 0)%Z; [|destruct (flag W w n1)];
      left; rewrite !in_app_iff; cbn [In]; intuition discriminate.
Qed.

Lemma read_encoder_orderly (total : PyFloat.float) (lines : list string)
      (n : nat) :
  match read_encoder W w total lines n with
  | (Ok true, n', ev) =>
      flag W w n' = true /\
      exists pre,
        ev = pre ++ [Terminate; Log "[INFO] FFmpeg process terminated by user."] /\
        ~ In Terminate pre
  | (_, _, ev) => ~ In Terminate ev
  end.
Proof.
  revert n. induction lines as [|l lines IH]; intros n; [intros []|].
  cbn [read_encoder]. unfold bind at 1, is_cancelled.
  destruct (flag W w n) eqn:E.
  - cbn. split; [apply (flag_latch W w n); [exact E|lia]|].
    exists []. split; [reflexivity|intros []].
  - unfold bind at 1 2, emit at 1, lift.
    destruct (Interp.encode_progress l total) as [evs|e] eqn:Ep.
    2:{ cbn. intros [H|[]]. discriminate. }
    unfold bind, emit_all. specialize (IH (S n)).
    assert (Hevs : ~ In Terminate evs).
    { intros Hin. apply encode_progress_progress in Ep.
      rewrite forallb_forall in Ep. now apply Ep in Hin. }
    destruct (read_encoder W w total lines (S n)) as [[[[|]|e] n'] ev];
      cbn [app].
    + destruct IH as (Hf & pre & -> & Hpre). split; [exact Hf|].
      exists (Log (PyStr.strip l) :: evs ++ pre).
      split; [cbn [app]; now rewrite app_assoc|].
      intros [H|H]; [discriminate|]. apply in_app_or in H. tauto.
    + intros [H|H]; [discriminate|]. apply in_app_or in H. tauto.
    + intros [H|H]; [discriminate|]. apply in_app_or in H. tauto.
Qed.

Lemma orderly_encoding (total : PyFloat.float) : orderly w (encoding W w total).
Proof.
  intros n. unfold encoding, bind, emit, ret, raise, is_cancelled.
  pose proof (read_encoder_orderly total (output (ffmpeg W w)) n) as Hr.
  pose proof (quiet_read_encoder W w total (output (ffmpeg W w)) n) as Hq.
  unfold events in Hq.
  destruct (read_encoder W w total (output (ffmpeg W w)) n)
    as [[[[|]|e] n1] ev1]; cbn [snd] in *; [| |now left].
  - destruct Hr as (Hf & pre & -> & Hpre). right.
    rewrite app_nil_r. repeat split; [|assumption..|now exists tt].
    exists pre, "[INFO] FFmpeg process terminated by user.".
    repeat split; [assumption|]. right. now left.
  - destruct (returncode (ffmpeg W w) =? 0)%Z; [|destruct (flag W w n1)];
      left; rewrite !in_app_iff; cbn [In]; intuition discriminate.
Qed.

Lemma orderly_synthesize (v s out : string) :
  orderly w (_synthesize_video W w v s out).
Proof.
  unfold _synthesize_video. apply orderly_emit; [reflexivity..|].
  apply orderly_bind; [intros n []|apply quiet_lift|]. intros bitrate.
  unfold encode.
  destruct bitrate as [b|];
    (do 2 (apply orderly_emit; [reflexivity..|]);
     apply orderly_bind; [intros n []|apply quiet_lift|]; intros total;
     apply orderly_popen, orderly_encoding).
Qed.

Lemma orderly_extract (v s : string) : orderly w (_extract_subtitles W w o v s).
Proof.
  unfold _extract_subtitles.
  do 2 (apply orderly_emit; [reflexivity..|]). apply orderly_run_subprocess.
Qed.

Lemma download_no_terminate (format outtmpl : string) (n : nat) :
  ~ In Terminate (events (ydl_download W w format outtmpl n)).
Proof. apply (only_not_in download_event); [apply only_ydl_download|reflexivity]. Qed.

Lemma orderly_download_video (path : string) :
  orderly w (_download_video W w o path).
Proof.
  unfold _download_video. apply orderly_emit; [reflexivity..|].
  apply orderly_free, download_no_terminate.
Qed.

Lemma only_translate (s1 s2 : string) :
  only (fun e => translation_event e || is_stage e)
       (_translate_subtitles W w o s1 s2).
Proof.
  unfold _translate_subtitles. only_by fail.
  destruct (Srt.translate_srt_file _ _ _ _) as [[r w'] evs] eqn:E.
  only_by fail. apply only_emit_all.
  eapply forallb_weaken with (p := translation_event);
    [intros e ->; reflexivity|].
  unfold Srt.translate_srt_file in E.
  destruct (srt_lines W w) as [lines|e]; [|now injection E as _ _ <-].
  destruct (srt_write_error W w); injection E as _ _ <-; apply srt_trace_kinds.
Qed.

Lemma orderly_translate (s1 s2 : string) :
  orderly w (_translate_subtitles W w o s1 s2).
Proof.
  apply orderly_free. intros n.
  eapply only_not_in; [apply only_translate|reflexivity].
Qed.

Lemma orderly_checked (stage rest : M unit) :
  quiet stage -> orderly w stage -> orderly w rest ->
  orderly w (checked w stage rest).
Proof.
  intros Hq Hs Hr n. rewrite checked_unfold.
  specialize (Hq n). specialize (Hs n). unfold events in *.
  destruct (stage n) as [[[a|e] n1] ev1]; cbn [snd] in *.
  - destruct (flag W w n1) eqn:Ef.
    + destruct Hs as [Hs|(Hl & Hres & _ & _)]; [now left|].
      right. repeat split; try assumption; [|now exists tt].
      apply (flag_latch W w n1); [exact Ef|lia].
    + destruct Hs as [Hs|(_ & _ & Hflag & _)]; [|congruence].
      specialize (Hr (S n1)).
      destruct (rest (S n1)) as [[r n2] ev2].
      destruct Hr as [Hr|((pre & msg & -> & Hpre & Hmsg) & Hres & Hflag & Hok)].
      * left. rewrite in_app_iff. tauto.
      * right. repeat split; try assumption.
        -- exists (ev1 ++ pre), msg. rewrite app_assoc.
           repeat split; [|assumption]. rewrite in_app_iff. tauto.
        -- now rewrite results_app, Hq, Hres.
  - destruct Hs as [Hs|(_ & _ & _ & a & Ha)]; [now left|discriminate].
Qed.

Lemma orderly_stages_then (stages : list (M unit)) (last : M unit) :
  Forall (fun s => quiet s /\ orderly w s) stages -> orderly w last ->
  orderly w (stages_then w stages last).
Proof.
  intros Hs Hl. induction Hs as [|s ss [Hq Ho] _ IH]; [exact Hl|].
  cbn [stages_then]. now apply orderly_checked.
Qed.

Lemma orderly_process_video (title : string) :
  orderly w (_process_video W w o title).
Proof.
  rewrite process_video_stages. apply orderly_stages_then.
  - unfold video_stages.
    constructor; [split; [apply quiet_download_video|apply orderly_download_video]|].
    constructor; [split; [apply quiet_extract|apply orderly_extract]|].
    constructor; [split; [apply quiet_translate|apply orderly_translate]|].
    constructor; [split; [apply quiet_synthesize|apply orderly_synthesize]|].
    constructor.
  - apply orderly_free. intros n [H|[]]. discriminate.
Qed.

Lemma orderly_download_audio (title : string) :
  orderly w (_download_audio W w o title).
Proof.
  apply orderly_free. intros n. rewrite download_audio_unfold. cbv zeta.
  pose proof (download_no_terminate "bestaudio/best"
                (path_join (output_dir o) "%(title)s.%(ext)s") n) as H.
  unfold events in *.
  destruct (ydl_download W w _ _ n) as [[[u|e] n1] ev1]; cbn [snd] in *.
  - intros [Hin|Hin]; [discriminate|]. apply in_app_or in Hin as [Hin|Hin];
      [contradiction|].
    destruct (flag W w n1); [contradiction|].
    destruct Hin as [Hin|[]]. discriminate.
  - intros [Hin|Hin]; [discriminate|contradiction].
Qed.

Lemma orderly_run_body : orderly w (run_body W w o).
Proof.
  intros n. rewrite run_body_unfold. cbv zeta.
  destruct (info W w) as [title|e].
  2:{ left. intros [H|[H|[]]]; discriminate. }
  destruct (flag W w n).
  { left. intros [H|[H|[H|[]]]]; discriminate. }
  assert (Hb : orderly w (if String.eqb (type o) "Audio"
                          then _download_audio W w o title
                          else _process_video W w o title)).
  { destruct (String.eqb (type o) "Audio");
      [apply orderly_download_audio|apply orderly_process_video]. }
  specialize (Hb (S n)).
  set (branch := if String.eqb (type o) "Audio"
                 then _download_audio W w o title
                 else _process_video W w o title) in *.
  destruct (branch (S n)) as [[r n'] ev].
  destruct Hb as [Hb|((pre & msg & -> & Hpre & Hmsg) & Hres & Hflag & Hok)].
  - left. intros [H|[H|[H|H]]]; try discriminate. contradiction.
  - right. repeat split; try assumption.
    exists ([StageChanged "Getting video information...";
             Log ("[INFO] Getting info for URL: " ++ url o)%string;
             InfoRetrieved title] ++ pre), msg.
    repeat split; [|assumption].
    intros [H|[H|[H|H]]]; try discriminate. contradiction.
Qed.

(** X2.  When a run terminates a child process, that and the line
    logged for it are its last two events: the run starts nothing and
    reports nothing after it, and it ends without a terminal result. *)
Theorem terminate_ends_run :
  In Terminate (run_trace W w o) ->
  (exists pre msg,
      run_trace W w o = pre ++ [Terminate; Log msg] /\
      ~ In Terminate pre /\ In msg termination_logs) /\
  results (run_trace W w o) = [].
Proof.
  unfold run_trace. rewrite run_unfold.
  pose proof (orderly_run_body 0) as H.
  destruct (run_body W w o 0) as [[[a|e] n1] ev]; cbn [snd].
  - intros Hin. destruct H as [H|(Hl & Hres & _)]; [contradiction|]. now split.
  - intros Hin. exfalso. destruct H as [H|(_ & _ & _ & a & Ha)]; [|discriminate].
    apply in_app_or in Hin as [Hin|[Hin|[Hin|[]]]]; [contradiction|..];
      discriminate.
Qed.

End TerminationFacts.

(** ** The order of the stages *)

Section StageOrder.
Import Pipeline.
Local Open Scope list_scope.

Variable W : Type.
Variable w : world W.
Variable o : options.

Lemma stage_labels_app (a b : list event) :
  stage_labels (a ++ b) = stage_labels a ++ stage_labels b.
Proof.
  induction a as [|e a IH]; [reflexivity|].
  destruct e; cbn [app stage_labels]; now rewrite IH.
Qed.

Lemma stage_labels_none (allowed : event -> bool) (ev : list event) :
  (forall e, allowed e = true -> is_stage e = false) ->
  forallb allowed ev = true -> stage_labels ev = [].
Proof.
  intros Ha. induction ev as [|e ev IH]; [reflexivity|].
  cbn [forallb]. intros H. apply andb_true_iff in H as [He Hev].
  apply Ha in He. destruct e; try discriminate; cbn [stage_labels]; auto.
Qed.

(** A stage announces itself once, first. *)
Lemma labelled (A : Type) (allowed : event -> bool) (label : string)
      (m : M A) (n : nat) :
  (forall e, allowed e = true -> is_stage e = false) ->
  only allowed m ->
  stage_labels (events (bind (emit (StageChanged label)) (fun _ => m) n))
  = [label].
Proof.
  intros Ha Hm. unfold bind, emit. specialize (Hm n). unfold events in *.
  destruct (m n) as [[r n'] ev]. cbn [snd app stage_labels] in *.
  now rewrite (stage_labels_none allowed).
Qed.

Lemma download_video_label (path : string) (n : nat) :
  stage_labels (events (_download_video W w o path n))
  = ["Step 1/4: Downloading Video"].
Proof.
  apply (labelled _ download_event); [now intros []|apply only_ydl_download].
Qed.

Lemma extract_label (v s : string) (n : nat) :
  stage_labels (events (_extract_subtitles W w o v s n))
  = ["Step 2/4: Extracting Subtitles (Whisper)"].
Proof.
  apply (labelled _ tool_event); [now intros []|].
  only_by ltac:(apply only_run_subprocess).
Qed.

Lemma translate_label (s1 s2 : string) (n : nat) :
  stage_labels (events (_translate_subtitles W w o s1 s2 n))
  = ["Step 3/4: Translating Subtitles (DeepSeek API)"].
Proof.
  apply (labelled _ translation_event); [now intros []|].
  only_by fail.
  destruct (Srt.translate_srt_file _ _ _ _) as [[r w'] evs] eqn:E.
  only_by fail. apply only_emit_all.
  unfold Srt.translate_srt_file in E.
  destruct (srt_lines W w) as [lines|e]; [|now injection E as _ _ <-].
  destruct (srt_write_error W w); injection E as _ _ <-; apply srt_trace_kinds.
Qed.

Lemma synthesize_label (v s out : string) (n : nat) :
  stage_labels (events (_synthesize_video W w v s out n))
  = ["Step 4/4: Encoding Final Video (FFmpeg)"].
Proof.
  apply (labelled _ tool_event); [now intros []|].
  only_by ltac:(apply only_encode).
Qed.

(** The labels a chain of stages announces are the first ones of the
    labels of its stages. *)
Lemma stages_then_labels (sls : list (M unit * string)) (last : M unit)
      (n : nat) :
  Forall (fun sl => forall n, stage_labels (events (fst sl n)) = [snd sl]) sls ->
  (forall n, stage_labels (events (last n)) = []) ->
  exists rest,
    map snd sls
    = stage_labels (events (stages_then w (map fst sls) last n)) ++ rest.
Proof.
  intros Hs Hl. revert n.
  induction Hs as [|[s l] sls Hsl _ IH]; intros n.
  - exists []. cbn [map stages_then]. now rewrite Hl.
  - cbn [map fst snd stages_then]. rewrite checked_unfold.
    specialize (Hsl n). cbn [fst snd] in Hsl. unfold events in *.
    destruct (s n) as [[[a|e] n1] ev1]; cbn [snd] in *.
    + destruct (flag W w n1).
      * exists (map snd sls). cbn [snd]. now rewrite Hsl.
      * destruct (IH (S n1)) as [rest Hrest].
        match goal with |- context [stages_then w ?ss last (S n1)] =>
          destruct (stages_then w ss last (S n1)) as [[r n2] ev2] end.
        cbn [snd] in *. exists rest.
        now rewrite stage_labels_app, Hsl, Hrest.
    + exists (map snd sls). now rewrite Hsl.
Qed.

Lemma process_video_labels (title : string) (n : nat) :
  exists rest,
    tl video_labels
    = stage_labels (events (_process_video W w o title n)) ++ rest.
Proof.
  rewrite process_video_stages.
  apply (stages_then_labels
           (combine (video_stages w o title) (tl video_labels))).
  - unfold video_stages, video_labels. cbn [tl combine].
    repeat constructor; intros n'; cbn [fst snd].
    + apply download_video_label.
    + apply extract_label.
    + apply translate_label.
    + apply synthesize_label.
  - reflexivity.
Qed.

Lemma download_audio_labels (title : string) (n : nat) :
  stage_labels (events (_download_audio W w o title n)) = tl audio_labels.
Proof.
  rewrite download_audio_unfold. cbv zeta.
  pose proof (only_ydl_download W w "bestaudio/best"
                (path_join (output_dir o) "%(title)s.%(ext)s") n) as H.
  apply (stage_labels_none download_event) in H; [|now intros []].
  unfold events in *.
  destruct (ydl_download W w _ _ n) as [[[u|e] n1] ev1]; cbn [snd] in *.
  - cbn [stage_labels]. rewrite stage_labels_app, H.
    now destruct (flag W w n1).
  - cbn [stage_labels]. now rewrite H.
Qed.

(** X3.  The stages a run announces are the first ones of the stages of
    its branch, in their order: a run starts with the fetch of the
    metadata, and announces no stage twice, none out of turn, and none
    of the other branch. *)
Theorem stages_in_order :
  let expected := if String.eqb (type o) "Audio"
                  then audio_labels else video_labels in
  exists announced rest,
    stage_labels (run_trace W w o)
    = "Getting video information..."%string :: announced /\
    expected = stage_labels (run_trace W w o) ++ rest.
Proof.
  unfold run_trace. rewrite run_unfold, run_body_unfold. cbv zeta.
  destruct (info W w) as [title|e].
  2:{ exists [], (tl (if String.eqb (type o) "Audio"
                      then audio_labels else video_labels)).
      split; [reflexivity|]. now destruct (String.eqb (type o) "Audio"). }
  destruct (flag W w 0).
  { exists [], (tl (if String.eqb (type o) "Audio"
                    then audio_labels else video_labels)).
    split; [reflexivity|]. now destruct (String.eqb (type o) "Audio"). }
  destruct (String.eqb (type o) "Audio").
  - pose proof (download_audio_labels title 1) as H. unfold events in H.
    destruct (_download_audio W w o title 1) as [[[u|e] n1] ev1];
      cbn [snd] in *.
    + exists (tl audio_labels), []. cbn [app stage_labels]. rewrite H.
      split; reflexivity.
    + exists (tl audio_labels), []. cbn [app stage_labels].
      rewrite stage_labels_app, H. split; reflexivity.
  - destruct (process_video_labels title 1) as [rest H]. unfold events in H.
    destruct (_process_video W w o title 1) as [[[u|e] n1] ev1];
      cbn [snd] in *.
    + exists (stage_labels ev1), rest. cbn [app stage_labels].
      split; [reflexivity|]. unfold video_labels in *. cbn [tl] in H.
      now rewrite H.
    + exists (stage_labels ev1), rest. cbn [app stage_labels].
      rewrite stage_labels_app. cbn [stage_labels]. rewrite app_nil_r.
      split; [reflexivity|]. unfold video_labels in *. cbn [tl] in H.
      now rewrite H.
Qed.

End StageOrder.

(** ** Failures of a run *)

Section FailureFacts.
Import Pipeline.
Local Open Scope list_scope.

Variable W : Type.
Variable w : world W.
Variable o : options.

Lemma calls_app (a b : list event) : calls (a ++ b) = calls a ++ calls b.
Proof.
  induction a as [|e a IH]; [reflexivity|].
  destruct e; cbn [app calls]; now rewrite IH.
Qed.

Lemma calls_none (allowed : event -> bool) (ev : list event) :
  (forall e, allowed e = true -> is_call e = false) ->
  forallb allowed ev = true -> calls ev = [].
Proof.
  intros Ha. induction ev as [|e ev IH]; [reflexivity|].
  cbn [forallb]. intros H. apply andb_true_iff in H as [He Hev].
  apply Ha in He. destruct e; try discriminate; cbn [calls]; auto.
Qed.

(** The hook that sees the flag set ends the download. *)
Lemma run_hooks_cancelled (ds : list Interp.payload) (n k : nat) :
  k < List.length ds -> flag W w (n + k) = true ->
  (forall j, j < k -> flag W w (n + j) = false) ->
  Forall (fun d => exists evs, Interp.progress_hook false d = Ok evs)
         (firstn k ds) ->
  outcome (run_hooks W w ds n) = Raise DownloadCancelled.
Proof.
  revert n k. induction ds as [|d ds IH]; intros n k Hk Hf Hfirst Hok.
  - simpl in Hk. lia.
  - cbn [run_hooks]. unfold bind at 1, is_cancelled.
    destruct k as [|k].
    + rewrite Nat.add_0_r in Hf. rewrite Hf. reflexivity.
    + pose proof (Hfirst 0 ltac:(lia)) as H0. rewrite Nat.add_0_r in H0.
      rewrite H0. cbn [firstn] in Hok.
      inversion Hok as [|? ? [evs Hd] Hrest]; subst.
      unfold bind at 1 2, lift, emit_all. rewrite Hd.
      specialize (IH (S n) k).
      destruct (run_hooks W w ds (S n)) as [[r n'] ev].
      unfold outcome in *. cbn [fst] in *. apply IH.
      * simpl in Hk. lia.
      * now replace (S n + k) with (n + S k) by lia.
      * intros j Hj. replace (S n + j) with (n + S j) by lia.
        apply Hfirst. lia.
      * exact Hrest.
Qed.

Lemma branch_of_download (title : string) (e : exn) :
  (forall format outtmpl,
      outcome (ydl_download W w format outtmpl 1) = Raise e) ->
  outcome ((if String.eqb (type o) "Audio" then _download_audio W w o title
            else _process_video W w o title) 1) = Raise e.
Proof.
  intros H. destruct (String.eqb (type o) "Audio").
  - rewrite download_audio_unfold. cbv zeta.
    specialize (H "bestaudio/best" (path_join (output_dir o) "%(title)s.%(ext)s")).
    now destruct (ydl_download W w _ _ 1) as [[[u|e'] n1] ev1].
  - rewrite process_video_stages. unfold video_stages. cbn [stages_then].
    rewrite checked_unfold. unfold _download_video, bind at 1, emit at 1.
    specialize (H (quality_map (quality o)) (downloaded_video_path o title)).
    now destruct (ydl_download W w _ _ 1) as [[[u|e'] n1] ev1].
Qed.

(** X4.  A cancellation that comes while yt-dlp downloads, at the latest
    before the last call of the progress hook, is reported as a failure:
    the hook raises [DownloadCancelled], and the run ends with the
    terminal result of the [except] branch, with the text of that
    exception as its message.  This holds in both branches. *)
Theorem cancelled_download_fails (title : string) (c : nat) :
  info W w = Ok title ->
  cancel_at W w = Some c ->
  1 <= c <= List.length (payloads (downloader W w)) ->
  Forall (fun d => exists evs, Interp.progress_hook false d = Ok evs)
         (firstn (c - 1) (payloads (downloader W w))) ->
  results (run_trace W w o)
  = [Finished false "The download was cancelled" EmptyString].
Proof.
  intros Hinfo Hc Hrange Hok.
  assert (Hflag : forall n, flag W w n = (c <=? n)%nat).
  { intros n. unfold flag. now rewrite Hc. }
  assert (Hdl : forall format outtmpl,
             outcome (ydl_download W w format outtmpl 1) = Raise DownloadCancelled).
  { intros format outtmpl. unfold ydl_download, bind at 1 2, emit.
    pose proof (run_hooks_cancelled (payloads (downloader W w)) 1 (c - 1)) as H.
    destruct (run_hooks W w _ 1) as [[[u|e] n1] ev1]; unfold outcome in *;
      cbn [fst] in *.
    - discriminate H; try assumption; try lia.
      + rewrite Hflag. apply Nat.leb_le. lia.
      + intros j Hj. rewrite Hflag. apply Nat.leb_gt. lia.
    - apply H; try assumption; try lia.
      + rewrite Hflag. apply Nat.leb_le. lia.
      + intros j Hj. rewrite Hflag. apply Nat.leb_gt. lia. }
  unfold run_trace. rewrite run_unfold.
  pose proof (run_body_at_most_one W w o 0) as Hends.
  rewrite run_body_unfold in *. cbv zeta in *. rewrite Hinfo in *.
  rewrite Hflag in *. destruct (Nat.leb_spec c 0) as [Hle|_]; [lia|].
  pose proof (branch_of_download title DownloadCancelled Hdl) as Hb.
  set (branch := if String.eqb (type o) "Audio"
                 then _download_audio W w o title
                 else _process_video W w o title) in *.
  destruct (branch 1) as [[[u|e] n1] ev1]; unfold outcome in Hb;
    cbn [fst snd] in *; [discriminate|].
  injection Hb as ->. now rewrite results_app, Hends.
Qed.

(** *** A missing API key *)

Lemma extract_returns (v s : string) (n : nat) :
  cancel_at W w = None ->
  start_error (whisper W w) = None -> returncode (whisper W w) = 0%Z ->
  outcome (_extract_subtitles W w o v s n) = Ok tt.
Proof.
  intros never Hstart Hrc. unfold _extract_subtitles, _run_subprocess.
  unfold bind at 1 2 3 4 5, emit at 1 2 3.
  rewrite (popen_started _ _ _ Hstart).
  rewrite read_output_all by (intros j _; now apply flag_never).
  rewrite Hrc. reflexivity.
Qed.

Lemma only_download_video (path : string) :
  only (fun e => download_event e || is_stage e) (_download_video W w o path).
Proof.
  unfold _download_video.
  apply only_bind; [apply only_emit; reflexivity|intros ? ? ?].
  eapply only_weaken; [|apply only_ydl_download]. now intros e ->.
Qed.

Lemma only_extract (v s : string) :
  only (fun e => tool_event e || is_stage e) (_extract_subtitles W w o v s).
Proof.
  unfold _extract_subtitles.
  do 2 (apply only_bind; [apply only_emit; reflexivity|intros ? ? ?]).
  eapply only_weaken; [|apply only_run_subprocess]. now intros e ->.
Qed.

(** X5.  Without an API key the worker fails only at the third stage:
    when the download went through, Whisper was started and ended with
    the exit code 0, and the run is not cancelled, it ends with the
    failure that names the missing key,
    after the video was downloaded and transcribed; the translation
    service is never called and the encoding is never announced. *)
Theorem missing_key_fails_late (title : string) :
  cancel_at W w = None ->
  info W w = Ok title ->
  String.eqb (type o) "Audio" = false ->
  api_key o = EmptyString ->
  outcome (_download_video W w o (downloaded_video_path o title) 1) = Ok tt ->
  start_error (whisper W w) = None ->
  returncode (whisper W w) = 0%Z ->
  results (run_trace W w o) = [Finished false missing_key EmptyString] /\
  calls (run_trace W w o) = [] /\
  stage_labels (run_trace W w o) = firstn 4 video_labels.
Proof.
  intros never Hinfo Hvideo Hkey Hdl Hstart Hrc.
  remember (run_trace W w o) as tr eqn:Htr.
  unfold run_trace in Htr. rewrite run_unfold, run_body_unfold in Htr.
  cbv zeta in Htr. revert Htr.
  rewrite Hinfo, Hvideo, (flag_never W w never).
  rewrite process_video_stages. unfold video_stages. cbn [stages_then].
  rewrite checked_unfold.
  pose proof (quiet_download_video W w o (downloaded_video_path o title) 1) as Hq1.
  pose proof (only_download_video (downloaded_video_path o title) 1) as Ho1.
  pose proof (download_video_label W w o (downloaded_video_path o title) 1) as Hl1.
  unfold events in *.
  destruct (_download_video W w o _ 1) as [[[u|e] n1] ev1];
    unfold outcome in Hdl; cbn [fst snd] in *; [|discriminate].
  rewrite (flag_never W w never), checked_unfold.
  pose proof (extract_returns (downloaded_video_path o title) (srt_path o title)
                (S n1) never Hstart Hrc) as Hex.
  pose proof (quiet_extract W w o (downloaded_video_path o title)
                (srt_path o title) (S n1)) as Hq2.
  pose proof (only_extract (downloaded_video_path o title) (srt_path o title)
                (S n1)) as Ho2.
  pose proof (extract_label W w o (downloaded_video_path o title)
                (srt_path o title) (S n1)) as Hl2.
  unfold events in *.
  destruct (_extract_subtitles W w o _ _ (S n1)) as [[[u2|e] n2] ev2];
    unfold outcome in Hex; cbn [fst snd] in *; [|discriminate].
  rewrite (flag_never W w never), checked_unfold.
  unfold _translate_subtitles. rewrite Hkey.
  cbn [PyStr.is_empty]. unfold bind, emit, raise. cbn [snd fst app].
  intros ->.
  apply (calls_none _ ev1) in Ho1; [|now intros []].
  apply (calls_none _ ev2) in Ho2; [|now intros []].
  split; [|split].
  - unfold results in *. cbn [filter is_finished].
    rewrite !filter_app, Hq1, Hq2. reflexivity.
  - cbn [calls]. rewrite !calls_app, Ho1, Ho2. reflexivity.
  - cbn [stage_labels]. rewrite !stage_labels_app, Hl1, Hl2. reflexivity.
Qed.

End FailureFacts.

(** ** Exceptions of a run *)

Section ReportFacts.
Import Pipeline.
Local Open Scope list_scope.

Variable W : Type.
Variable w : world W.
Variable o : options.

(** X6.  No exception leaves [run]: whatever its body raises is logged
    and reported as the failure that ends the run, with the text of the
    exception as its message and an empty path.  A failure is reported
    for no other reason. *)
Theorem failures_carry_the_exception :
  (forall n, outcome (run W w o n) = Ok tt) /\
  (forall e, outcome (run_body W w o 0) = Raise e ->
     exists pre,
       run_trace W w o = pre ++ failure_events e /\ results pre = []) /\
  (forall msg path,
      In (Finished false msg path) (run_trace W w o) ->
      path = EmptyString /\
      exists e, outcome (run_body W w o 0) = Raise e /\ msg = exn_str e).
Proof.
  split; [|split].
  - intros n. rewrite run_unfold.
    now destruct (run_body W w o n) as [[[[]|e] n1] ev].
  - intros e. unfold run_trace. rewrite run_unfold.
    pose proof (run_body_at_most_one W w o 0) as H.
    destruct (run_body W w o 0) as [[[a|e'] n1] ev]; unfold outcome;
      cbn [fst snd]; [discriminate|].
    intros Heq. injection Heq as ->. now exists ev.
  - intros msg path. unfold run_trace. rewrite run_unfold.
    pose proof (run_body_at_most_one W w o 0) as H.
    destruct (run_body W w o 0) as [[[a|e] n1] ev]; unfold outcome;
      cbn [fst snd]; intros Hin.
    + exfalso. destruct H as [H|(pre & m & p & -> & Hpre)].
      * now apply finished_not_in in Hin.
      * apply in_app_or in Hin as [Hin|[Hin|[]]]; [|discriminate].
        now apply finished_not_in in Hin.
    + apply in_app_or in Hin as [Hin|[Hin|[Hin|[]]]];
        [now apply finished_not_in in Hin|discriminate|].
      injection Hin as <- <-. split; [reflexivity|]. now exists e.
Qed.

(** The translation stage, when the file can be read and written. *)
Lemma translation_stage_returns (s1 s2 : string) (lines : list string)
      (n : nat) :
  PyStr.is_empty (api_key o) = false ->
  srt_lines W w = Ok lines ->
  srt_write_error W w = None ->
  outcome (_translate_subtitles W w o s1 s2 n) = Ok tt /\
  _translate_subtitles W w o s1 s2 n
  = (Ok tt, n,
     [StageChanged "Step 3/4: Translating Subtitles (DeepSeek API)";
      Progress 0 "Sending text to translation API..."]
     ++ Srt.trace (Srt.translate_lines (translate_text_deepseek W w) lines
                                       (translation_service W w))
     ++ [Log "[INFO] Subtitles translated successfully."]).
Proof.
  intros Hkey Hlines Hwrite.
  unfold _translate_subtitles. rewrite Hkey.
  unfold Srt.translate_srt_file. rewrite Hlines, Hwrite.
  unfold bind, emit, emit_all, lift, outcome. cbn [fst snd app].
  auto.
Qed.

(** X7.  The translation stage runs to its end whatever the flag and
    whatever the service does: it never reads the cancellation flag,
    and with an API key, a caption file that can be read and a
    translated file that can be written it returns after the line that
    reports success, also when calls of the service raised. *)
Theorem translation_runs_to_end (s1 s2 : string) (lines : list string)
        (n : nat) :
  PyStr.is_empty (api_key o) = false ->
  srt_lines W w = Ok lines ->
  srt_write_error W w = None ->
  let stage := _translate_subtitles W w o s1 s2 n in
  let st := Srt.translate_lines (translate_text_deepseek W w) lines
                                (translation_service W w) in
  outcome stage = Ok tt /\ reads stage = n /\
  events stage
  = [StageChanged "Step 3/4: Translating Subtitles (DeepSeek API)";
     Progress 0 "Sending text to translation API..."]
    ++ Srt.trace st
    ++ [Log "[INFO] Subtitles translated successfully."].
Proof.
  intros Hkey Hlines Hwrite stage st. subst stage st.
  destruct (translation_stage_returns s1 s2 lines n Hkey Hlines Hwrite)
    as [_ ->].
  repeat split.
Qed.

End ReportFacts.

(** ** A run in which nothing fails *)

Section SuccessFacts.
Import Pipeline.
Local Open Scope list_scope.

Variable W : Type.
Variable w : world W.
Variable o : options.

Hypothesis never : cancel_at W w = None.

Lemma checked_never (stage rest : M unit) (n : nat) :
  checked w stage rest n =
  match stage n with
  | (Ok _, n1, ev1) =>
      match rest (S n1) with
      | (r, n2, ev2) => (r, n2, ev1 ++ ev2)
      end
  | (Raise e, n1, ev1) => (Raise e, n1, ev1)
  end.
Proof.
  rewrite checked_unfold.
  destruct (stage n) as [[[a|e] n1] ev1]; [|reflexivity].
  now rewrite (flag_never W w never).
Qed.

Lemma run_hooks_returns (ds : list Interp.payload) (n : nat) :
  Forall (fun d => exists evs, Interp.progress_hook false d = Ok evs) ds ->
  outcome (run_hooks W w ds n) = Ok tt.
Proof.
  intros H. revert n. induction H as [|d ds [evs Hd] _ IH]; intros n;
    [reflexivity|].
  cbn [run_hooks]. unfold bind at 1, is_cancelled.
  rewrite (flag_never W w never). unfold bind at 1 2, lift, emit_all.
  rewrite Hd. specialize (IH (S n)). unfold outcome in *.
  now destruct (run_hooks W w ds (S n)) as [[r n'] ev].
Qed.

Lemma ydl_download_returns (format outtmpl : string) (n : nat) :
  Forall (fun d => exists evs, Interp.progress_hook false d = Ok evs)
         (payloads (downloader W w)) ->
  download_error (downloader W w) = None ->
  outcome (ydl_download W w format outtmpl n) = Ok tt.
Proof.
  intros Hhooks Herr. unfold ydl_download, bind, emit.
  pose proof (run_hooks_returns _ n Hhooks) as H. unfold outcome in *.
  destruct (run_hooks W w _ n) as [[[u|e] n1] ev1]; cbn [fst] in *;
    [|discriminate].
  now rewrite Herr.
Qed.

Lemma read_encoder_returns (total : PyFloat.float) (lines : list string)
      (n : nat) :
  Forall (fun l => exists evs, Interp.encode_progress l total = Ok evs) lines ->
  outcome (read_encoder W w total lines n) = Ok false.
Proof.
  intros H. revert n. induction H as [|l lines [evs Hl] _ IH]; intros n;
    [reflexivity|].
  cbn [read_encoder]. unfold bind at 1, is_cancelled.
  rewrite (flag_never W w never). unfold bind at 1 2, emit at 1, lift.
  rewrite Hl. unfold bind, emit_all. specialize (IH (S n)).
  unfold outcome in *.
  now destruct (read_encoder W w total lines (S n)) as [[r n'] ev].
Qed.

Lemma synthesize_returns (v s out : string) (total : PyFloat.float)
      (n : nat) :
  (exists b, get_video_bitrate W w = Ok b) ->
  get_video_duration W w = Ok total ->
  start_error (ffmpeg W w) = None ->
  Forall (fun l => exists evs, Interp.encode_progress l total = Ok evs)
         (output (ffmpeg W w)) ->
  returncode (ffmpeg W w) = 0%Z ->
  outcome (_synthesize_video W w v s out n) = Ok tt.
Proof.
  intros [b Hb] Hd Hstart Hlines Hrc. unfold _synthesize_video.
  unfold bind at 1 2, emit at 1, lift. rewrite Hb.
  rewrite encode_unfold, Hd, Hstart.
  assert (He : outcome (encoding W w total n) = Ok tt).
  { unfold encoding, bind, emit, ret.
    pose proof (read_encoder_returns _ _ n Hlines) as H. unfold outcome in *.
    destruct (read_encoder W w _ _ n) as [[[[|]|e] n1] ev1]; cbn [fst] in *;
      try discriminate.
    now rewrite Hrc. }
  unfold outcome in *.
  now destruct (encoding W w total n) as [[[u|e] n1] ev1].
Qed.

(** X8.  A run succeeds when nothing fails: when it is never cancelled,
    the metadata is fetched, every call of the progress hook goes
    through and the download raises no error, and, for a video, Whisper
    is started and ends with exit code 0, an API key is set, the
    caption file can be read and the translated one written, the probes
    of the bit rate and of the duration do not raise, FFmpeg is
    started, every line of its output can be read for progress and it
    ends with exit code 0, then the single terminal result of the run is
    the success of its branch, with the path of its final file. *)
Theorem run_succeeds_when_stages_do (title : string) :
  info W w = Ok title ->
  Forall (fun d => exists evs, Interp.progress_hook false d = Ok evs)
         (payloads (downloader W w)) ->
  download_error (downloader W w) = None ->
  (String.eqb (type o) "Audio" = false ->
   start_error (whisper W w) = None /\
   returncode (whisper W w) = 0%Z /\
   PyStr.is_empty (api_key o) = false /\
   (exists lines, srt_lines W w = Ok lines) /\
   srt_write_error W w = None /\
   (exists b, get_video_bitrate W w = Ok b) /\
   (exists total,
       get_video_duration W w = Ok total /\
       Forall (fun l => exists evs,
                   Interp.encode_progress l total = Ok evs)
              (output (ffmpeg W w))) /\
   start_error (ffmpeg W w) = None /\
   returncode (ffmpeg W w) = 0%Z) ->
  results (run_trace W w o)
  = [if String.eqb (type o) "Audio"
     then Finished true "Audio download completed successfully!"
                   (audio_final_path o title)
     else video_done o title].
Proof.
  intros Hinfo Hhooks Herr Hvideo.
  unfold run_trace. rewrite run_unfold, run_body_unfold. cbv zeta.
  rewrite Hinfo, (flag_never W w never).
  destruct (String.eqb (type o) "Audio").
  - rewrite download_audio_unfold. cbv zeta.
    pose proof (ydl_download_returns "bestaudio/best"
                  (path_join (output_dir o) "%(title)s.%(ext)s") 1
                  Hhooks Herr) as Hdl.
    pose proof (quiet_ydl_download W w "bestaudio/best"
                  (path_join (output_dir o) "%(title)s.%(ext)s") 1) as Hq.
    unfold outcome, events in *.
    destruct (ydl_download W w _ _ 1) as [[[u|e] n1] ev1]; cbn [fst snd] in *;
      [|discriminate].
    rewrite (flag_never W w never).
    unfold results in *. cbn [snd filter is_finished app].
    now rewrite filter_app, Hq.
  - destruct (Hvideo eq_refl)
      as (Hws & Hw & Hkey & [lines Hlines] & Hwrite & Hb
          & (total & Hd & Henc) & Hfs & Hf).
    rewrite process_video_stages. unfold video_stages. cbn [stages_then].
    rewrite checked_never.
    assert (Hdl : outcome (_download_video W w o
                             (downloaded_video_path o title) 1) = Ok tt).
    { unfold _download_video, bind at 1, emit at 1.
      pose proof (ydl_download_returns (quality_map (quality o))
                    (downloaded_video_path o title) 1 Hhooks Herr) as H.
      unfold outcome in *.
      now destruct (ydl_download W w _ _ 1) as [[[u|e] n1] ev1]. }
    pose proof (quiet_download_video W w o (downloaded_video_path o title) 1)
      as Hq1.
    unfold outcome, events in *.
    destruct (_download_video W w o _ 1) as [[[u1|e] n1] ev1];
      cbn [fst snd] in *; [|discriminate].
    rewrite checked_never.
    pose proof (extract_returns W w o (downloaded_video_path o title)
                  (srt_path o title) (S n1) never Hws Hw) as Hex.
    pose proof (quiet_extract W w o (downloaded_video_path o title)
                  (srt_path o title) (S n1)) as Hq2.
    unfold outcome, events in *.
    destruct (_extract_subtitles W w o _ _ (S n1)) as [[[u2|e] n2] ev2];
      cbn [fst snd] in *; [|discriminate].
    rewrite checked_never.
    destruct (translation_stage_returns W w o (srt_path o title)
                (translated_srt_path o title) lines (S n2) Hkey Hlines Hwrite)
      as [Htr _].
    pose proof (quiet_translate W w o (srt_path o title)
                  (translated_srt_path o title) (S n2)) as Hq3.
    unfold outcome, events in *.
    destruct (_translate_subtitles W w o _ _ (S n2)) as [[[u3|e] n3] ev3];
      cbn [fst snd] in *; [|discriminate].
    rewrite checked_never.
    pose proof (synthesize_returns (downloaded_video_path o title)
                  (translated_srt_path o title) (final_video_path o title)
                  total (S n3) Hb Hd Hfs Henc Hf) as Hsy.
    pose proof (quiet_synthesize W w (downloaded_video_path o title)
                  (translated_srt_path o title) (final_video_path o title)
                  (S n3)) as Hq4.
    unfold outcome, events in *.
    destruct (_synthesize_video W w _ _ _ (S n3)) as [[[u4|e] n4] ev4];
      cbn [fst snd] in *; [|discriminate].
    unfold emit, results in *. cbn [snd filter is_finished app].
    rewrite !filter_app, Hq1, Hq2, Hq3, Hq4. reflexivity.
Qed.

End SuccessFacts.

(** ** The files of the video branch *)

Section VideoPaths.
Import Pipeline.

Variable o : options.

Lemma all_append (p : ascii -> bool) (a b : string) :
  PyStr.all p (a ++ b) = PyStr.all p a && PyStr.all p b.
Proof.
  induction a as [|c a IH]; [reflexivity|]. cbn [append PyStr.all].
  now rewrite IH, andb_assoc.
Qed.

Lemma remove_clean (p : ascii -> bool) (s : string) :
  PyStr.all (fun c => negb (p c)) s = true -> remove p s = s.
Proof.
  induction s as [|c s IH]; [reflexivity|]. simpl.
  intros H. apply andb_true_iff in H as [Hc Hs].
  apply negb_true_iff in Hc. rewrite Hc. now rewrite IH.
Qed.

Lemma remove_hostile (p : ascii -> bool) (s : string) :
  PyStr.all p s = true -> remove p s = EmptyString.
Proof.
  induction s as [|c s IH]; [reflexivity|]. simpl.
  intros H. apply andb_true_iff in H as [Hc Hs]. rewrite Hc. auto.
Qed.

Lemma path_join_relative (dir name : string) :
  prefix "/" name = false ->
  path_join dir name = dir ++ separator dir ++ name.
Proof.
  intros H. unfold path_join, separator. rewrite H.
  destruct dir as [|c dir]; [reflexivity|]. cbn [PyStr.is_empty].
  now destruct (String.eqb _ "/").
Qed.

Lemma base_name_relative (title suffix : string) (c : ascii) :
  path_hostile c = false ->
  prefix "/" (base_name title ++ String c suffix) = false.
Proof.
  intros Hc. pose proof (base_name_sanitized title) as H.
  destruct (base_name title) as [|a b]; cbn [append].
  - cbn [prefix]. destruct (ascii_dec "/" c) as [<-|Hne]; [discriminate|].
    destruct (ascii_dec "/" c); [contradiction|reflexivity].
  - cbn [PyStr.all] in H. apply andb_true_iff in H as [Ha _].
    apply negb_true_iff in Ha. cbn [prefix].
    destruct (ascii_dec "/" a) as [<-|Hne]; [discriminate|reflexivity].
Qed.

(** X9.  The files of the video branch lie in the output directory: each
    of the four paths is the directory, the separator, the base name and
    the suffix of the file.  The base name is the title without the nine
    characters of the pattern, so it holds no separator; it is the title
    itself when the title has none of them, and empty when the title has
    nothing else. *)
Theorem video_paths_in_output_dir (title : string) :
  let base := base_name title in
  let file suffix := output_dir o ++ separator (output_dir o) ++ base ++ suffix in
  (downloaded_video_path o title = file ".mp4" /\
   srt_path o title = file ".srt" /\
   translated_srt_path o title = file "_zh.srt" /\
   final_video_path o title = file "_translated.mp4") /\
  base = remove path_hostile title /\
  PyStr.all (fun c => negb (path_hostile c)) base = true /\
  (PyStr.all (fun c => negb (path_hostile c)) title = true -> base = title) /\
  (PyStr.all path_hostile title = true -> base = EmptyString).
Proof.
  intros base file. subst base file. split; [|split; [|split; [|split]]].
  - unfold downloaded_video_path, srt_path, translated_srt_path, final_video_path.
    repeat split; apply path_join_relative, base_name_relative; reflexivity.
  - apply re_delete_class.
  - apply base_name_sanitized.
  - intros H. unfold base_name, sanitize. rewrite re_delete_class.
    now apply remove_clean.
  - intros H. unfold base_name, sanitize. rewrite re_delete_class.
    now apply remove_hostile.
Qed.

End VideoPaths.

(** ** The bit rate handed to the encoder *)

Section BitrateFacts.
Import Pipeline.
Local Open Scope list_scope.

Variable W : Type.
Variable w : world W.

Lemma span_spec (p : ascii -> bool) (s : string) :
  s = (fst (PyFloat.span p s) ++ snd (PyFloat.span p s))%string /\
  PyStr.all p (fst (PyFloat.span p s)) = true.
Proof.
  induction s as [|c s [IH1 IH2]]; simpl; [auto|].
  destruct (p c) eqn:Hc; [|auto].
  destruct (PyFloat.span p s) as [a b]. cbn [fst snd] in *.
  split; [simpl; now rewrite <- IH1|]. simpl. now rewrite Hc.
Qed.

(** What [int] converts is a string of decimal digits that is not
    longer than the limit allows. *)
Lemma int_of_digits_Ok (s : string) (n : Z) :
  int_of_digits W w s = Ok n ->
  PyStr.all PyStr.isdecimal s = true /\ n = PyFloat.digits s /\
  (640 < length s -> 0 < int_max_str_digits W w ->
   length s <= int_max_str_digits W w).
Proof.
  unfold int_of_digits.
  destruct (span_spec PyStr.isdecimal s) as [Hs Hrun].
  destruct (PyFloat.span PyStr.isdecimal s) as [run rest]. cbn [fst snd] in *.
  destruct ((640 <? length run)%nat && (0 <? int_max_str_digits W w)%nat
            && (int_max_str_digits W w <? length run)%nat) eqn:Hlimit;
    [discriminate|].
  destruct rest as [|c rest]; [|discriminate]. cbn [PyStr.is_empty].
  rewrite append_nil_r in Hs. subst run.
  intros H. injection H as <-. repeat split; [exact Hrun|].
  intros H1 H2.
  apply Nat.ltb_lt in H1, H2. rewrite H1, H2 in Hlimit. cbn [andb] in Hlimit.
  apply Nat.ltb_ge in Hlimit. exact Hlimit.
Qed.

Lemma probe_bitrate_usable (p : probe) (b : string) :
  probe_bitrate W w p = Ok (Some b) ->
  (exists stdout, p = ProbeOutput stdout /\ b = PyStr.strip stdout) /\
  PyStr.is_empty b = false /\
  PyStr.all PyStr.isdecimal b = true /\
  (0 < PyFloat.digits b)%Z /\
  (640 < length b -> 0 < int_max_str_digits W w ->
   length b <= int_max_str_digits W w).
Proof.
  unfold probe_bitrate, usable_bitrate.
  destruct p as [|e|stdout]; [discriminate..|].
  destruct (PyStr.is_empty (PyStr.strip stdout)) eqn:Ee; [discriminate|].
  cbn [negb andb].
  destruct (PyStr.all PyStr.isdigit (PyStr.strip stdout)); [|discriminate].
  destruct (int_of_digits W w (PyStr.strip stdout)) as [k|e] eqn:Ek;
    [|discriminate].
  apply int_of_digits_Ok in Ek as (Hd & -> & Hlen).
  destruct (0 <? PyFloat.digits (PyStr.strip stdout))%Z eqn:Ep; [|discriminate].
  intros H. injection H as <-. apply Z.ltb_lt in Ep.
  repeat split; try assumption. now exists stdout.
Qed.

(** [_synthesize_video], when a bit rate was found. *)
Lemma synthesize_with_bitrate (v s out b : string) (n : nat) :
  get_video_bitrate W w = Ok (Some b) ->
  _synthesize_video W w v s out n =
  match encode W w v s out (Some b) n with
  | (r, n', ev) =>
      (r, n', StageChanged "Step 4/4: Encoding Final Video (FFmpeg)" :: ev)
  end.
Proof.
  intros Hb. unfold _synthesize_video, bind, emit, lift. rewrite Hb.
  now destruct (encode W w v s out (Some b) n) as [[[a|e] n'] ev].
Qed.

(** X10.  A bit rate that [get_video_bitrate] returns is the stripped
    output of one of the two probes, that of the video stream when it is
    usable and that of the container otherwise; it is a string of
    decimal digits that is not empty, writes a positive number and is
    not longer than [int] converts.  The stage then logs it and the
    command with [-b:v] and this value, and without [-crf]; when the
    probe of the duration returns and the encoder can be started, it is
    started with that command, once; when one of the two raises, the
    stage raises the same after the line of the command, with no
    process started. *)
Theorem bitrate_is_positive_number (b : string) (v s out : string) (n : nat) :
  get_video_bitrate W w = Ok (Some b) ->
  let stage := _synthesize_video W w v s out n in
  let cmd := ["ffmpeg"; "-i"; v; "-vf"; subtitles_filter W w s;
              "-c:v"; "libx264"; "-preset"; "medium"; "-b:v"; b;
              "-c:a"; "copy"; "-y"; out] in
  let head := [StageChanged "Step 4/4: Encoding Final Video (FFmpeg)";
               Log ("[INFO] Detected original bitrate: " ++ b
                    ++ " bps. Using it for encoding.")%string;
               Log ("[CMD] " ++ PyStr.join " " cmd)%string] in
  (exists stdout,
      b = PyStr.strip stdout /\
      (stream_bitrate W w = ProbeOutput stdout \/
       (probe_bitrate W w (stream_bitrate W w) = Ok None /\
        format_bitrate W w = ProbeOutput stdout))) /\
  PyStr.is_empty b = false /\
  PyStr.all PyStr.isdecimal b = true /\
  (0 < PyFloat.digits b)%Z /\
  (640 < length b -> 0 < int_max_str_digits W w ->
   length b <= int_max_str_digits W w) /\
  (forall total,
      get_video_duration W w = Ok total ->
      start_error (ffmpeg W w) = None ->
      events stage = head ++ Spawn cmd :: events (encoding W w total n) /\
      Forall (fun e => is_spawn e = false) (events (encoding W w total n))) /\
  (forall e, get_video_duration W w = Raise e -> stage = (Raise e, n, head)) /\
  (forall total e,
      get_video_duration W w = Ok total ->
      start_error (ffmpeg W w) = Some e -> stage = (Raise e, n, head)).
Proof.
  intros Hb stage cmd head.
  assert (Hprobe :
    (exists stdout,
        b = PyStr.strip stdout /\
        (stream_bitrate W w = ProbeOutput stdout \/
         (probe_bitrate W w (stream_bitrate W w) = Ok None /\
          format_bitrate W w = ProbeOutput stdout))) /\
    PyStr.is_empty b = false /\
    PyStr.all PyStr.isdecimal b = true /\
    (0 < PyFloat.digits b)%Z /\
    (640 < length b -> 0 < int_max_str_digits W w ->
     length b <= int_max_str_digits W w)).
  { unfold get_video_bitrate in Hb.
    destruct (probe_bitrate W w (stream_bitrate W w)) as [[b1|]|e] eqn:E1;
      [|apply probe_bitrate_usable in Hb|discriminate].
    - injection Hb as ->. apply probe_bitrate_usable in E1.
      destruct E1 as ((stdout & Hs & ->) & H). split; [|exact H].
      exists stdout. auto.
    - destruct Hb as ((stdout & Hs & ->) & H). split; [|exact H].
      exists stdout. auto. }
  destruct Hprobe as (H1 & H2 & H3 & H4 & H5).
  split; [exact H1|]. split; [exact H2|]. split; [exact H3|].
  split; [exact H4|]. split; [exact H5|].
  subst stage. rewrite (synthesize_with_bitrate v s out b n Hb), encode_unfold.
  split; [|split].
  - intros total Hd Hstart. rewrite Hd, Hstart.
    pose proof (spawn_free_encoding W w total n) as Hfree.
    destruct (encoding W w total n) as [[r n'] ev].
    split; [reflexivity|exact Hfree].
  - intros e Hd. now rewrite Hd.
  - intros total e Hd Hstart. now rewrite Hd, Hstart.
Qed.

End BitrateFacts.

(** ** The path in the filter of the encoder *)

Section FilterFacts.
Import Pipeline.

Variable W : Type.
Variable w : world W.

Lemma replace_char_clean (old : ascii) (new s : string) :
  PyStr.all (fun c => negb (Ascii.eqb c old)) new = true ->
  PyStr.all (fun c => negb (Ascii.eqb c old)) (PyStr.replace_char old new s)
  = true.
Proof.
  intros Hnew. induction s as [|c s IH]; [reflexivity|].
  cbn [PyStr.replace_char]. destruct (Ascii.eqb c old) eqn:E.
  - now rewrite all_append, Hnew, IH.
  - cbn [PyStr.all]. now rewrite E, IH.
Qed.

Lemma replace_char_once_first (old : ascii) (new a b : string) :
  PyStr.all (fun c => negb (Ascii.eqb c old)) a = true ->
  PyStr.replace_char_once old new (a ++ String old b) = a ++ new ++ b.
Proof.
  intros Ha. induction a as [|c a IH]; cbn [append PyStr.replace_char_once].
  - now rewrite Ascii.eqb_refl.
  - cbn [PyStr.all] in Ha. apply andb_true_iff in Ha as [Hc Ha].
    apply negb_true_iff in Hc. now rewrite Hc, IH.
Qed.

Lemma replace_char_once_none (old : ascii) (new s : string) :
  PyStr.all (fun c => negb (Ascii.eqb c old)) s = true ->
  PyStr.replace_char_once old new s = s.
Proof.
  induction s as [|c s IH]; [reflexivity|]. cbn [PyStr.all].
  intros H. apply andb_true_iff in H as [Hc Hs]. apply negb_true_iff in Hc.
  cbn [PyStr.replace_char_once]. now rewrite Hc, IH.
Qed.

(** X11.  The path in the [subtitles] filter is the absolute path of the
    caption file with every backslash turned into a slash, between
    single quotes.  Off Windows it holds no backslash at all; on
    Windows its first colon, and only that one, is escaped by a
    backslash. *)
Theorem subtitles_filter_path (srt : string) :
  let slashed := PyStr.replace_char PyStr.backslash "/" (abspath W w srt) in
  PyStr.all (fun c => negb (Ascii.eqb c PyStr.backslash)) slashed = true /\
  (win32 W w = false ->
   subtitles_filter W w srt = "subtitles='" ++ slashed ++ "'") /\
  (win32 W w = true ->
   (forall a b,
       slashed = a ++ String ":" b ->
       PyStr.all (fun c => negb (Ascii.eqb c ":")) a = true ->
       subtitles_filter W w srt
       = "subtitles='" ++ a ++ String PyStr.backslash (String ":" b) ++ "'") /\
   (PyStr.all (fun c => negb (Ascii.eqb c ":")) slashed = true ->
    subtitles_filter W w srt = "subtitles='" ++ slashed ++ "'")).
Proof.
  intros slashed. subst slashed. unfold subtitles_filter.
  split; [now apply replace_char_clean|]. split.
  - now intros ->.
  - intros ->. split.
    + intros a b -> Ha. rewrite replace_char_once_first by exact Ha.
      now rewrite !append_assoc.
    + intros H. now rewrite replace_char_once_none.
Qed.

End FilterFacts.

(** ** The duration of the video *)

Section DurationFacts.
Import Pipeline Probe.
Local Open Scope list_scope.

Variable W : Type.
Variable w : world W.

Lemma encode_progress_idle (l : string) (total : PyFloat.float) :
  PyFloat.gt0 total = false -> Interp.encode_progress l total = Ok [].
Proof.
  intros H. unfold Interp.encode_progress. rewrite H.
  destruct (PyStr.contains "time=" l); [|reflexivity].
  now destruct (Re.re_search Interp.time_pattern l).
Qed.

Lemma read_encoder_idle (total : PyFloat.float) (lines : list string) (n : nat) :
  PyFloat.gt0 total = false ->
  filter is_progress (events (read_encoder W w total lines n)) = [].
Proof.
  intros H. revert n. induction lines as [|l lines IH]; intros n; [reflexivity|].
  cbn [read_encoder]. unfold bind at 1, is_cancelled.
  destruct (flag W w n); [reflexivity|].
  unfold bind at 1 2, emit at 1, lift. rewrite (encode_progress_idle l total H).
  unfold bind, emit_all. specialize (IH (S n)).
  now destruct (read_encoder W w total lines (S n)) as [[r n'] ev].
Qed.

Lemma encoding_idle (total : PyFloat.float) (n : nat) :
  PyFloat.gt0 total = false ->
  filter is_progress (events (encoding W w total n)) = [].
Proof.
  intros H. unfold encoding, bind, emit, ret, raise, is_cancelled.
  pose proof (read_encoder_idle total (output (ffmpeg W w)) n H) as Hr.
  unfold events in *.
  destruct (read_encoder W w total (output (ffmpeg W w)) n)
    as [[[[|]|e] n1] ev1]; cbn [snd] in *.
  - now rewrite app_nil_r.
  - destruct (returncode (ffmpeg W w) =? 0)%Z; [|destruct (flag W w n1)];
      cbn [snd]; now rewrite filter_app, Hr.
  - exact Hr.
Qed.

(** X12.  [get_video_duration] gives 0 when ffprobe cannot be run or
    fails, and when its output is no JSON; with a duration that is not
    above zero the loop over the output of the encoder emits no
    progress.  An output with a [format] that has a [duration] gives
    [float] of it; an error of that conversion, and the [KeyError] of an
    output without [format] or without [duration], are not among the
    exceptions caught, and are raised to the caller. *)
Theorem duration_fallback_and_escapes
        (loads : string -> option Json.value) (stdout : string) :
  get_video_duration loads ProbeFailed = Ok (PyFloat.of_int 0) /\
  (loads stdout = None ->
   get_video_duration loads (ProbeOutput stdout) = Ok (PyFloat.of_int 0)) /\
  PyFloat.gt0 (PyFloat.of_int 0) = false /\
  (forall total n,
      PyFloat.gt0 total = false ->
      filter is_progress (events (encoding W w total n)) = []) /\
  (forall members format v,
      loads stdout = Some (Json.Obj members) ->
      Json.lookup "format" members = Some (Json.Obj format) ->
      Json.lookup "duration" format = Some v ->
      get_video_duration loads (ProbeOutput stdout) = Json.to_float v) /\
  (forall s,
      PyFloat.of_string s = None ->
      exists msg, Json.to_float (Json.Str s) = Raise (ValueError msg)) /\
  (forall members,
      loads stdout = Some (Json.Obj members) ->
      Json.lookup "format" members = None ->
      get_video_duration loads (ProbeOutput stdout)
      = Raise (Json.KeyError "format")) /\
  (forall members format,
      loads stdout = Some (Json.Obj members) ->
      Json.lookup "format" members = Some (Json.Obj format) ->
      Json.lookup "duration" format = None ->
      get_video_duration loads (ProbeOutput stdout)
      = Raise (Json.KeyError "duration")).
Proof.
  split; [reflexivity|]. split; [|split; [reflexivity|]].
  { intros H. cbn [get_video_duration]. now rewrite H. }
  split; [intros total n; apply encoding_idle|].
  unfold get_video_duration, and_then, Json.item.
  split; [|split; [|split]].
  - intros members format v H1 H2 H3. now rewrite H1, H2, H3.
  - intros s H. cbn [Json.to_float]. rewrite H. eexists. reflexivity.
  - intros members H1 H2. now rewrite H1, H2.
  - intros members format H1 H2 H3. now rewrite H1, H2, H3.
Qed.

End DurationFacts.

(** ** Escape sequences *)

Section EscapeFacts.
Import Re Interp.

Lemma re_match_no_escape (c : ascii) (s : string) :
  Ascii.eqb c PyStr.escape = false ->
  re_match ansi_escape_pattern (String c s) = None.
Proof.
  intros Hc. unfold re_match, match_rest, ansi_escape_pattern, Chr.
  cbn [exec]. rewrite Ascii.eqb_sym, Hc. reflexivity.
Qed.

(** Text before the first escape character is kept. *)
Lemma re_delete_plain (a b : string) :
  no_escape a = true ->
  re_delete ansi_escape_pattern (a ++ b) = a ++ re_delete ansi_escape_pattern b.
Proof.
  unfold re_delete, no_escape. induction a as [|c a IH]; [reflexivity|].
  cbn [PyStr.all append]. intros H. apply andb_true_iff in H as [Hc Ha].
  apply negb_true_iff in Hc. cbn [delete_from].
  rewrite (re_match_no_escape c (a ++ b) Hc). now rewrite IH.
Qed.

Lemma star_cls_run (A : Type) (p : ascii -> bool) (m rest : string)
      (k : string -> option A) (x : A) :
  PyStr.all p m = true -> starts_with p rest = false -> k rest = Some x ->
  star_cls p (m ++ rest) k = Some x.
Proof.
  intros Hm Hr Hk. induction m as [|c m IH].
  - cbn [append]. destruct rest as [|d rest]; cbn [star_cls]; [exact Hk|].
    cbn [starts_with] in Hr. now rewrite Hr.
  - cbn [PyStr.all] in Hm. apply andb_true_iff in Hm as [Hc Hm].
    cbn [append star_cls]. rewrite Hc, (IH Hm). reflexivity.
Qed.

Lemma exec_seq (A : Type) (r1 r2 : regex) (s : string)
      (k : string -> option A) :
  exec (Seq r1 r2) s k = exec r1 s (fun s1 => exec r2 s1 k).
Proof. reflexivity. Qed.

Lemma delete_from_skip (r : regex) (m rest : string) :
  delete_from r (length m) (m ++ rest) = delete_from r 0 rest.
Proof.
  induction m as [|c m IH]; [now destruct rest|]. exact IH.
Qed.

(** A control sequence: the escape character, a bracket, parameters
    and a final character. *)
Lemma match_control_sequence (params rest : string) (final : ascii) :
  PyStr.all (PyStr.in_range 48 63) params = true ->
  PyStr.in_range 64 126 final = true ->
  match_rest ansi_escape_pattern
    (String PyStr.escape (String "[" (params ++ String final rest)))
  = Some rest.
Proof.
  intros Hp Hf. unfold match_rest, ansi_escape_pattern, Chr.
  cbn [exec]. rewrite Ascii.eqb_refl.
  change ((PyStr.in_range 64 90 "[" || PyStr.in_range 92 95 "[")%bool)
    with false. cbv iota.
  change (Ascii.eqb "[" "[") with true. cbv iota.
  assert (Hfinal : PyStr.in_range 48 63 final = false /\
                   PyStr.in_range 32 47 final = false).
  { unfold PyStr.in_range in *. apply andb_true_iff in Hf as [H1 H2].
    apply N.leb_le in H1, H2. split; apply andb_false_iff; right;
      apply N.leb_gt; lia. }
  destruct Hfinal as [Hf1 Hf2].
  change (exec (Seq (Star (Cls (PyStr.in_range 48 63)))
                    (Seq (Star (Cls (PyStr.in_range 32 47)))
                         (Cls (PyStr.in_range 64 126))))
               (params ++ String final rest) (fun r => Some r) = Some rest).
  rewrite exec_seq, exec_star_cls.
  apply star_cls_run; [exact Hp|cbn [starts_with]; exact Hf1|].
  rewrite exec_seq, exec_star_cls. cbn [star_cls]. rewrite Hf2.
  cbn [exec]. now rewrite Hf.
Qed.

Lemma re_delete_control_sequence (params rest : string) (final : ascii) :
  PyStr.all (PyStr.in_range 48 63) params = true ->
  PyStr.in_range 64 126 final = true ->
  re_delete ansi_escape_pattern
    (String PyStr.escape (String "[" (params ++ String final rest)))
  = re_delete ansi_escape_pattern rest.
Proof.
  intros Hp Hf. unfold re_delete.
  pose proof (match_control_sequence params rest final Hp Hf) as Hm.
  assert (Hs : String "[" (params ++ String final rest)
               = String "[" (params ++ String final EmptyString) ++ rest).
  { cbn [append]. f_equal. now rewrite append_assoc. }
  rewrite Hs in *.
  set (m := String "[" (params ++ String final EmptyString)) in *.
  cbn [delete_from]. unfold re_match. rewrite Hm.
  change (String PyStr.escape (m ++ rest)) with (String PyStr.escape m ++ rest).
  rewrite take_matched. apply delete_from_skip.
Qed.

(** X13.  The pattern of the progress hook removes the colour codes of a
    terminal and leaves other text alone: text up to the first escape
    character is kept as it is, and a control sequence (the escape
    character, a bracket, parameters from [0] to [?] and a final
    character from [@] to [~]) is removed whole.  So a speed text
    wrapped in two such sequences is cleaned to the text itself,
    stripped. *)
Theorem escape_sequences_removed :
  (forall a b,
      no_escape a = true ->
      re_delete ansi_escape_pattern (a ++ b)
      = a ++ re_delete ansi_escape_pattern b) /\
  (forall params final rest,
      PyStr.all (PyStr.in_range 48 63) params = true ->
      PyStr.in_range 64 126 final = true ->
      re_delete ansi_escape_pattern
        (escape_sequence (params ++ String final rest))
      = re_delete ansi_escape_pattern rest) /\
  (forall p1 f1 p2 f2 text,
      PyStr.all (PyStr.in_range 48 63) p1 = true ->
      PyStr.in_range 64 126 f1 = true ->
      PyStr.all (PyStr.in_range 48 63) p2 = true ->
      PyStr.in_range 64 126 f2 = true ->
      no_escape text = true ->
      clean_speed (escape_sequence (p1 ++ String f1 text)
                   ++ escape_sequence (p2 ++ String f2 EmptyString))
      = PyStr.strip text).
Proof.
  split; [exact re_delete_plain|]. split.
  - intros params final rest. unfold escape_sequence. cbn [append].
    apply re_delete_control_sequence.
  - intros p1 f1 p2 f2 text H1 H2 H3 H4 Ht. unfold clean_speed, escape_sequence.
    cbn [append]. rewrite !append_assoc. cbn [append].
    rewrite (re_delete_control_sequence p1 _ f1 H1 H2).
    rewrite (re_delete_plain text _ Ht).
    rewrite (re_delete_control_sequence p2 _ f2 H3 H4).
    cbn. now rewrite append_nil_r.
Qed.

End EscapeFacts.

(** ** The percent of a download *)

Section PercentFacts.
Import Interp.

Lemma below_In (n : nat) (k : Z) : (0 <= k < Z.of_nat n)%Z -> In k (below n).
Proof.
  intros H. unfold below. apply in_map_iff. exists (Z.to_nat k).
  split; [lia|]. apply in_seq. lia.
Qed.

(** Every percent from 0.0 to 100.9, by evaluation. *)
Lemma percent_table :
  forallb (fun n => forallb (percent_check n) (below 10)) (below 101) = true.
Proof. vm_compute. reflexivity. Qed.

Lemma percent_of_format (n d : Z) :
  (0 <= n <= 100)%Z -> (0 <= d <= 9)%Z ->
  percent_of (format_percent n d) = Some n.
Proof.
  intros Hn Hd. pose proof percent_table as H.
  rewrite forallb_forall in H. specialize (H n (below_In 101 n ltac:(lia))).
  rewrite forallb_forall in H. specialize (H d (below_In 10 d ltac:(lia))).
  unfold percent_check in H.
  destruct (percent_of (format_percent n d)) as [p|]; [|discriminate].
  apply Z.eqb_eq in H. now subst.
Qed.

(** X14.  For every percent that yt-dlp writes with one decimal, from
    0.0 to 100.0, the hook emits the whole part of the percent: reading
    the text as a float and cutting the fraction off loses nothing
    else.  The detail is the cleaned speed text, [N/A] when the payload
    has none. *)
Theorem download_percent_exact (n d : Z) (speed : option string) :
  (0 <= n <= 100)%Z -> (0 <= d <= 9)%Z ->
  progress_hook false
    {| status := "downloading";
       percent_str := Some (format_percent n d);
       speed_str := speed |}
  = Ok [Progress n (clean_speed (get "N/A" speed))].
Proof.
  intros Hn Hd. pose proof (percent_of_format n d Hn Hd) as H.
  unfold progress_hook, percent_of in *. cbn [status percent_str speed_str get].
  change (String.eqb "downloading" "downloading") with true. cbv iota.
  destruct (PyFloat.of_string (clean_percent (format_percent n d))) as [x|];
    [|discriminate].
  destruct (PyFloat.to_int x) as [p|e]; [|discriminate].
  now injection H as ->.
Qed.

End PercentFacts.

(** ** Index lines *)

Section IndexLines.
Import Re Srt.

Lemma space_is_no_digit (c : ascii) :
  PyStr.isspace c = true -> PyStr.isdecimal c = false.
Proof.
  unfold PyStr.isspace, PyStr.isdecimal, PyStr.in_range.
  intros H. apply andb_false_iff.
  destruct (N.leb_spec 48 (PyStr.code c)) as [Hlo|Hlo]; [|now left].
  destruct (N.leb_spec (PyStr.code c) 57) as [Hhi|Hhi]; [|now right].
  exfalso. repeat (apply orb_true_iff in H as [H|H]).
  - apply andb_true_iff in H as [_ H]. apply N.leb_le in H. lia.
  - apply andb_true_iff in H as [_ H]. apply N.leb_le in H. lia.
  - apply N.eqb_eq in H. lia.
  - apply N.eqb_eq in H. lia.
Qed.

Lemma exec_cls (A : Type) (p : ascii -> bool) (c : ascii) (s : string)
      (k : string -> option A) :
  exec (Cls p) (String c s) k = if p c then k s else None.
Proof. reflexivity. Qed.

Lemma at_end_space (s : string) :
  at_end s = true -> PyStr.all PyStr.isspace s = true.
Proof.
  destruct s as [|c [|d s]]; try discriminate; [reflexivity|].
  cbn [at_end PyStr.all]. intros H. apply N.eqb_eq in H.
  unfold PyStr.isspace, PyStr.in_range. rewrite H. reflexivity.
Qed.

(** X15.  The lines [translate_srt_file] takes for index lines are the
    lines that are one or more decimal digits followed by whitespace
    only, the newline of the line included: a number after blanks, or
    one followed by anything else, is no index line. *)
Theorem index_line_closed_form (l : string) :
  is_index_line l = true <->
  exists ds ws,
    l = ds ++ ws /\ PyStr.is_empty ds = false /\
    PyStr.all PyStr.isdecimal ds = true /\ PyStr.all PyStr.isspace ws = true.
Proof.
  unfold is_index_line, match_rest, index_pattern. split.
  - destruct (exec _ l _) as [r|] eqn:E; [intros _|discriminate].
    apply exec_sound in E as (rest & M & _).
    apply matches_Seq_inv in M as (s1 & M1 & M2).
    unfold Plus in M1. apply matches_Seq_inv in M1 as (s0 & Mc & Ms).
    apply matches_Cls_inv in Mc as (c & Hc & ->).
    apply matches_star_cls in Ms as (m & -> & Hm).
    apply matches_Seq_inv in M2 as (s2 & Mw & Me).
    apply matches_star_cls in Mw as (ws & -> & Hws).
    inversion Me as [| | | | | | |s3 Hend]; subst.
    exists (String c m), (ws ++ rest). repeat split.
    + cbn [PyStr.all]. now rewrite Hc, Hm.
    + now rewrite all_append, Hws, at_end_space.
  - intros (ds & ws & -> & Hne & Hds & Hws).
    destruct ds as [|c m]; [discriminate|]. cbn [PyStr.all] in Hds.
    apply andb_true_iff in Hds as [Hc Hm].
    assert (Hk : exec (Seq (Star (Cls PyStr.isspace)) Eol) ws
                      (fun rest => Some rest) = Some EmptyString).
    { rewrite exec_seq, exec_star_cls. rewrite <- (append_nil_r ws) at 1.
      now apply star_cls_run. }
    unfold Plus. rewrite !exec_seq. cbn [append]. rewrite exec_cls, Hc.
    rewrite exec_star_cls.
    rewrite (star_cls_run _ PyStr.isdecimal m ws _ EmptyString Hm);
      [reflexivity| |exact Hk].
    destruct ws as [|d ws]; [reflexivity|]. cbn [starts_with].
    cbn [PyStr.all] in Hws. apply andb_true_iff in Hws as [Hd _].
    now apply space_is_no_digit.
Qed.

End IndexLines.

(** ** Calls of the translation service *)

Section SrtCalls.
Import Srt.
Local Open Scope list_scope.

Variable W : Type.
Variable tr : string -> W -> res string * W.

Lemma lstrip_solid (s : string) :
  PyStr.lstrip s = EmptyString \/ solid (PyStr.lstrip s).
Proof.
  induction s as [|c s IH]; [now left|]. cbn [PyStr.lstrip].
  destruct (PyStr.isspace c) eqn:E; [exact IH|]. right. now exists c, s.
Qed.

Lemma rstrip_solid (s : string) : solid s -> solid (PyStr.rstrip s).
Proof.
  intros (c & s' & -> & Hc). cbn [PyStr.rstrip]. rewrite Hc, andb_false_r.
  now exists c, (PyStr.rstrip s').
Qed.

Lemma strip_solid (s : string) :
  PyStr.is_empty (PyStr.strip s) = false -> solid (PyStr.strip s).
Proof.
  unfold PyStr.strip. destruct (lstrip_solid s) as [H|H].
  - rewrite H. discriminate.
  - intros _. now apply rstrip_solid.
Qed.

Lemma strip_of_solid (s : string) : solid s -> solid (PyStr.strip s).
Proof.
  intros H. unfold PyStr.strip. apply rstrip_solid.
  destruct H as (c & s' & -> & Hc). cbn [PyStr.lstrip]. rewrite Hc.
  now exists c, s'.
Qed.

Lemma join_solid (x : string) (xs : list string) :
  solid x -> solid (PyStr.join " " (x :: xs)).
Proof.
  intros (c & s' & -> & Hc). cbn [PyStr.join].
  destruct xs; [now exists c, s'|]. now eexists c, _.
Qed.

Lemma solid_nonempty (s : string) : solid s -> s <> EmptyString.
Proof. now intros (c & s' & -> & _). Qed.

Lemma calls_asked (t : list event) (text : string) (rest : list event) :
  (forall e, In e rest -> is_call e = false) ->
  calls ((t ++ [Log ("[INFO] Translating: " ++ text)%string;
                TranslateCall text]) ++ rest)
  = calls t ++ [text].
Proof.
  intros Hrest. rewrite !calls_app. cbn [calls].
  replace (calls rest) with (@nil string); [now rewrite app_nil_r|].
  induction rest as [|e rest IH]; [reflexivity|].
  pose proof (Hrest e (or_introl eq_refl)) as He.
  destruct e; try discriminate; cbn [calls]; apply IH; intros e' He';
    apply Hrest; now right.
Qed.

(** The calls after the buffered text was handed to the service. *)
Lemma translate_buffer_calls (st : loop_state W) :
  calls (trace (translate_buffer tr st))
  = calls (trace st) ++ [PyStr.strip (PyStr.join " " (text_buffer st))].
Proof.
  unfold translate_buffer.
  destruct (tr _ (service st)) as [[t|e] w']; cbn [trace].
  - rewrite <- (app_nil_r (trace st ++ _)). now apply calls_asked.
  - apply calls_asked. intros e' [<-|[]]. reflexivity.
Qed.

Lemma buffer_text_solid (st : loop_state W) :
  text_buffer st <> [] -> Forall solid (text_buffer st) ->
  PyStr.strip (PyStr.join " " (text_buffer st)) <> EmptyString.
Proof.
  intros Hne Hs. destruct (text_buffer st) as [|x xs]; [congruence|].
  inversion Hs; subst. now apply solid_nonempty, strip_of_solid, join_solid.
Qed.

Lemma step_call_invariant (blanks texts : nat) (st : loop_state W) (l : string) :
  call_invariant blanks texts st ->
  call_invariant (blanks + if is_blank_line l then 1 else 0)
                 (texts + if is_text_line l then 1 else 0)
                 (step tr st l).
Proof.
  intros (Hb & Ht & Hs & Hc). unfold step, is_text_line.
  destruct (is_index_line l); [repeat split; cbn; try assumption; lia|].
  destruct (is_timing_line l); [repeat split; cbn; try assumption; lia|].
  destruct (is_blank_line l) eqn:Eb; cbn [negb andb].
  - destruct (text_buffer st) as [|x xs] eqn:E.
    + unfold call_invariant. cbn [append_line trace text_buffer].
      rewrite E. repeat split; cbn; try assumption; lia.
    + unfold call_invariant.
      cbn [append_line clear_buffer trace text_buffer].
      rewrite translate_buffer_calls, length_app. cbn [List.length] in *.
      repeat split; try lia; [constructor|].
      apply Forall_app. split; [assumption|]. constructor; [|constructor].
      apply buffer_text_solid; rewrite E; [discriminate|assumption].
  - unfold call_invariant. cbn [trace text_buffer].
    rewrite length_app. cbn [List.length].
    repeat split; try assumption; try lia.
    apply Forall_app. split; [assumption|]. constructor; [|constructor].
    apply strip_solid. exact Eb.
Qed.

Lemma run_loop_call_invariant (lines : list string) (blanks texts : nat)
      (st : loop_state W) :
  call_invariant blanks texts st ->
  call_invariant (blanks + List.length (filter is_blank_line lines))
                 (texts + List.length (filter is_text_line lines))
                 (run_loop tr lines st).
Proof.
  revert blanks texts st.
  induction lines as [|l lines IH]; intros blanks texts st H.
  - cbn. now rewrite !Nat.add_0_r.
  - rewrite run_loop_cons. cbn [filter].
    apply (step_call_invariant _ _ _ l), IH in H.
    destruct (is_blank_line l), (is_text_line l); cbn [List.length];
      rewrite <- ?Nat.add_assoc, ?Nat.add_0_r in *; cbn [Nat.add] in *;
      exact H.
Qed.

(** X16.  The translation service is called at most once for every blank
    line of the file and once at its end, and no more often than the
    file has lines of text; it is never called on an empty text. *)
Theorem translator_calls_bounded (lines : list string) (w : W) :
  let asked := calls (snd (translate_srt_file tr (Ok lines) None w)) in
  List.length asked <= List.length (filter is_blank_line lines) + 1 /\
  List.length asked <= List.length (filter is_text_line lines) /\
  Forall (fun t => t <> EmptyString) asked.
Proof.
  cbn [translate_srt_file snd]. unfold translate_lines.
  assert (H0 : call_invariant 0 0 (init w)).
  { repeat split; cbn; auto. }
  apply (run_loop_call_invariant lines) in H0. cbn [Nat.add] in H0.
  destruct H0 as (Hb & Ht & Hs & Hc). unfold flush.
  destruct (text_buffer (run_loop tr lines (init w))) as [|x xs] eqn:E.
  - repeat split; [lia|cbn in Ht; lia|assumption].
  - rewrite translate_buffer_calls, length_app. cbn [List.length] in *.
    repeat split; try lia.
    apply Forall_app. split; [assumption|]. constructor; [|constructor].
    apply buffer_text_solid; rewrite E; [discriminate|assumption].
Qed.

(** ** The lines written *)

Lemma translate_buffer_length (st : loop_state W) :
  text_buffer st <> [] ->
  let st' := translate_buffer tr st in
  1 <= List.length (translated_lines st') - List.length (translated_lines st)
    <= List.length (text_buffer st) /\
  List.length (translated_lines st) <= List.length (translated_lines st') /\
  ((exists e w', tr (PyStr.strip (PyStr.join " " (text_buffer st))) (service st)
                 = (Raise e, w')) ->
   List.length (translated_lines st')
   = List.length (translated_lines st) + List.length (text_buffer st)).
Proof.
  intros Hne. unfold translate_buffer.
  assert (1 <= List.length (text_buffer st)).
  { destruct (text_buffer st); [congruence|cbn; lia]. }
  destruct (tr _ (service st)) as [[t|e] w']; cbn [translated_lines];
    rewrite length_app, ?length_map; cbn [List.length].
  - repeat split; try lia. intros (e & w2 & Heq). discriminate.
  - repeat split; lia.
Qed.

Variable exact : bool.
Hypothesis down :
  exact = true -> forall t w1, exists e w2, tr t w1 = (Raise e, w2).

Lemma step_length_invariant (read : nat) (st : loop_state W) (l : string) :
  length_invariant exact read st ->
  length_invariant exact (S read) (step tr st l).
Proof.
  unfold length_invariant, step. intros H.
  destruct (is_index_line l);
    [cbn [append_line translated_lines text_buffer]; rewrite length_app;
     cbn [List.length]; destruct exact; lia|].
  destruct (is_timing_line l);
    [cbn [append_line translated_lines text_buffer]; rewrite length_app;
     cbn [List.length]; destruct exact; lia|].
  destruct (is_blank_line l).
  - destruct (text_buffer st) as [|x xs] eqn:E.
    + cbn [append_line translated_lines text_buffer]. rewrite E, length_app.
      cbn [List.length] in *. destruct exact; lia.
    + cbn [append_line clear_buffer translated_lines text_buffer].
      rewrite length_app. cbn [List.length].
      destruct (translate_buffer_length st) as (H1 & H2 & H3);
        [rewrite E; discriminate|].
      cbv zeta in *. rewrite E in *. cbn [List.length] in *.
      destruct exact eqn:Ex; [|lia].
      rewrite H3 by apply (down eq_refl). lia.
  - cbn [translated_lines text_buffer]. rewrite length_app.
    cbn [List.length]. destruct exact; lia.
Qed.

Lemma run_loop_length_invariant (lines : list string) (read : nat)
      (st : loop_state W) :
  length_invariant exact read st ->
  length_invariant exact (read + List.length lines) (run_loop tr lines st).
Proof.
  revert read st. induction lines as [|l lines IH]; intros read st H.
  - cbn. now rewrite Nat.add_0_r.
  - rewrite run_loop_cons. cbn [List.length].
    replace (read + S (List.length lines)) with (S read + List.length lines)
      by lia.
    now apply IH, step_length_invariant.
Qed.

Lemma translate_lines_length (lines : list string) (w : W) :
  if exact
  then List.length (translated_lines (translate_lines tr lines w))
       = List.length lines
  else List.length (translated_lines (translate_lines tr lines w))
       <= List.length lines.
Proof.
  unfold translate_lines.
  assert (H0 : length_invariant exact 0 (init w)).
  { unfold length_invariant. cbn. now destruct exact. }
  apply (run_loop_length_invariant lines) in H0. cbn [Nat.add] in H0.
  unfold length_invariant, flush in *.
  destruct (text_buffer (run_loop tr lines (init w))) as [|x xs] eqn:E.
  - cbn [List.length] in H0. destruct exact; lia.
  - destruct (translate_buffer_length (run_loop tr lines (init w)))
      as (H1 & H2 & H3); [rewrite E; discriminate|].
    cbv zeta in *. rewrite E in *. cbn [List.length] in *.
    destruct exact eqn:Ex; [|lia].
    rewrite H3 by apply (down eq_refl). lia.
Qed.

End SrtCalls.

Section SrtLines.
Import Srt.
Local Open Scope list_scope.

Variable W : Type.
Variable tr : string -> W -> res string * W.

(** X17.  The translated file never has more lines than the caption file
    read, and it has as many when every call of the service raises: a
    translation takes the place of the lines of text before a blank
    line, the fallback keeps them one for one. *)
Theorem translated_file_length (lines : list string) (w : W) :
  exists written,
    fst (fst (translate_srt_file tr (Ok lines) None w)) = Ok written /\
    List.length written <= List.length lines /\
    ((forall t w1, exists e w2, tr t w1 = (Raise e, w2)) ->
     List.length written = List.length lines).
Proof.
  eexists. split; [reflexivity|]. split.
  - apply (translate_lines_length W tr false); discriminate.
  - intros Hdown. apply (translate_lines_length W tr true). intros _. exact Hdown.
Qed.

Lemma step_no_text (st : loop_state W) (l : string) :
  is_text_line l = false -> text_buffer st = [] ->
  step tr st l = append_line (passed_on l) st.
Proof.
  unfold step, passed_on, is_text_line. intros Hl Hbuf.
  destruct (is_index_line l); [reflexivity|].
  destruct (is_timing_line l); [reflexivity|].
  destruct (is_blank_line l); [|discriminate].
  now rewrite Hbuf.
Qed.

Lemma run_loop_no_text (lines : list string) (st : loop_state W) :
  Forall (fun l => is_text_line l = false) lines ->
  text_buffer st = [] ->
  run_loop tr lines st =
  {| translated_lines := translated_lines st ++ map passed_on lines;
     text_buffer := [];
     service := service st;
     trace := trace st |}.
Proof.
  intros H. revert st. induction H as [|l lines Hl _ IH]; intros st Hbuf.
  - cbn. rewrite app_nil_r. destruct st; cbn in *. now subst.
  - rewrite run_loop_cons, (step_no_text st l Hl Hbuf), IH by exact Hbuf.
    cbn [append_line translated_lines text_buffer service trace map].
    now rewrite <- app_assoc.
Qed.

(** X18.  A caption file without a line of text is written back line by
    line, index lines and timing lines as they are and every blank line
    as a bare newline; the translation service is not called and
    nothing is logged. *)
Theorem no_text_no_calls (lines : list string) (w : W) :
  Forall (fun l => is_text_line l = false) lines ->
  translate_srt_file tr (Ok lines) None w
  = (Ok (map passed_on lines), w, []).
Proof.
  intros H. cbn [translate_srt_file]. unfold translate_lines.
  rewrite (run_loop_no_text lines (init w) H eq_refl). reflexivity.
Qed.

End SrtLines.

(** ** The answer of the translation service *)

Section ServiceFacts.
Import Deepseek.

Lemma rstrip_rstrip (s : string) : PyStr.rstrip (PyStr.rstrip s) = PyStr.rstrip s.
Proof.
  induction s as [|c s IH]; [reflexivity|]. cbn [PyStr.rstrip].
  destruct (PyStr.is_empty (PyStr.rstrip s) && PyStr.isspace c) eqn:E;
    [reflexivity|].
  cbn [PyStr.rstrip]. now rewrite IH, E.
Qed.

Lemma lstrip_of_solid (s : string) : solid s -> PyStr.lstrip s = s.
Proof. intros (c & s' & -> & Hc). cbn [PyStr.lstrip]. now rewrite Hc. Qed.

(** Stripping twice is stripping once. *)
Lemma strip_strip (s : string) : PyStr.strip (PyStr.strip s) = PyStr.strip s.
Proof.
  unfold PyStr.strip at 1.
  destruct (PyStr.is_empty (PyStr.strip s)) eqn:E.
  - destruct (PyStr.strip s); [reflexivity|discriminate].
  - rewrite (lstrip_of_solid _ (strip_solid s E)).
    unfold PyStr.strip. apply rstrip_rstrip.
Qed.

Variable W : Type.
Variable post : request -> W -> res response * W.

(** X19.  [translate_text_deepseek] returns only when the request was
    answered with a status outside 400..599 and a JSON body in which
    [choices[0].message.content] is a string; what it returns is that
    string without surrounding whitespace.  Whatever else happens ends
    in an exception: the one of [requests.post], the [HTTPError] of an
    error status, raised before the body is looked at, or the one of
    taking the body apart. *)
Theorem translation_is_stripped_content
        (text api_key : string) (w w' : W) (t : string) :
  translate_text_deepseek post text api_key w = (Ok t, w') ->
  PyStr.strip t = t /\
  exists r answer choices choice message raw,
    post (build_request text api_key) w = (Ok r, w') /\
    ((status_code r < 400)%Z \/ (600 <= status_code r)%Z) /\
    body r = Some answer /\
    Json.item answer "choices" = Ok choices /\
    Json.first choices = Ok choice /\
    Json.item choice "message" = Ok message /\
    Json.item message "content" = Ok (Json.Str raw) /\
    t = PyStr.strip raw.
Proof.
  unfold translate_text_deepseek.
  destruct (post (build_request text api_key) w) as [[r|e] w1] eqn:Ep;
    [|discriminate].
  unfold raise_for_status, content, Probe.and_then.
  destruct ((400 <=? status_code r)%Z && (status_code r <? 500)%Z) eqn:E4;
    [discriminate|].
  destruct ((500 <=? status_code r)%Z && (status_code r <? 600)%Z) eqn:E5;
    [discriminate|].
  destruct (body r) as [answer|] eqn:E1; [|discriminate].
  destruct (Json.item answer "choices") as [choices|] eqn:E2; [|discriminate].
  destruct (Json.first choices) as [choice|] eqn:E3; [|discriminate].
  destruct (Json.item choice "message") as [message|] eqn:E6; [|discriminate].
  destruct (Json.item message "content") as [c|] eqn:E7; [|discriminate].
  destruct c; try discriminate. cbn [Json.strip].
  intros H. injection H as <- <-. split; [apply strip_strip|].
  exists r, answer, choices, choice, message, s.
  repeat split; try assumption.
  apply andb_false_iff in E4, E5. rewrite Z.leb_gt, Z.ltb_ge in E4, E5. lia.
Qed.

End ServiceFacts.

(** ** The folder of a result *)

Section FolderFacts.
Import Folder.

(** X20.  [open_containing_folder] does one thing: it starts the file
    manager on a folder, or prints that the folder does not exist.  The
    folder it shows is always a directory: the path itself when that is
    one, the directory part of the path otherwise.  On POSIX a path
    without a separator that is no directory has an empty directory
    part, so for it nothing is shown, whether the file exists or not. *)
Theorem open_folder_shows_directories (os : system) (path : string) :
  (exists a, open_containing_folder os path = [a]) /\
  (forall a folder,
      In a (open_containing_folder os path) -> shown a = Some folder ->
      path_isdir os folder = true /\
      (folder = path \/ folder = path_dirname os path)) /\
  (path_exists os path = true -> path_isdir os path = true ->
   map shown (open_containing_folder os path) = [Some path]) /\
  (path_dirname os = dirname -> path_isdir os EmptyString = false ->
   PyStr.contains "/" path = false -> path_isdir os path = false ->
   open_containing_folder os path
   = [Print "Error: Folder does not exist at "]).
Proof.
  unfold open_containing_folder.
  split; [|split; [|split]].
  - destruct (negb (path_isdir os _)); [eauto|].
    destruct (String.eqb (platform os) "win32"); [eauto|].
    destruct (String.eqb (platform os) "darwin"); eauto.
  - intros a folder.
    set (f := if negb (path_exists os path) then path_dirname os path
              else if path_isdir os path then path else path_dirname os path).
    assert (Hf : f = path \/ f = path_dirname os path).
    { subst f. destruct (negb (path_exists os path)); [now right|].
      destruct (path_isdir os path); auto. }
    destruct (path_isdir os f) eqn:E; cbn [negb].
    + destruct (String.eqb (platform os) "win32");
        [|destruct (String.eqb (platform os) "darwin")];
        intros [<-|[]] H; injection H as <-; auto.
    + intros [<-|[]] H. discriminate.
  - intros He Hd. rewrite He, Hd. cbn [negb]. rewrite Hd. cbn [negb].
    destruct (String.eqb (platform os) "win32"); [reflexivity|].
    now destruct (String.eqb (platform os) "darwin").
  - intros Hdir Hempty Hplain Hno. rewrite Hdir, Hno.
    assert (Hd : dirname path = EmptyString).
    { unfold dirname. destruct path as [|c p]; [reflexivity|].
      cbn [head_of]. now rewrite Hplain. }
    rewrite Hd. destruct (negb (path_exists os path)); now rewrite Hempty.
Qed.

(** *** The directory part of a file in a directory *)

Lemma head_of_plain (s : string) :
  PyStr.contains "/" s = false -> head_of s = EmptyString.
Proof. intros H. destruct s; [reflexivity|]. cbn [head_of]. now rewrite H. Qed.

Lemma head_of_file (dir name : string) :
  PyStr.contains "/" name = false ->
  head_of (dir ++ "/" ++ name) = dir ++ "/".
Proof.
  intros H. induction dir as [|c dir IH].
  - pose proof (contains_append "/" EmptyString name) as Hc.
    change (head_of (String "/" name) = "/").
    change (PyStr.contains "/" (String "/" name) = true) in Hc.
    cbn [head_of]. now rewrite Hc, head_of_plain.
  - pose proof (contains_append "/" (String c dir) name) as Hc.
    change (head_of (String c (dir ++ "/" ++ name)) = String c (dir ++ "/")).
    change (PyStr.contains "/" (String c (dir ++ "/" ++ name)) = true) in Hc.
    cbn [head_of]. now rewrite Hc, IH.
Qed.

Lemma rstrip_sep_dir (dir : string) :
  dir <> EmptyString -> ends_with_sep dir = false ->
  rstrip_sep (dir ++ "/") = dir.
Proof.
  induction dir as [|c dir IH]; [congruence|]. intros _ He.
  cbn [append rstrip_sep]. destruct dir as [|d dir'].
  - cbn in *. now rewrite He.
  - rewrite IH; [reflexivity|discriminate|exact He].
Qed.

Lemma not_all_sep (dir : string) :
  dir <> EmptyString -> ends_with_sep dir = false ->
  PyStr.all (Ascii.eqb "/") (dir ++ "/") = false.
Proof.
  induction dir as [|c dir IH]; [congruence|]. intros _ He.
  cbn [append PyStr.all]. destruct dir as [|d dir'].
  - cbn [ends_with_sep] in He. now rewrite Ascii.eqb_sym, He.
  - rewrite IH; [apply andb_false_r|discriminate|exact He].
Qed.

Lemma dirname_file (dir name : string) :
  dir <> EmptyString -> ends_with_sep dir = false ->
  PyStr.contains "/" name = false ->
  dirname (dir ++ "/" ++ name) = dir.
Proof.
  intros Hne He Hn. unfold dirname. rewrite (head_of_file dir name Hn).
  rewrite (not_all_sep dir Hne He).
  destruct dir as [|c dir]; [congruence|]. cbn [append PyStr.is_empty negb andb].
  now apply (rstrip_sep_dir (String c dir)).
Qed.

Lemma drop_last (dir : string) :
  dir <> EmptyString ->
  String.eqb (PyStr.drop (length dir - 1) dir) "/" = ends_with_sep dir.
Proof.
  induction dir as [|c dir IH]; [congruence|]. intros _.
  cbn [length]. replace (S (length dir) - 1) with (length dir) by lia.
  destruct dir as [|d dir'].
  - cbn. now destruct (Ascii.eqb c "/").
  - cbn [length PyStr.drop].
    replace (length dir') with (length (String d dir') - 1) by (cbn; lia).
    now rewrite IH.
Qed.

Lemma separator_dir (dir : string) :
  separator dir = "/" -> dir <> EmptyString /\ ends_with_sep dir = false.
Proof.
  unfold separator. destruct dir as [|c dir]; [discriminate|].
  cbn [PyStr.is_empty]. rewrite drop_last by discriminate.
  destruct (ends_with_sep (String c dir)); [discriminate|]. now split.
Qed.

Lemma contains_sep_cons (c : ascii) (s : string) :
  PyStr.contains "/" (String c s) = Ascii.eqb c "/" || PyStr.contains "/" s.
Proof.
  cbn [PyStr.contains prefix].
  destruct (ascii_dec "/" c) as [<-|Hne].
  - now destruct s.
  - apply not_eq_sym, Ascii.eqb_neq in Hne. now rewrite Hne.
Qed.

Lemma no_sep_append (a b : string) :
  PyStr.contains "/" a = false -> PyStr.contains "/" b = false ->
  PyStr.contains "/" (a ++ b) = false.
Proof.
  intros Ha Hb. induction a as [|c a IH]; [exact Hb|].
  cbn [append]. rewrite contains_sep_cons in *.
  apply orb_false_iff in Ha as [Hc Ha]. now rewrite Hc, IH.
Qed.

Lemma base_name_no_sep (title : string) :
  PyStr.contains "/" (Pipeline.base_name title) = false.
Proof.
  pose proof (base_name_sanitized title) as H.
  induction (Pipeline.base_name title) as [|c s IH]; [reflexivity|].
  cbn [PyStr.all] in H. apply andb_true_iff in H as [Hc Hs].
  rewrite contains_sep_cons, (IH Hs), orb_false_r.
  apply negb_true_iff in Hc. unfold Pipeline.path_hostile in Hc.
  cbn [existsb] in Hc. apply orb_false_iff in Hc as [_ Hc].
  now apply orb_false_iff in Hc as [Hc _].
Qed.

(** X21.  For the result of a video run whose output directory neither
    is empty nor ends with a separator, [open_containing_folder] shows
    the output directory, when that is a directory: the directory part
    of the path of the result is the output directory again. *)
Theorem open_folder_of_video_result
        (os : system) (o : Pipeline.options) (title : string) :
  path_dirname os = dirname ->
  separator (Pipeline.output_dir o) = "/" ->
  path_isdir os (Pipeline.output_dir o) = true ->
  path_isdir os (Pipeline.final_video_path o title) = false ->
  dirname (Pipeline.final_video_path o title) = Pipeline.output_dir o /\
  map shown (open_containing_folder os (Pipeline.final_video_path o title))
  = [Some (Pipeline.output_dir o)].
Proof.
  intros Hdir Hsep Hout Hfile.
  assert (Hd : dirname (Pipeline.final_video_path o title)
               = Pipeline.output_dir o).
  { unfold Pipeline.final_video_path.
    rewrite path_join_relative by (apply base_name_relative; reflexivity).
    rewrite Hsep. destruct (separator_dir _ Hsep) as [Hne He].
    apply dirname_file; [assumption..|].
    apply no_sep_append; [apply base_name_no_sep|reflexivity]. }
  split; [exact Hd|].
  unfold open_containing_folder. rewrite Hdir, Hfile, Hd.
  assert (Hf : (if negb (path_exists os (Pipeline.final_video_path o title))
                then Pipeline.output_dir o else Pipeline.output_dir o)
               = Pipeline.output_dir o) by now destruct (negb _).
  rewrite Hf, Hout. cbn [negb].
  destruct (String.eqb (platform os) "win32"); [reflexivity|].
  now destruct (String.eqb (platform os) "darwin").
Qed.

End FolderFacts.

(** ** Starting a run *)

Section StartFacts.
Import Url Gui.

Lemma clean_idempotent (u : string) :
  clean_youtube_url (clean_youtube_url u) = clean_youtube_url u.
Proof.
  unfold clean_youtube_url at 2 3.
  destruct (first_match patterns u) as [m|] eqn:E.
  - apply first_match_canonical in E as (p & ids & rest & Hp & Hid & _ & ->).
    rewrite <- (append_nil_r (p ++ ids)) at 1. rewrite append_assoc.
    now apply clean_canonical.
  - unfold clean_youtube_url. now rewrite E.
Qed.

Lemma clean_not_empty (u : string) :
  PyStr.is_empty u = false -> PyStr.is_empty (clean_youtube_url u) = false.
Proof.
  intros Hu. unfold clean_youtube_url.
  destruct (first_match patterns u) as [m|] eqn:E; [|exact Hu].
  apply first_match_canonical in E as (p & ids & rest & Hp & Hid & _ & ->).
  unfold url_prefixes, watch_prefixes, short_prefixes in Hp. cbn [app In] in Hp.
  repeat (destruct Hp as [<-|Hp]; [reflexivity|]). contradiction.
Qed.

(** X22.  [start_processing] starts a thread only for a URL that is not
    blank and, for a video, with an API key; otherwise it shows a
    warning and leaves the buttons, the thread and the history as they
    are.  The thread gets the cleaned URL, which is not empty and which
    cleaning again leaves as it is; its type is [Video] or [Audio]; a
    video run has a key that is not empty, an audio run the quality
    [N/A].  Start is then disabled and Cancel enabled. *)
Theorem start_processing_validates (f : form) (win : window) :
  let win' := start_processing f win in
  let o := options_of f in
  if PyStr.is_empty (PyStr.strip (url_input f))
     || ((type_index f =? 0)%Z && PyStr.is_empty (api_key_input f))
  then
    processing_thread win' = processing_thread win /\
    start_btn win' = start_btn win /\ cancel_btn win' = cancel_btn win /\
    saved win' = saved win /\
    exists caption text, dialogs win' = (dialogs win ++ [Warning caption text])%list
  else
    processing_thread win' = Some o /\ current_options win' = Some o /\
    current_title win' = None /\
    start_btn win' = false /\ cancel_btn win' = true /\
    dialogs win' = dialogs win /\
    Pipeline.url o = clean_youtube_url (PyStr.strip (url_input f)) /\
    PyStr.is_empty (Pipeline.url o) = false /\
    clean_youtube_url (Pipeline.url o) = Pipeline.url o /\
    (Pipeline.type o = "Video" \/
     (Pipeline.type o = "Audio" /\ Pipeline.quality o = "N/A")) /\
    (String.eqb (Pipeline.type o) "Audio" = false ->
     PyStr.is_empty (Pipeline.api_key o) = false).
Proof.
  intros win' o. subst win' o. unfold start_processing.
  assert (Htype : String.eqb (Pipeline.type (options_of f)) "Video"
                  = (type_index f =? 0)%Z).
  { unfold options_of. cbn [Pipeline.type]. now destruct (type_index f =? 0)%Z. }
  assert (Hkey : Pipeline.api_key (options_of f) = api_key_input f)
    by reflexivity.
  rewrite Htype, Hkey.
  destruct (PyStr.is_empty (PyStr.strip (url_input f))) eqn:Eu; cbn [orb].
  { cbn. repeat split. eauto. }
  assert (Hstarted :
    Pipeline.url (options_of f) = clean_youtube_url (PyStr.strip (url_input f)) /\
    PyStr.is_empty (Pipeline.url (options_of f)) = false /\
    clean_youtube_url (Pipeline.url (options_of f)) = Pipeline.url (options_of f) /\
    (Pipeline.type (options_of f) = "Video" \/
     (Pipeline.type (options_of f) = "Audio" /\
      Pipeline.quality (options_of f) = "N/A"))).
  { unfold options_of. cbn [Pipeline.url Pipeline.type Pipeline.quality].
    split; [reflexivity|]. split; [now apply clean_not_empty|].
    split; [apply clean_idempotent|].
    destruct (type_index f =? 0)%Z; auto. }
  destruct (type_index f =? 0)%Z eqn:Et; cbn [andb].
  - destruct (PyStr.is_empty (api_key_input f)) eqn:Ek.
    + cbn. repeat split. eauto.
    + cbn [processing_thread current_options current_title start_btn
           cancel_btn dialogs]. intuition.
  - cbn [processing_thread current_options current_title start_btn
         cancel_btn dialogs].
    assert (String.eqb (Pipeline.type (options_of f)) "Audio" = true).
    { unfold options_of. cbn [Pipeline.type]. now rewrite Et. }
    intuition congruence.
Qed.

End StartFacts.

(** ** The window after a run *)

Section WindowFacts.
Import Pipeline Gui.
Local Open Scope list_scope.

Variable W : Type.
Variable w : world W.
Variable o : options.

Lemma after_app (a b : list event) (win : window) :
  after (a ++ b) win = after b (after a win).
Proof. apply fold_left_app. Qed.

(** Only a terminal result touches the buttons, the thread and the
    history. *)
Lemma after_quiet (tr : list event) (win : window) :
  results tr = [] ->
  start_btn (after tr win) = start_btn win /\
  cancel_btn (after tr win) = cancel_btn win /\
  processing_thread (after tr win) = processing_thread win /\
  current_options (after tr win) = current_options win /\
  saved (after tr win) = saved win /\
  dialogs (after tr win) = dialogs win.
Proof.
  revert win. induction tr as [|e tr IH]; intros win H; [easy|].
  unfold results in H. cbn [filter] in H.
  destruct (is_finished e) eqn:E; [discriminate|].
  unfold after in *. cbn [fold_left].
  destruct (IH (deliver win e) H) as (H1 & H2 & H3 & H4 & H5 & H6).
  rewrite H1, H2, H3, H4, H5, H6. now destruct e.
Qed.

Lemma after_title (tr : list event) (win : window) :
  current_title (after tr win) = last_title tr (current_title win).
Proof.
  revert win. induction tr as [|e tr IH]; intros win; [reflexivity|].
  unfold after in *. cbn [fold_left]. rewrite IH. now destruct e.
Qed.

Lemma last_title_app (a b : list event) (t0 : option string) :
  last_title (a ++ b) t0 = last_title b (last_title a t0).
Proof.
  revert t0. induction a as [|e a IH]; intros t0; [reflexivity|].
  destruct e; cbn [app last_title]; apply IH.
Qed.

Lemma last_title_kept (tr : list event) (t0 : option string) :
  forallb no_info tr = true -> last_title tr t0 = t0.
Proof.
  induction tr as [|e tr IH]; [reflexivity|]. cbn [forallb].
  intros H. apply andb_true_iff in H as [He Htr].
  destruct e; try discriminate; cbn [last_title]; auto.
Qed.

(** The worker emits the event of the metadata in [run] only. *)
Lemma only_checked (allowed : event -> bool) (stage rest : M unit) :
  only allowed stage -> only allowed rest -> only allowed (checked w stage rest).
Proof.
  intros Hs Hr. unfold checked.
  apply only_bind; [exact Hs|intros _ _ _].
  apply only_bind; [apply only_is_cancelled|intros _ c _].
  destruct c; [apply only_ret|exact Hr].
Qed.

Lemma only_stages_then (allowed : event -> bool) (stages : list (M unit))
      (last : M unit) :
  Forall (only allowed) stages -> only allowed last ->
  only allowed (stages_then w stages last).
Proof.
  intros Hs Hl. induction Hs as [|s ss Hs _ IH]; [exact Hl|].
  cbn [stages_then]. now apply only_checked.
Qed.

Lemma only_synthesize (v s out : string) :
  only (fun e => tool_event e || is_stage e) (_synthesize_video W w v s out).
Proof.
  unfold _synthesize_video.
  apply only_bind; [apply only_emit; reflexivity|intros ? ? ?].
  apply only_bind; [apply only_lift|intros ? ? ?].
  eapply only_weaken; [|apply only_encode]. now intros e ->.
Qed.

Lemma branch_no_info (title : string) :
  only no_info (if String.eqb (type o) "Audio" then _download_audio W w o title
                else _process_video W w o title).
Proof.
  destruct (String.eqb (type o) "Audio").
  - unfold _download_audio.
    apply only_bind; [apply only_emit; reflexivity|intros ? ? ?].
    apply only_bind;
      [eapply only_weaken; [|apply only_ydl_download]; now intros []
      |intros ? ? ?].
    apply only_bind; [apply only_is_cancelled|intros ? c ?].
    destruct c; [apply only_ret|apply only_emit; reflexivity].
  - rewrite process_video_stages. apply only_stages_then.
    + unfold video_stages.
      repeat constructor;
        (eapply only_weaken;
         [|first [apply only_download_video | apply only_extract
                 | apply only_translate | apply only_synthesize]]);
        now intros [].
    + apply only_emit. reflexivity.
Qed.

(** The title in the dictionary after the events of a run. *)
Lemma run_last_title :
  last_title (run_trace W w o) None
  = match info W w with Ok t => Some t | Raise _ => None end.
Proof.
  unfold run_trace. rewrite run_unfold, run_body_unfold. cbv zeta.
  destruct (info W w) as [title|e]; [|reflexivity].
  destruct (flag W w 0); [reflexivity|].
  pose proof (branch_no_info title 1) as H. unfold events in H.
  set (branch := if String.eqb (type o) "Audio"
                 then _download_audio W w o title
                 else _process_video W w o title) in *.
  destruct (branch 1) as [[[u|e] n1] ev1]; cbn [snd app last_title] in *.
  - now apply last_title_kept.
  - rewrite last_title_app, (last_title_kept _ _ H). reflexivity.
Qed.

(** A terminal result is the last event of a run. *)
Lemma result_is_last (success : bool) (msg path : string) :
  In (Finished success msg path) (run_trace W w o) ->
  exists pre, run_trace W w o = pre ++ [Finished success msg path] /\
              results pre = [].
Proof.
  unfold run_trace. rewrite run_unfold.
  pose proof (run_body_at_most_one W w o 0) as H.
  destruct (run_body W w o 0) as [[[a|e] n1] ev]; cbn [snd].
  - intros Hin. destruct H as [H|(pre & m & p & -> & Hpre)].
    + now apply finished_not_in in Hin.
    + apply in_app_or in Hin as [Hin|[Hin|[]]].
      * now apply finished_not_in in Hin.
      * injection Hin as <- <- <-. now exists pre.
  - intros Hin. apply in_app_or in Hin as [Hin|[Hin|[Hin|[]]]];
      [now apply finished_not_in in Hin|discriminate|].
    injection Hin as <- <- <-.
    exists (ev ++ [Log ("[ERROR] A critical error occurred: " ++ exn_str e)%string]).
    unfold failure_events. rewrite <- app_assoc. split; [reflexivity|].
    now rewrite results_app, H.
Qed.

(** X23.  When a run ends with a terminal result, the window is ready
    for the next run: Start is enabled, Cancel disabled and the thread
    dropped.  One row goes to the history, with the status [Completed]
    or [Failed], the path of the result, the URL, type and quality of
    the run, and the title the worker wrote into the shared options,
    [Unknown Title] when the metadata could not be fetched.  The label
    reads [Finished!] or [Error!], and the last line of the log is the
    message of the result. *)
Theorem finished_run_unlocks_window
        (win : window) (success : bool) (msg path : string) :
  current_options win = Some o ->
  current_title win = None ->
  In (Finished success msg path) (run_trace W w o) ->
  let win' := after (run_trace W w o) win in
  start_btn win' = true /\ cancel_btn win' = false /\
  processing_thread win' = None /\
  saved win' = saved win ++ [row_of w o success path] /\
  stage_label win' = (if success then "Finished!" else "Error!")%string /\
  (success = true -> progress_bar win' = 100%Z) /\
  exists log,
    log_box win'
    = log ++ [((if success then "[SUCCESS] " else "[ERROR] ") ++ msg)%string].
Proof.
  intros Hopt Htitle Hin win'. subst win'.
  pose proof run_last_title as Hlast.
  destruct (result_is_last success msg path Hin) as (pre & Htr & Hpre).
  rewrite Htr in *. rewrite after_app.
  destruct (after_quiet pre win Hpre) as (_ & _ & _ & Ho & Hs & _).
  pose proof (after_title pre win) as Ht.
  rewrite last_title_app in Hlast. cbn [last_title] in Hlast.
  rewrite Htitle, Hlast in Ht.
  change (after [Finished success msg path] (after pre win))
    with (process_finished success msg path (after pre win)).
  unfold process_finished.
  cbn [start_btn cancel_btn processing_thread saved stage_label progress_bar
       log_box].
  rewrite Ho, Hs, Ht, Hopt. cbn [option_map].
  repeat split.
  - unfold row_of. now destruct (info W w).
  - now intros ->.
  - eexists. reflexivity.
Qed.

(** X24.  A run that ends without a terminal result leaves the window
    as [start_processing] and [cancel_processing] left it: whenever the
    click on Cancel comes, Start stays disabled, Cancel is disabled
    too, the thread is kept and nothing goes to the history.  Such are
    the runs that terminate a child process and the runs that see the
    flag at their first check. *)
Theorem silent_run_locks_window
        (win : window) (pre post : list event) :
  In Terminate (run_trace W w o) \/
  (cancel_at W w = Some 0 /\ exists title, info W w = Ok title) ->
  run_trace W w o = pre ++ post ->
  processing_thread win = Some o ->
  start_btn win = false ->
  let win' := after post (cancel_processing true (after pre win)) in
  start_btn win' = false /\ cancel_btn win' = false /\
  processing_thread win' = Some o /\ saved win' = saved win.
Proof.
  intros Hsilent Htr Hthread Hstart win'. subst win'.
  assert (Hres : results (run_trace W w o) = []).
  { destruct Hsilent as [Hin|(Hc & title & Hinfo)].
    - revert Hin. unfold run_trace. rewrite run_unfold.
      pose proof (orderly_run_body W w o 0) as H.
      destruct (run_body W w o 0) as [[[a|e] n1] ev]; cbn [snd]; intros Hin.
      + destruct H as [H|(_ & Hres & _)]; [contradiction|exact Hres].
      + exfalso. destruct H as [H|(_ & _ & _ & a & Ha)]; [|discriminate].
        apply in_app_or in Hin as [Hin|[Hin|[Hin|[]]]]; [contradiction|..];
          discriminate.
    - unfold run_trace. rewrite run_unfold, run_body_unfold. cbv zeta.
      rewrite Hinfo. unfold flag. now rewrite Hc. }
  rewrite Htr, results_app in Hres. apply app_eq_nil in Hres as [Hpre Hpost].
  destruct (after_quiet pre win Hpre) as (H1 & H2 & H3 & _ & H5 & _).
  destruct (after_quiet post (cancel_processing true (after pre win)) Hpost)
    as (G1 & G2 & G3 & _ & G5 & _).
  rewrite G1, G2, G3, G5. unfold cancel_processing. rewrite H3, Hthread.
  cbn [start_btn cancel_btn processing_thread saved].
  rewrite ?H1, ?H3, ?H5. auto.
Qed.

End WindowFacts.

(** ** More sample runs *)

Section MoreSamples.
Import Pipeline.

(** Looks an event up in a list that is given. *)
Ltac find_event := vm_compute; repeat first [left; reflexivity | right].

Lemma success_needs_every_stage_witness :
  exists title,
    info nat (sample_world None) = Ok title /\
    download_error (downloader nat (sample_world None)) = None /\
    returncode (whisper nat (sample_world None)) = 0%Z /\
    returncode (ffmpeg nat (sample_world None)) = 0%Z.
Proof.
  destruct (success_needs_every_stage nat (sample_world None)
              (sample_options "Video")
              "Video processing completed successfully!"
              "out/ACDC Live_translated.mp4" ltac:(find_event))
    as (title & Hinfo & Hdl & Hrest).
  exists title. change (String.eqb (type (sample_options "Video")) "Audio")
    with false in Hrest. cbv iota in Hrest. tauto.
Defined.

Lemma run_succeeds_when_stages_do_witness :
  results (run_trace nat (sample_world None) (sample_options "Video"))
  = [Finished true "Video processing completed successfully!"
              "out/ACDC Live_translated.mp4"].
Proof.
  assert (Hall : forall (A : Type) (f : A -> res (list event))
                        (l : list A),
             forallb (fun a => match f a with Ok _ => true | Raise _ => false end)
                     l = true ->
             Forall (fun a => exists evs, f a = Ok evs) l).
  { intros A f l H. apply Forall_forall. intros a Ha.
    rewrite forallb_forall in H. specialize (H a Ha).
    destruct (f a) as [evs|e]; [now exists evs|discriminate]. }
  refine (run_succeeds_when_stages_do nat (sample_world None)
            (sample_options "Video") eq_refl hostile_title _ _ eq_refl _).
  - vm_compute. reflexivity.
  - apply Hall. vm_compute. reflexivity.
  - intros _.
    split; [reflexivity|]. split; [reflexivity|]. split; [reflexivity|].
    split; [eexists; vm_compute; reflexivity|]. split; [reflexivity|].
    split; [eexists; vm_compute; reflexivity|].
    split; [|split; reflexivity].
    exists (PyFloat.of_int 180). split; [vm_compute; reflexivity|].
    apply Hall. vm_compute. reflexivity.
Defined.

Lemma terminate_ends_run_witness :
  results (run_trace nat (sample_world (Some 4)) (sample_options "Video")) = [].
Proof.
  apply (terminate_ends_run nat (sample_world (Some 4)) (sample_options "Video")).
  find_event.
Defined.

Lemma cancelled_download_fails_witness :
  results (run_trace nat (sample_world (Some 2)) (sample_options "Video"))
  = [Finished false "The download was cancelled" EmptyString].
Proof.
  apply (cancelled_download_fails nat (sample_world (Some 2))
           (sample_options "Video") hostile_title 2).
  - reflexivity.
  - reflexivity.
  - cbn. lia.
  - repeat constructor. eexists. vm_compute. reflexivity.
Defined.

Lemma missing_key_fails_late_witness :
  results (run_trace nat (sample_world None) keyless_options)
  = [Finished false
       "DeepSeek API Key is missing. Please set it in the Settings tab."
       EmptyString] /\
  calls (run_trace nat (sample_world None) keyless_options) = [] /\
  stage_labels (run_trace nat (sample_world None) keyless_options)
  = firstn 4 video_labels.
Proof.
  apply (missing_key_fails_late nat (sample_world None) keyless_options
           hostile_title); reflexivity.
Defined.

(** In the sample world whose probe of the stream answers 834200, that
    is the bit rate, and the encoder is started with it. *)
Lemma bitrate_is_positive_number_witness :
  get_video_bitrate nat probed_world = Ok (Some "834200") /\
  (0 < PyFloat.digits "834200")%Z /\
  events (_synthesize_video nat probed_world "in.mp4" "in_zh.srt" "out.mp4" 0)
  = [StageChanged "Step 4/4: Encoding Final Video (FFmpeg)";
     Log "[INFO] Detected original bitrate: 834200 bps. Using it for encoding.";
     Log "[CMD] ffmpeg -i in.mp4 -vf subtitles='/home/user/in_zh.srt' -c:v libx264 -preset medium -b:v 834200 -c:a copy -y out.mp4";
     Spawn ["ffmpeg"; "-i"; "in.mp4"; "-vf";
            "subtitles='/home/user/in_zh.srt'";
            "-c:v"; "libx264"; "-preset"; "medium"; "-b:v"; "834200";
            "-c:a"; "copy"; "-y"; "out.mp4"];
     Log encoder_line_half;
     Progress 50 "50% encoded";
     Wait].
Proof.
  pose proof (bitrate_is_positive_number nat probed_world "834200"
                "in.mp4" "in_zh.srt" "out.mp4" 0 eq_refl)
    as (_ & _ & _ & Hpos & _ & Hev & _).
  split; [reflexivity|]. split; [exact Hpos|].
  destruct (Hev (PyFloat.of_int 180) eq_refl eq_refl) as [-> _].
  vm_compute. reflexivity.
Defined.

Lemma no_text_no_calls_witness :
  Srt.translate_srt_file down (Ok textless_file) None tt
  = (Ok [line "1"; line "00:00:01,000 --> 00:00:02,500"; PyStr.newline], tt, []).
Proof.
  apply (no_text_no_calls unit down textless_file tt).
  repeat constructor.
Defined.

Lemma download_percent_exact_witness :
  Interp.progress_hook false
    {| Interp.status := "downloading";
       Interp.percent_str := Some " 45.3%";
       Interp.speed_str := None |}
  = Ok [Progress 45 "N/A"].
Proof.
  apply (download_percent_exact 45 3 None); lia.
Defined.

Lemma translation_is_stripped_content_witness :
  Deepseek.translate_text_deepseek answering "Guten Morgen." "sk-test" 0
  = (Ok "Good morning.", 1) /\
  PyStr.strip "Good morning." = "Good morning.".
Proof.
  split; [reflexivity|].
  apply (translation_is_stripped_content nat answering
           "Guten Morgen." "sk-test" 0 1 "Good morning." eq_refl).
Defined.

Lemma open_folder_of_video_result_witness :
  Folder.open_containing_folder sample_system
    (final_video_path (sample_options "Video") hostile_title)
  = [Folder.Popen ["xdg-open"; "out"]] /\
  Folder.dirname (final_video_path (sample_options "Video") hostile_title)
  = "out".
Proof.
  split; [reflexivity|].
  apply (open_folder_of_video_result sample_system (sample_options "Video")
           hostile_title); reflexivity.
Defined.

Lemma finished_run_unlocks_window_witness :
  let win := Gui.start_processing sample_form fresh_window in
  let win' := Gui.after (run_trace nat (sample_world None)
                           (Gui.options_of sample_form)) win in
  Gui.start_btn win = false /\
  Gui.start_btn win' = true /\
  Gui.saved win'
  = [ {| Gui.title := hostile_title;
         Gui.url := Some "https://youtu.be/abc123";
         Gui.process_type := Some "Video";
         Gui.quality := Some "720p";
         Gui.final_path := "out/ACDC Live_translated.mp4";
         Gui.status := "Completed" |} ].
Proof.
  cbv zeta. split; [reflexivity|].
  destruct (finished_run_unlocks_window nat (sample_world None)
              (Gui.options_of sample_form)
              (Gui.start_processing sample_form fresh_window)
              true "Video processing completed successfully!"
              "out/ACDC Live_translated.mp4"
              eq_refl eq_refl ltac:(find_event))
    as (H1 & _ & _ & H4 & _).
  split; [exact H1|]. rewrite H4. reflexivity.
Defined.

Lemma silent_run_locks_window_witness :
  let win := Gui.start_processing sample_form fresh_window in
  let tr := run_trace nat (sample_world (Some 4)) (Gui.options_of sample_form) in
  let win' := Gui.after (skipn 9 tr)
                (Gui.cancel_processing true (Gui.after (firstn 9 tr) win)) in
  Gui.start_btn win' = false /\ Gui.cancel_btn win' = false /\
  Gui.processing_thread win' = Some (Gui.options_of sample_form) /\
  Gui.saved win' = [].
Proof.
  cbv zeta.
  apply (silent_run_locks_window nat (sample_world (Some 4))
           (Gui.options_of sample_form)
           (Gui.start_processing sample_form fresh_window)).
  - left. find_event.
  - symmetry. apply firstn_skipn.
  - reflexivity.
  - reflexivity.
Defined.

Lemma translation_runs_to_end_witness :
  let stage := _translate_subtitles nat (sample_world (Some 0))
                 (sample_options "Video") "a.srt" "a_zh.srt" 7 in
  outcome stage = Ok tt /\ reads stage = 7 /\
  calls (events stage) = ["Good morning, everyone."; "Let us begin."].
Proof.
  cbv zeta.
  destruct (translation_runs_to_end nat (sample_world (Some 0))
              (sample_options "Video") "a.srt" "a_zh.srt"
              (Srt.caption_file true two_blocks) 7 eq_refl eq_refl eq_refl)
    as (H1 & H2 & H3).
  split; [exact H1|]. split; [exact H2|]. rewrite H3. reflexivity.
Defined.

End MoreSamples.
